(** * AutoML-PRS: threshold-aware preprocessing, min-max scaling,
    partitioned-ensemble training and the early-stopping fit protocol.

    A shallow embedding of [automl_prs/linear_estimators.py] and
    [automl_prs/lgbm_estimators.py].  Python classes are Rocq modules,
    attributes that a method assigns are threaded explicitly, exceptions are
    the [Raise] branch of [result], float64 cells are primitive binary64
    floats, and keyword dictionaries are finite maps keyed by strings.
    Console output ([print], [pprint], [tqdm] bars, [logger.debug]) carries
    no data and is left out. *)

From Stdlib Require Import Floats ZArith.
From stdpp Require Import gmap strings list.

(** ** Python values, exceptions and results *)

(** The values a hyperparameter or a keyword argument holds.  A callback
    handed to the learner is the early-stopping callback that
    [lightgbm.early_stopping(stopping_rounds=...)] builds, or one of the
    caller's own. *)
Inductive pyval : Type :=
| VNone
| VBool (b : bool)
| VInt (z : Z)
| VFloat (x : float)
| VStr (s : string)
| VIntArray (a : list Z)
| VCallbacks (cbs : list callback)
with callback : Type :=
| EarlyStopping (stopping_rounds : pyval)
| UserCallback (name : string).

Inductive exn : Type :=
| AssertionError (msg : string)
| AttributeError
| KeyError (key : pyval)
| IndexError
| IndexingError
| TypeError
| ValueError
| ZeroDivisionError
| DuplicateError (column : string)
| ColumnNotFoundError (column : string)
| OverflowError
| ShapeError
| LearnerError (msg : string).

Inductive result (A : Type) : Type :=
| Ok (a : A)
| Raise (e : exn).
Arguments Ok {A} a.
Arguments Raise {A} e.

#[global] Instance result_ret : MRet result := fun A a => Ok a.
#[global] Instance result_bind : MBind result := fun A B f m =>
  match m with
  | Ok a => f a
  | Raise e => Raise e
  end.
#[global] Instance result_fmap : FMap result := fun A B f m =>
  match m with
  | Ok a => Ok (f a)
  | Raise e => Raise e
  end.

Definition is_ok {A} (r : result A) : bool :=
  match r with Ok _ => true | Raise _ => false end.

(** A table of float64 cells with named columns, kept row by row; row [i] of
    the table is element [i] of [rows], whatever the backend. *)
Record frame : Type := Frame {
  columns : list string;
  rows : list (list float)
}.

(** A pandas [Series] labelled by strings (what [DataFrame.min(axis=0)]
    returns: one value per column label). *)
Record series : Type := Series {
  index : list string;
  values : list float
}.

(** The objects the estimators receive as [X] or [y]: the two dataframe
    backends, a pandas [Series], and numpy arrays of one and two dimensions
    standing for every other kind of object. *)
Inductive pyobj : Type :=
| PyNone
| PdDataFrame (f : frame)
| PdSeries (v : list float)
| PlDataFrame (f : frame)
| NdArray1 (v : list float)
| NdArray2 (a : list (list float)).

Definition is_pd_DataFrame (X : pyobj) : bool :=
  match X with PdDataFrame _ => true | _ => false end.
Definition is_pl_DataFrame (X : pyobj) : bool :=
  match X with PlDataFrame _ => true | _ => false end.

(** [len(obj)] *)
Definition len (o : pyobj) : result nat :=
  match o with
  | PyNone => Raise TypeError
  | PdDataFrame f | PlDataFrame f => Ok (length (rows f))
  | PdSeries v | NdArray1 v => Ok (length v)
  | NdArray2 a => Ok (length a)
  end.

(** [np.zeros(n)] *)
Definition np_zeros (n : nat) : list float := replicate n 0%float.

(** A Python [int] used as a float operand: an integer of any size is
    rounded to the nearest binary64 number, ties to even, and one that is
    too large for a finite float raises [OverflowError]. *)
Definition float_of_Z (z : Z) : result float :=
  match binary_normalize prec emax z 0 false with
  | S754_infinity _ => Raise OverflowError
  | q => Ok (SF2Prim q)
  end.

(** ** Column statistics and label alignment *)

(** Both backends skip missing (NaN) cells when they reduce a column and
    give NaN for a column with no value at all. *)
Definition min_step (acc x : float) : float :=
  if is_nan x then acc
  else if is_nan acc then x
  else if (x <? acc)%float then x else acc.

Definition max_step (acc x : float) : float :=
  if is_nan x then acc
  else if is_nan acc then x
  else if (acc <? x)%float then x else acc.

Definition column_min (xs : list float) : float := foldl min_step nan xs.
Definition column_max (xs : list float) : float := foldl max_step nan xs.

Definition get_column (f : frame) (j : nat) : list float :=
  map (fun r => default nan (r !! j)) (rows f).

Definition frame_min (f : frame) : list float :=
  imap (fun j _ => column_min (get_column f j)) (columns f).
Definition frame_max (f : frame) : list float :=
  imap (fun j _ => column_max (get_column f j)) (columns f).

(** [list.index(x)]: position of the first occurrence. *)
Fixpoint list_index (x : string) (l : list string) : option nat :=
  match l with
  | [] => None
  | y :: l' => if decide (x = y) then Some 0 else S <$> list_index x l'
  end.

Definition label_lookup (c : string) (labels : list string)
    (vals : list float) : option float :=
  list_index c labels ≫= fun j => vals !! j.

Fixpoint insert_sorted (s : string) (l : list string) : list string :=
  match l with
  | [] => [s]
  | x :: l' => if String.leb s x then s :: l else x :: insert_sorted s l'
  end.

Definition sort_labels (l : list string) : list string :=
  foldr insert_sorted [] l.

(** pandas aligns the two operands of an arithmetic operation on their
    labels before it computes: equal indexes are kept as they are, otherwise
    the result carries the sorted union of the labels. *)
Definition index_union (a b : list string) : list string :=
  if decide (a = b) then a
  else match a, b with
       | _, [] => a
       | [], _ => b
       | _, _ => sort_labels (remove_dups (a ++ b))
       end.

(** A label missing on either side gives NaN. *)
Definition aligned_op (op : float -> float -> float)
    (a b : option float) : float :=
  match a, b with
  | Some x, Some y => op x y
  | _, _ => nan
  end.

(** [DataFrame op Series]: the series is matched to the columns by label
    and applied to every row. *)
Definition frame_op_series (op : float -> float -> float)
    (f : frame) (s : series) : frame :=
  let cols := index_union (columns f) (index s) in
  Frame cols
    (map (fun r =>
            map (fun c => aligned_op op (label_lookup c (columns f) r)
                                        (label_lookup c (index s) (values s)))
                cols)
         (rows f)).

(** [Series op Series] *)
Definition series_op (op : float -> float -> float)
    (a b : series) : series :=
  let idx := index_union (index a) (index b) in
  Series idx
    (map (fun c => aligned_op op (label_lookup c (index a) (values a))
                                 (label_lookup c (index b) (values b)))
         idx).

(** [DataFrame op ndarray] with a one-dimensional array: applied by position
    to every row; pandas refuses an array whose length is not the number of
    columns. *)
Definition frame_op_array (op : float -> float -> float)
    (f : frame) (a : list float) : result frame :=
  if decide (length a = length (columns f))
  then Ok (Frame (columns f) (map (fun r => zip_with op r a) (rows f)))
  else Raise ValueError.

(** [ndarray op ndarray], one-dimensional, with numpy's broadcasting of a
    length-one operand. *)
Definition array_op (op : float -> float -> float)
    (a b : list float) : result (list float) :=
  if decide (length a = length b) then Ok (zip_with op a b)
  else match a, b with
       | [x], _ => Ok (map (op x) b)
       | _, [y] => Ok (map (fun x => op x y) a)
       | _, _ => Raise ValueError
       end.

(** [X.with_columns(col.alias(name))] where [name] is column [j] of [X]:
    the column is replaced in place. *)
Definition with_column (f : frame) (j : nat) (col : list float) : frame :=
  Frame (columns f) (zip_with (fun r x => <[j := x]> r) (rows f) col).

(** ** [CustomMinMaxScaler] *)

Module CustomMinMaxScaler.

(** The attributes [min_vals] and [max_vals].  [__init__] sets both to
    [None] and [fit] is the only other place that assigns them, both at once
    and from one table, so an instance is in one of three states. *)
Inductive t : Type :=
| Unfit
| FitPandas (min_vals max_vals : series)
| FitPolars (min_vals max_vals : list float).

Definition __init__ : t := Unfit.

Definition has_stats (self : t) : bool :=
  match self with Unfit => false | _ => true end.

(** [fit(X)].  An exception leaves the instance as it was, so the new state
    is returned only on success.  A polars table without columns has an
    empty [to_numpy()] whose row 0 does not exist. *)
Definition fit (self : t) (X : pyobj) : result t :=
  match X with
  | PdDataFrame f =>
      Ok (FitPandas (Series (columns f) (frame_min f))
                    (Series (columns f) (frame_max f)))
  | PlDataFrame f =>
      match columns f with
      | [] => Raise IndexError
      | _ => Ok (FitPolars (frame_min f) (frame_max f))
      end
  | _ => Ok self
  end.

Definition stat_at (vals : list float) (j : nat) : result float :=
  match vals !! j with
  | Some v => Ok v
  | None => Raise IndexError
  end.

(** One turn of the loop over the polars columns. *)
Definition scale_column (min_vals max_vals : list float)
    (acc : result frame) (column : string) : result frame :=
  X ← acc;
  j ← match list_index column (columns X) with
      | Some j => Ok j
      | None => Raise ValueError
      end;
  min_val ← stat_at min_vals j;
  max_val ← stat_at max_vals j;
  let range_val := (max_val - min_val)%float in
  let scaled_column :=
    if (range_val =? 0)%float
    then map (fun x => (x - min_val)%float) (get_column X j)
    else map (fun x => ((x - min_val) / range_val)%float) (get_column X j) in
  Ok (with_column X j scaled_column).

Definition transform_polars (min_vals max_vals : list float)
    (f : frame) : result frame :=
  foldl (scale_column min_vals max_vals) (Ok f) (columns f).

(** [transform(X)].  A value that is neither dataframe falls through both
    [isinstance] tests and the method ends without a [return].  Statistics
    kept as a pandas [Series] are read by position in the polars branch;
    statistics kept as an array are applied by position in the pandas
    branch. *)
Definition transform (self : t) (X : pyobj) : result pyobj :=
  match self with
  | Unfit => Raise (AssertionError "fit() must be called before transform()")
  | FitPandas min_vals max_vals =>
      match X with
      | PdDataFrame f =>
          Ok (PdDataFrame
                (frame_op_series PrimFloat.div
                   (frame_op_series PrimFloat.sub f min_vals)
                   (series_op PrimFloat.sub max_vals min_vals)))
      | PlDataFrame f =>
          PlDataFrame <$> transform_polars (values min_vals) (values max_vals) f
      | _ => Ok PyNone
      end
  | FitPolars min_vals max_vals =>
      match X with
      | PdDataFrame f =>
          num ← frame_op_array PrimFloat.sub f min_vals;
          range ← array_op PrimFloat.sub max_vals min_vals;
          PdDataFrame <$> frame_op_array PrimFloat.div num range
      | PlDataFrame f =>
          PlDataFrame <$> transform_polars min_vals max_vals f
      | _ => Ok PyNone
      end
  end.

(** [TransformerMixin.fit_transform]: [self.fit(X).transform(X)]. *)
Definition fit_transform (self : t) (X : pyobj) : t * result pyobj :=
  match fit self X with
  | Ok self' => (self', transform self' X)
  | Raise e => (self, Raise e)
  end.

End CustomMinMaxScaler.

(** ** Row slices *)

(** [l[start:end]] for non-negative bounds.  Every call site passes products
    of non-negative integers, so the bounds are naturals. *)
Definition slice {A} (l : list A) (start end_ : nat) : list A :=
  take (end_ - start) (drop start l).

(** [DataFrame.slice(offset, length)] of polars: a negative [length] counts
    back from the end of the table, and a length that is still negative
    cannot be converted. *)
Definition pl_slice {A} (l : list A) (offset : nat) (length_ : Z)
    : result (list A) :=
  let length_ :=
    if decide (length_ < 0)%Z
    then (Z.of_nat (length l) - Z.of_nat offset + length_)%Z
    else length_ in
  if decide (length_ < 0)%Z then Raise OverflowError
  else Ok (take (Z.to_nat length_) (drop offset l)).

(** [subset_data(data, start, end, axis=0)] *)
Definition subset_data (data : pyobj) (start end_ : nat) (axis : Z)
    : result pyobj :=
  match data with
  | PdDataFrame f =>
      if decide (axis = 0%Z)
      then Ok (PdDataFrame (Frame (columns f) (slice (rows f) start end_)))
      else Ok (PdDataFrame (Frame (slice (columns f) start end_)
                                  (map (fun r => slice r start end_) (rows f))))
  | PdSeries v =>
      if decide (axis = 0%Z) then Ok (PdSeries (slice v start end_))
      else Raise IndexingError
  | PlDataFrame f =>
      rs ← pl_slice (rows f) start (Z.of_nat end_ - Z.of_nat start);
      Ok (PlDataFrame (Frame (columns f) rs))
  | NdArray1 v =>
      if decide (axis = 0%Z) then Ok (NdArray1 (slice v start end_))
      else Raise IndexError
  | NdArray2 a =>
      if decide (axis = 0%Z) then Ok (NdArray2 (slice a start end_))
      else Ok (NdArray2 (map (fun r => slice r start end_) a))
  | PyNone => Raise TypeError
  end.

(** ** The scikit-learn estimator interface *)

(** What [PartitionedEnsembleRows] asks of its base estimator:
    [sklearn.base.clone], [set_params] with the keyword arguments, [fit(X, y)] (which returns
    the fitted estimator) and [predict(X)].  The base learner is a
    collaborator outside the repository, so it stays a parameter. *)
Class Estimator (E : Type) : Type := {
  clone : E -> E;
  set_params : gmap string pyval -> E -> result E;
  estimator_fit : E -> pyobj -> pyobj -> result E;
  estimator_predict : E -> pyobj -> result (list float)
}.

(** ** [PartitionedEnsembleRows] *)

Module PartitionedEnsembleRows.

Section WithEstimator.
Context {E : Type} `{Estimator E}.

Record t : Type := Build {
  estimator : E;
  n_partitions : Z;
  verbose : Z;
  kwargs : gmap string pyval;
  models : list E
}.

(** [__init__]: [estimator], [n_partitions=3], [verbose=1] and the extra
    keyword arguments. *)
Definition __init__ (estimator : E) (n_partitions verbose : Z)
    (kwargs : gmap string pyval) : t :=
  Build estimator n_partitions verbose kwargs [].

Definition append_model (self : t) (model : E) : t :=
  Build (estimator self) (n_partitions self) (verbose self) (kwargs self)
        (models self ++ [model]).

(** The bounds of partition [i]. *)
Definition start_idx (partition_size i : nat) : nat := i * partition_size.
Definition end_idx (self : t) (len_y partition_size i : nat) : nat :=
  if decide (Z.of_nat i ≠ (n_partitions self - 1)%Z)
  then (i + 1) * partition_size
  else len_y.

(** The body of the loop for partition [i]: slice, clone, set the
    parameters, fit. *)
Definition fit_partition (self : t) (X y : pyobj)
    (len_y partition_size i : nat) : result E :=
  X_subset ← subset_data X (start_idx partition_size i)
                           (end_idx self len_y partition_size i) 0;
  y_subset ← subset_data y (start_idx partition_size i)
                           (end_idx self len_y partition_size i) 0;
  model ← set_params (kwargs self) (clone (estimator self));
  estimator_fit model X_subset y_subset.

(** The loop over [range(n_partitions)].  [self.models] is appended to as
    the loop runs, so an exception leaves the models fitted so far in the
    list. *)
Fixpoint fit_loop (self : t) (X y : pyobj) (len_y partition_size : nat)
    (todo : list nat) : t * result unit :=
  match todo with
  | [] => (self, Ok ())
  | i :: todo' =>
      match fit_partition self X y len_y partition_size i with
      | Ok model =>
          fit_loop (append_model self model) X y len_y partition_size todo'
      | Raise e => (self, Raise e)
      end
  end.

(** [fit(X, y)].  [shuffle] is the draw of [np.random.shuffle]; the shuffled
    [indices] are computed and not read again.  The result pairs the
    instance after the call with the outcome. *)
Definition fit (shuffle : list nat -> list nat) (self : t) (X y : pyobj)
    : t * result unit :=
  match len y with
  | Raise e => (self, Raise e)
  | Ok len_y =>
      let indices := shuffle (seq 0 len_y) in
      if decide (n_partitions self = 0%Z) then (self, Raise ZeroDivisionError)
      else
        let partition_size := Z.to_nat (Z.of_nat len_y / n_partitions self) in
        fit_loop self X y len_y partition_size
                 (seq 0 (Z.to_nat (n_partitions self)))
  end.

(** [predictions += p] on a numpy array: the shape of the left operand is
    kept, a length-one right operand is broadcast. *)
Definition iadd (predictions p : list float) : result (list float) :=
  if decide (length p = length predictions)
  then Ok (zip_with PrimFloat.add predictions p)
  else match p with
       | [x] => Ok (map (fun a => (a + x)%float) predictions)
       | _ => Raise ValueError
       end.

Definition add_prediction (X : pyobj) (acc : result (list float))
    (model : E) : result (list float) :=
  predictions ← acc;
  p ← estimator_predict model X;
  iadd predictions p.

(** [predict(X)] *)
Definition predict (self : t) (X : pyobj) : result (list float) :=
  n ← len X;
  predictions ← foldl (add_prediction X) (Ok (np_zeros n)) (models self);
  d ← float_of_Z (n_partitions self);
  Ok (map (fun p => (p / d)%float) predictions).

End WithEstimator.
Arguments t E : clear implicits.

End PartitionedEnsembleRows.

(** ** Row masks and column selection *)

(** The rows of [l] at which [mask] is true. *)
Fixpoint select_rows {A} (mask : list bool) (l : list A) : list A :=
  match mask, l with
  | b :: mask', x :: l' =>
      if b then x :: select_rows mask' l' else select_rows mask' l'
  | _, _ => []
  end.

(** [~mask] *)
Definition invert (mask : list bool) : list bool := map negb mask.

(** [obj[mask]] with a numpy boolean mask.  A mask whose length is not the
    number of rows is refused, by each library with an exception of its own;
    a polars table takes no boolean mask between brackets at all. *)
Definition getitem_mask (o : pyobj) (mask : list bool) : result pyobj :=
  match o with
  | PyNone => Raise TypeError
  | PdDataFrame f =>
      if decide (length mask = length (rows f))
      then Ok (PdDataFrame (Frame (columns f) (select_rows mask (rows f))))
      else Raise ValueError
  | PlDataFrame _ => Raise TypeError
  | PdSeries v =>
      if decide (length mask = length v)
      then Ok (PdSeries (select_rows mask v)) else Raise IndexError
  | NdArray1 v =>
      if decide (length mask = length v)
      then Ok (NdArray1 (select_rows mask v)) else Raise IndexError
  | NdArray2 a =>
      if decide (length mask = length a)
      then Ok (NdArray2 (select_rows mask a)) else Raise IndexError
  end.

(** The rows of the table under a mask: [X.filter(mask)] when
    [isinstance(X, pl.DataFrame)], [X[mask]] otherwise. *)
Definition mask_rows (X : pyobj) (mask : list bool) : result pyobj :=
  match X with
  | PlDataFrame f =>
      if decide (length mask = length (rows f))
      then Ok (PlDataFrame (Frame (columns f) (select_rows mask (rows f))))
      else Raise ShapeError
  | _ => getitem_mask X mask
  end.

(** [X.shape[0]] *)
Definition shape0 (o : pyobj) : result nat :=
  match o with
  | PyNone => Raise AttributeError
  | _ => len o
  end.

(** The positions of the requested labels among [cols], in the order
    requested; [missing] builds the exception for a label that is absent. *)
Fixpoint locate_columns (missing : string -> exn) (cols : list string)
    (wanted : list string) : result (list nat) :=
  match wanted with
  | [] => Ok []
  | c :: wanted' =>
      match list_index c cols with
      | None => Raise (missing c)
      | Some j => (j ::.) <$> locate_columns missing cols wanted'
      end
  end.

(** Every position at which [labels] holds [c], counted from [j]. *)
Fixpoint label_positions (c : string) (labels : list string) (j : nat)
    : list nat :=
  match labels with
  | [] => []
  | x :: labels' =>
      if decide (x = c) then j :: label_positions c labels' (S j)
      else label_positions c labels' (S j)
  end.

(** pandas looks every requested label up among labels that may repeat:
    each request gives all the positions of its label, in table order. *)
Fixpoint locate_all (cols : list string) (wanted : list string)
    : result (list nat) :=
  match wanted with
  | [] => Ok []
  | c :: wanted' =>
      match label_positions c cols 0 with
      | [] => Raise (KeyError (VStr c))
      | js => (js ++.) <$> locate_all cols wanted'
      end
  end.

Definition pick (r : list float) (js : list nat) : list float :=
  map (fun j => default nan (r !! j)) js.

Definition labels_at (cols : list string) (js : list nat) : list string :=
  map (fun j => default EmptyString (cols !! j)) js.

Fixpoint first_duplicate (l : list string) : option string :=
  match l with
  | [] => None
  | c :: l' => if decide (c ∈ l') then Some c else first_duplicate l'
  end.

(** [X[cols]] with a list of column names.  pandas keeps the rows, repeats
    a column that is asked for twice and gives every column that carries a
    requested label; polars refuses a repeated name, and an empty list is
    read as a selection of no rows: all the columns come back, empty. *)
Definition getitem_columns (X : pyobj) (cols : list string) : result pyobj :=
  match X with
  | PdDataFrame f =>
      js ← locate_all (columns f) cols;
      Ok (PdDataFrame (Frame (labels_at (columns f) js)
                             (map (fun r => pick r js) (rows f))))
  | PlDataFrame f =>
      js ← locate_columns ColumnNotFoundError (columns f) cols;
      match first_duplicate cols with
      | Some c => Raise (DuplicateError c)
      | None =>
          match cols with
          | [] => Ok (PlDataFrame (Frame (columns f) []))
          | _ => Ok (PlDataFrame (Frame cols (map (fun r => pick r js) (rows f))))
          end
      end
  | PdSeries _ =>
      match cols with
      | [] => Ok (PdSeries [])
      | c :: _ => Raise (KeyError (VStr c))
      end
  | NdArray1 _ | NdArray2 _ => Raise IndexError
  | PyNone => Raise TypeError
  end.

(** ** The threshold feature map *)

(** [var_sets_map[threshold]]: the map is keyed by strings; a key that is
    not in it raises [KeyError(key)], a missing map ([None]) is not
    subscriptable. *)
Definition lookup_threshold (var_sets_map : option (gmap string (list string)))
    (threshold : pyval) : result (list string) :=
  match var_sets_map with
  | None => Raise TypeError
  | Some m =>
      match threshold with
      | VStr k =>
          match m !! k with
          | Some var_subset => Ok var_subset
          | None => Raise (KeyError threshold)
          end
      | VIntArray _ | VCallbacks _ => Raise TypeError
      | _ => Raise (KeyError threshold)
      end
  end.

(** [X[self.covar_cols + var_subset]] *)
Definition subset_features (covar_cols : option (list string))
    (var_subset : list string) (X : pyobj) : result pyobj :=
  match covar_cols with
  | None => Raise TypeError
  | Some covar_cols => getitem_columns X (covar_cols ++ var_subset)
  end.

(** ** The LightGBM interface *)

Inductive lgbm_class : Type := LGBMClassifier | LGBMRegressor.

(** What [model.fit] receives: the training rows and labels, the evaluation
    set and the remaining keyword arguments. *)
Record fit_call : Type := FitCall {
  call_X_train : pyobj;
  call_y_train : pyobj;
  call_eval_set : list (pyobj * pyobj);
  call_kwargs : gmap string pyval
}.

(** The boosting library is outside the repository: constructing a model
    from keyword parameters and fitting it stay parameters. *)
Class LightGBM (M : Type) : Type := {
  lgbm_new : lgbm_class -> gmap string pyval -> result M;
  lgbm_fit : M -> fit_call -> result M
}.

(** What a fit call reads from outside the program: the draws of
    [np.random.choice] (draw [i] decides row [i]) and the two readings of
    [time.time()]. *)
Record world : Type := World {
  draw : nat -> bool;
  time_at_entry : float;
  time_at_end : float
}.

(** ** The validation split *)

Record split : Type := Split {
  X_train_of : pyobj;
  y_train_of : pyobj;
  X_val_of : pyobj;
  y_val_of : pyobj
}.

(** [np.random.choice([True, False], n_samples, p=[val_frac, train_frac])]:
    the probabilities must be non-negative numbers. *)
Definition random_mask (draw : nat -> bool) (n_samples : nat)
    (val_frac train_frac : float) : result (list bool) :=
  if ((0 <=? val_frac) && (0 <=? train_frac))%float
  then Ok (map draw (seq 0 n_samples))
  else Raise ValueError.

(** Lines 134-151 of [LGBMEstimatorPRS._fit] (and the same lines of the
    multi-threshold class): one mask, applied to the table (through
    [filter] when it is a polars table) and to the labels (between brackets,
    whatever they are). *)
Definition validation_split (draw : nat -> bool) (val_frac : float)
    (X_train y_train : pyobj) : result split :=
  let train_frac := (1 - val_frac)%float in
  n_samples ← shape0 X_train;
  val_mask ← random_mask draw n_samples val_frac train_frac;
  X_val ← mask_rows X_train val_mask;
  X_train' ← mask_rows X_train (invert val_mask);
  y_val ← getitem_mask y_train val_mask;
  y_train' ← getitem_mask y_train (invert val_mask);
  Ok (Split X_train' y_train' X_val y_val).

(** ** Keyword arguments of the fit call *)

Section Groups.
(** [flaml.automl.data.group_counts], a library function. *)
Variable group_counts : pyval -> pyval.

(** Lines 126-130: [groups] is taken out of a copy of the keyword
    arguments; for the ranking task its counts go in under [group]. *)
Definition pass_groups (task : string) (kwargs : gmap string pyval)
    : gmap string pyval :=
  match kwargs !! "groups" with
  | Some groups =>
      let kwargs := delete "groups" kwargs in
      if decide (task = "rank")
      then <["group" := group_counts groups]> kwargs
      else kwargs
  | None => kwargs
  end.

(** Lines 169-172: the early-stopping callback joins the caller's
    callbacks. *)
Definition attach_callback (cb : callback) (kwargs : gmap string pyval)
    : result (gmap string pyval) :=
  match kwargs !! "callbacks" with
  | Some (VCallbacks cbs) =>
      Ok (<["callbacks" := VCallbacks (cbs ++ [cb])]> kwargs)
  | Some _ => Raise AttributeError
  | None => Ok (<["callbacks" := VCallbacks [cb]]> kwargs)
  end.

(** The parameters the learner is constructed with: all of [self.params]
    but the pipeline-only ones. *)
Definition learner_params (non_lgbm_params : list string)
    (params : gmap string pyval) : gmap string pyval :=
  filter (fun kv => kv.1 ∉ non_lgbm_params) params.

Definition getitem_param (params : gmap string pyval) (k : string)
    : result pyval :=
  match params !! k with
  | Some v => Ok v
  | None => Raise (KeyError (VStr k))
  end.

End Groups.

(** ** [LGBMEstimatorPRS] *)

Module LGBMEstimatorPRS.

Section WithLightGBM.
Context {M : Type} `{LightGBM M}.
Variable group_counts : pyval -> pyval.

Record t : Type := Build {
  _task : string;
  estimator_class : lgbm_class;
  params : gmap string pyval;
  _model : option M
}.

Definition set_param (self : t) (k : string) (v : pyval) : t :=
  Build (_task self) (estimator_class self) (<[k := v]> (params self))
        (_model self).

Definition set_model (self : t) (model : M) : t :=
  Build (_task self) (estimator_class self) (params self) (Some model).

(** [__init__]: [base_params] is what the parent's constructor derives from
    the configuration, [is_classification] the answer of
    [self._task.is_classification()]. *)
Definition __init__ (task : string) (is_classification : bool)
    (max_n_estimators max_bin : Z) (base_params : gmap string pyval) : t :=
  Build task
        (if is_classification then LGBMClassifier else LGBMRegressor)
        (<["max_bin" := VInt max_bin]>
           (<["n_estimators" := VInt max_n_estimators]> base_params))
        None.

(** [_preprocess]: "Return X." *)
Definition _preprocess (self : t) (X : pyobj) : result pyobj := Ok X.

(** The fit protocol from the validation split to the call of [model.fit],
    shared word for word by the two LightGBM classes: [preprocessed] is the
    outcome of [self._preprocess(X_train)], [kwargs] the keyword arguments
    as the groups handling leaves them.  The result is the instance
    ([self.params['verbose']] is assigned on the way) and, unless an
    exception was raised, the constructed model with the arguments of its
    [fit]. *)
Definition after_groups (non_lgbm_params : list string) (w : world)
    (self : t) (preprocessed : result pyobj) (y_train : pyobj)
    (val_frac : float) (kwargs : gmap string pyval)
    : t * result (M * fit_call) :=
  match preprocessed ≫= fun X_train =>
        validation_split (draw w) val_frac X_train y_train with
  | Raise e => (self, Raise e)
  | Ok s =>
      let self := set_param self "verbose" (VInt 1) in
      (self,
       model ← lgbm_new (estimator_class self)
                        (learner_params non_lgbm_params (params self));
       rounds ← getitem_param (params self) "early_stopping_rounds";
       kwargs ← attach_callback (EarlyStopping rounds) kwargs;
       Ok (model,
           FitCall (X_train_of s) (y_train_of s)
                   [(X_val_of s, y_val_of s)] kwargs))
  end.

(** The same from the groups handling on. *)
Definition prepare_fit (non_lgbm_params : list string) (w : world)
    (self : t) (preprocessed : result pyobj) (y_train : pyobj)
    (val_frac : float) (kwargs : gmap string pyval)
    : t * result (M * fit_call) :=
  after_groups non_lgbm_params w self preprocessed y_train val_frac
    (pass_groups group_counts (_task self) kwargs).

(** The end of [_fit]: [model.fit], the elapsed time, [self._model]. *)
Definition finish_fit (w : world) (current_time : float)
    (prepared : t * result (M * fit_call)) : t * result pyval :=
  match prepared with
  | (self, Raise e) => (self, Raise e)
  | (self, Ok (model, call)) =>
      match lgbm_fit model call with
      | Raise e => (self, Raise e)
      | Ok model =>
          let train_time := (time_at_end w - current_time)%float in
          (set_model self model, Ok (VFloat train_time))
      end
  end.

(** [_fit(X_train, y_train, val_frac=0.1, print_params=False, **kwargs)] *)
Definition _fit (w : world) (self : t) (X_train y_train : pyobj)
    (val_frac : float) (print_params : bool) (kwargs : gmap string pyval)
    : t * result pyval :=
  let current_time := time_at_entry w in
  finish_fit w current_time
    (prepare_fit ["early_stopping_rounds"] w self
                 (_preprocess self X_train) y_train val_frac kwargs).

End WithLightGBM.
Arguments t M : clear implicits.

End LGBMEstimatorPRS.

(** ** [LGBMEstimatorMultiThreshPRS] *)

Module LGBMEstimatorMultiThreshPRS.

Section WithLightGBM.
Context {M : Type} `{LightGBM M}.
(** [flaml.automl.data.group_counts].  This class assigns attributes of its
    own after the groups handling, so that an exception of the conversion
    shows in what [_fit] leaves behind: here the conversion may raise. *)
Variable group_counts : pyval -> result pyval.

(** The attributes of the parent class and the two this class adds. *)
Record t : Type := Build {
  base : LGBMEstimatorPRS.t M;
  var_sets_map : option (gmap string (list string));
  covar_cols : option (list string)
}.

(** [__init__]: [max_n_estimators] and [max_bin] are not handed on to the
    parent, which uses its defaults. *)
Definition __init__ (task : string) (is_classification : bool)
    (max_n_estimators max_bin : Z) (base_params : gmap string pyval) : t :=
  Build (LGBMEstimatorPRS.__init__ task is_classification 50000 127
                                   base_params)
        None None.

(** [_preprocess]: "Filter variants by p-value and window size.  Will
    always include covariates in the output dataset." *)
Definition _preprocess (self : t) (X : pyobj) : result pyobj :=
  threshold ← getitem_param (LGBMEstimatorPRS.params (base self))
                            "filter_threshold";
  var_subset ← lookup_threshold (var_sets_map self) threshold;
  subset_features (covar_cols self) var_subset X.

(** Lines 256-260: [groups] is taken out of a copy of the keyword
    arguments; for the ranking task its counts go in under [group]. *)
Definition convert_groups (task : string) (kwargs : gmap string pyval)
    : result (gmap string pyval) :=
  match kwargs !! "groups" with
  | Some groups =>
      let kwargs := delete "groups" kwargs in
      if decide (task = "rank")
      then counts ← group_counts groups; Ok (<["group" := counts]> kwargs)
      else Ok kwargs
  | None => Ok kwargs
  end.

(** [_fit(X_train, y_train, var_sets_map, covar_cols, val_frac=0.1,
    print_params=False)] and the keyword arguments: the groups handling,
    then the two assignments, then [_preprocess] and the protocol of the
    parent class. *)
Definition _fit (w : world) (self : t) (X_train y_train : pyobj)
    (var_sets_map : gmap string (list string)) (covar_cols : list string)
    (val_frac : float) (print_params : bool) (kwargs : gmap string pyval)
    : t * result pyval :=
  let current_time := time_at_entry w in
  match convert_groups (LGBMEstimatorPRS._task (base self)) kwargs with
  | Raise e => (self, Raise e)
  | Ok kwargs =>
      let self := Build (base self) (Some var_sets_map) (Some covar_cols) in
      let '(base', r) :=
        LGBMEstimatorPRS.finish_fit w current_time
          (LGBMEstimatorPRS.after_groups
             ["early_stopping_rounds"; "filter_threshold"] w (base self)
             (_preprocess self X_train) y_train val_frac kwargs) in
      (Build base' (Some var_sets_map) (Some covar_cols), r)
  end.

End WithLightGBM.
Arguments t M : clear implicits.

End LGBMEstimatorMultiThreshPRS.

(** ** [ElasticNetEstimatorPRS] *)

Definition SCALE_BY_DEFAULT : bool := true.

Module ElasticNetEstimatorPRS.

Record t : Type := Build {
  task : string;
  params : gmap string pyval;
  scaler : option CustomMinMaxScaler.t;
  scaler_fit : bool
}.

(** [__init__(task="regression", n_jobs=None, scale=SCALE_BY_DEFAULT)] and
    the configuration, which the parent's constructor keeps as [params]. *)
Definition __init__ (task : string) (scale : bool)
    (config : gmap string pyval) : result t :=
  if decide (task ≠ "regression") then Raise ValueError
  else if scale
       then Ok (Build task config (Some CustomMinMaxScaler.__init__) false)
       else Ok (Build task config None true).

(** [_preprocess]: "Preprocess data, including scaling."  The scaler is an
    object of its own: what [fit_transform] stored stays stored when its
    [transform] raises, and [scaler_fit] is set only afterwards. *)
Definition _preprocess (self : t) (X : pyobj) : t * result pyobj :=
  match scaler self with
  | Some sc =>
      if negb (scaler_fit self)
      then
        match CustomMinMaxScaler.fit_transform sc X with
        | (sc', Ok X') => (Build (task self) (params self) (Some sc') true, Ok X')
        | (sc', Raise e) =>
            (Build (task self) (params self) (Some sc') (scaler_fit self),
             Raise e)
        end
      else (self, CustomMinMaxScaler.transform sc X)
  | None => (self, Ok X)
  end.

(** [_fit(X_train, y_train, print_params=False)] and the keyword arguments.
    [super_fit] is [SKLearnEstimator._fit] of the tuning library, which
    returns the training time; the body calls it as a statement and ends
    without a [return].  [S] is the class of the instance, this one or a
    subclass. *)
Definition _fit {S : Type}
    (super_fit : S -> pyobj -> pyobj -> gmap string pyval -> S * result float)
    (self : S) (X_train y_train : pyobj) (print_params : bool)
    (kwargs : gmap string pyval) : S * result pyval :=
  match super_fit self X_train y_train kwargs with
  | (self', Ok _) => (self', Ok VNone)
  | (self', Raise e) => (self', Raise e)
  end.

End ElasticNetEstimatorPRS.

(** ** [ElasticNetEstimatorMultiThreshPRS] *)

Module ElasticNetEstimatorMultiThreshPRS.

Record t : Type := Build {
  base : ElasticNetEstimatorPRS.t;
  var_sets_map : option (gmap string (list string));
  covar_cols : option (list string);
  filter_threshold : pyval
}.

(** [__init__(filter_threshold, task="regression", n_jobs=None,
    scale=SCALE_BY_DEFAULT)]: [scale] is not handed on to the parent. *)
Definition __init__ (filter_threshold : pyval) (task : string) (scale : bool)
    (config : gmap string pyval) : result t :=
  b ← ElasticNetEstimatorPRS.__init__ task SCALE_BY_DEFAULT config;
  Ok (Build b None None filter_threshold).

(** [_preprocess]: "Preprocess data by subsetting to variables included at
    threshold, then optional scaling." *)
Definition _preprocess (self : t) (X : pyobj) : t * result pyobj :=
  match var_subset ← lookup_threshold (var_sets_map self)
                                      (filter_threshold self);
        subset_features (covar_cols self) var_subset X with
  | Raise e => (self, Raise e)
  | Ok X =>
      let '(b, r) := ElasticNetEstimatorPRS._preprocess (base self) X in
      (Build b (var_sets_map self) (covar_cols self) (filter_threshold self),
       r)
  end.

(** [_fit(X_train, y_train, var_sets_map, covar_cols, print_params=False)]
    and the keyword arguments: the two attributes are updated, then the
    parent's [_fit] is called as a statement. *)
Definition _fit
    (super_fit : t -> pyobj -> pyobj -> gmap string pyval -> t * result float)
    (self : t) (X_train y_train : pyobj)
    (var_sets_map : gmap string (list string)) (covar_cols : list string)
    (print_params : bool) (kwargs : gmap string pyval) : t * result pyval :=
  let self := Build (base self) (Some var_sets_map) (Some covar_cols)
                    (filter_threshold self) in
  match ElasticNetEstimatorPRS._fit super_fit self X_train y_train
                                    print_params kwargs with
  | (self', Ok _) => (self', Ok VNone)
  | (self', Raise e) => (self', Raise e)
  end.

End ElasticNetEstimatorMultiThreshPRS.

(** ** [SGDRegressorPRS] *)

Module SGDRegressorPRS.

Record t : Type := Build {
  task : string;
  params : gmap string pyval;
  scaler : option CustomMinMaxScaler.t;
  scaler_fit : bool
}.

(** [__init__(task="regression", n_jobs=None, scale=SCALE_BY_DEFAULT,
    penalty="elasticnet", max_iter=10000, verbose=0)] and the configuration.
    The parent's constructor is called with [penalty], [verbose],
    [early_stopping=True] and [max_iter] next to the configuration, and
    Python refuses a keyword that is given twice. *)
Definition __init__ (task : string) (scale : bool) (penalty : string)
    (max_iter verbose : Z) (config : gmap string pyval) : result t :=
  if decide (is_Some (config !! "early_stopping")) then Raise TypeError
  else
    let params :=
      <["penalty" := VStr penalty]>
        (<["verbose" := VInt verbose]>
           (<["early_stopping" := VBool true]>
              (<["max_iter" := VInt max_iter]> config))) in
    if decide (task ≠ "regression") then Raise ValueError
    else if scale
         then Ok (Build task params (Some CustomMinMaxScaler.__init__) false)
         else Ok (Build task params None true).

(** [_preprocess]: "Preprocess data, including scaling." *)
Definition _preprocess (self : t) (X : pyobj) : t * result pyobj :=
  match scaler self with
  | Some sc =>
      if negb (scaler_fit self)
      then
        match CustomMinMaxScaler.fit_transform sc X with
        | (sc', Ok X') => (Build (task self) (params self) (Some sc') true, Ok X')
        | (sc', Raise e) =>
            (Build (task self) (params self) (Some sc') (scaler_fit self),
             Raise e)
        end
      else (self, CustomMinMaxScaler.transform sc X)
  | None => (self, Ok X)
  end.

(** [_fit(X_train, y_train, print_params=False)] and the keyword arguments:
    the parent's [_fit] is called as a statement. *)
Definition _fit {S : Type}
    (super_fit : S -> pyobj -> pyobj -> gmap string pyval -> S * result float)
    (self : S) (X_train y_train : pyobj) (print_params : bool)
    (kwargs : gmap string pyval) : S * result pyval :=
  match super_fit self X_train y_train kwargs with
  | (self', Ok _) => (self', Ok VNone)
  | (self', Raise e) => (self', Raise e)
  end.

End SGDRegressorPRS.

(** ** [SGDRegressorMultiThreshPRS] *)

Module SGDRegressorMultiThreshPRS.

(** The constructor assigns neither [var_sets_map] nor [covar_cols]: until
    [_fit] has run the instance has no such attribute ([None] here). *)
Record t : Type := Build {
  base : SGDRegressorPRS.t;
  var_sets_map : option (gmap string (list string));
  covar_cols : option (list string);
  filter_threshold : pyval
}.

(** [__init__(filter_threshold, task="regression", n_jobs=None,
    scale=SCALE_BY_DEFAULT, penalty="elasticnet", max_iter=10000,
    verbose=0)]: the parent is constructed without [scale], then the scaler
    is set again from [scale]. *)
Definition __init__ (filter_threshold : pyval) (task : string) (scale : bool)
    (penalty : string) (max_iter verbose : Z) (config : gmap string pyval)
    : result t :=
  b ← SGDRegressorPRS.__init__ task SCALE_BY_DEFAULT penalty max_iter verbose
                               config;
  let b := if scale
           then SGDRegressorPRS.Build (SGDRegressorPRS.task b)
                  (SGDRegressorPRS.params b)
                  (Some CustomMinMaxScaler.__init__) false
           else SGDRegressorPRS.Build (SGDRegressorPRS.task b)
                  (SGDRegressorPRS.params b) None true in
  Ok (Build b None None filter_threshold).

(** [self.var_sets_map[self.filter_threshold]] and
    [X[self.covar_cols + var_subset]] on an instance whose attributes may
    not exist yet. *)
Definition select_features (self : t) (X : pyobj) : result pyobj :=
  match var_sets_map self with
  | None => Raise AttributeError
  | Some m =>
      var_subset ← lookup_threshold (Some m) (filter_threshold self);
      match covar_cols self with
      | None => Raise AttributeError
      | Some covar_cols => subset_features (Some covar_cols) var_subset X
      end
  end.

(** [_preprocess]: "Preprocess data by subsetting to variables included at
    threshold, then optional scaling." *)
Definition _preprocess (self : t) (X : pyobj) : t * result pyobj :=
  match select_features self X with
  | Raise e => (self, Raise e)
  | Ok X =>
      match SGDRegressorPRS.scaler (base self) with
      | Some sc =>
          if negb (SGDRegressorPRS.scaler_fit (base self))
          then
            match CustomMinMaxScaler.fit_transform sc X with
            | (sc', Ok X') =>
                (Build (SGDRegressorPRS.Build
                          (SGDRegressorPRS.task (base self))
                          (SGDRegressorPRS.params (base self)) (Some sc') true)
                       (var_sets_map self) (covar_cols self)
                       (filter_threshold self),
                 Ok X')
            | (sc', Raise e) =>
                (Build (SGDRegressorPRS.Build
                          (SGDRegressorPRS.task (base self))
                          (SGDRegressorPRS.params (base self)) (Some sc')
                          (SGDRegressorPRS.scaler_fit (base self)))
                       (var_sets_map self) (covar_cols self)
                       (filter_threshold self),
                 Raise e)
            end
          else (self, CustomMinMaxScaler.transform sc X)
      | None => (self, Ok X)
      end
  end.

(** [_fit(X_train, y_train, var_sets_map, covar_cols, print_params=False)]
    and the keyword arguments. *)
Definition _fit
    (super_fit : t -> pyobj -> pyobj -> gmap string pyval -> t * result float)
    (self : t) (X_train y_train : pyobj)
    (var_sets_map : gmap string (list string)) (covar_cols : list string)
    (print_params : bool) (kwargs : gmap string pyval) : t * result pyval :=
  let self := Build (base self) (Some var_sets_map) (Some covar_cols)
                    (filter_threshold self) in
  match SGDRegressorPRS._fit super_fit self X_train y_train
                             print_params kwargs with
  | (self', Ok _) => (self', Ok VNone)
  | (self', Raise e) => (self', Raise e)
  end.

End SGDRegressorMultiThreshPRS.

(** ** Search spaces *)

(** The domains of the tuning library that the search spaces use.  The
    integer domains exclude their upper bound. *)
Inductive domain : Type :=
| loguniform (lower upper : float)
| uniform (lower upper : float)
| lograndint (lower upper : Z)
| randint (lower upper : Z)
| choice (categories : list string).

(** One entry of a search space: [domain], [init_value] and
    [low_cost_init_value], the last two optional. *)
Record hyperparameter : Type := Hyperparameter {
  hp_domain : domain;
  init_value : option pyval;
  low_cost_init_value : option pyval
}.

Set Warnings "-inexact-float".

(** [LGBMEstimatorPRS.search_space(data_size, **params)] *)
Definition LGBM_search_space : list (string * hyperparameter) :=
  [("num_leaves",
    Hyperparameter (lograndint 7 4095) (Some (VInt 7)) (Some (VInt 7)));
   ("max_depth", Hyperparameter (randint 2 64) None None);
   ("min_child_samples",
    Hyperparameter (lograndint 250 8000) (Some (VInt 2000)) None);
   ("colsample_bytree",
    Hyperparameter (uniform 0.4 1.0) (Some (VFloat 1.0)) None);
   ("subsample", Hyperparameter (uniform 0.4 1.0) (Some (VFloat 1.0)) None);
   ("reg_alpha",
    Hyperparameter (loguniform 1e-12 1) (Some (VFloat 1e-9)) None);
   ("reg_lambda",
    Hyperparameter (loguniform 1e-12 1000) (Some (VFloat 1e-10)) None);
   ("early_stopping_rounds",
    Hyperparameter (randint 10 250) (Some (VInt 50)) (Some (VInt 10)))].

(** [LGBMEstimatorPRS.size(config)] *)
Definition LGBM_size (config : gmap string pyval) : float := 1.0%float.

(** [ElasticNetEstimatorPRS.search_space(data_size, task)] *)
Definition ElasticNet_search_space : list (string * hyperparameter) :=
  [("alpha", Hyperparameter (loguniform 1e-10 2.0) (Some (VFloat 1e-4)) None);
   ("l1_ratio", Hyperparameter (uniform 0.0 1) (Some (VFloat 1.0)) None);
   ("max_iter",
    Hyperparameter (lograndint 800 10000) (Some (VInt 2500)) (Some (VInt 800)));
   ("tol", Hyperparameter (loguniform 1e-8 5e-3) (Some (VFloat 1e-4)) None);
   ("selection",
    Hyperparameter (choice ["cyclic"; "random"]) (Some (VStr "cyclic")) None)].

(** [SGDRegressorPRS.search_space(data_size, task)] *)
Definition SGD_search_space : list (string * hyperparameter) :=
  [("alpha", Hyperparameter (loguniform 1e-10 2.0) (Some (VFloat 1e-4)) None);
   ("l1_ratio", Hyperparameter (uniform 0.0 1) (Some (VFloat 1.0)) None);
   ("n_iter_no_change",
    Hyperparameter (lograndint 3 100) (Some (VInt 10)) (Some (VInt 3)));
   ("tol", Hyperparameter (loguniform 1e-7 5e-3) (Some (VFloat 1e-3)) None);
   ("learning_rate",
    Hyperparameter (choice ["optimal"; "invscaling"; "adaptive"])
                   (Some (VStr "invscaling")) None);
   ("eta0", Hyperparameter (loguniform 1e-7 0.05) (Some (VFloat 0.01)) None)].

Set Warnings "+inexact-float".

(** ** Fixtures: concrete collaborators and inputs for the examples *)

Module Fixture.

(** A base estimator that remembers the rows and labels it was fitted on
    and predicts, for every row, the sum of the labels it has seen. *)
Record memo : Type := Memo {
  memo_params : gmap string pyval;
  memo_data : option (pyobj * pyobj)
}.

Definition labels_of (y : pyobj) : list float :=
  match y with
  | PdSeries v | NdArray1 v => v
  | _ => []
  end.

Definition rows_of (X : pyobj) : list (list float) :=
  match X with
  | PdDataFrame f | PlDataFrame f => rows f
  | NdArray2 a => a
  | _ => []
  end.

#[global] Instance memo_estimator : Estimator memo := {|
  clone e := Memo (memo_params e) None;
  set_params kw e := Ok (Memo (kw ∪ memo_params e) (memo_data e));
  estimator_fit e X y := Ok (Memo (memo_params e) (Some (X, y)));
  estimator_predict e X :=
    n ← len X;
    match memo_data e with
    | Some (_, y) => Ok (replicate n (foldl PrimFloat.add 0%float (labels_of y)))
    | None => Raise (LearnerError "not fitted")
    end
|}.

(** A LightGBM stand-in that keeps the parameters it was constructed with
    and the arguments of its [fit]. *)
Record recorder : Type := Recorder {
  rec_class : lgbm_class;
  rec_params : gmap string pyval;
  rec_call : option fit_call
}.

#[global] Instance recorder_lightgbm : LightGBM recorder := {|
  lgbm_new c p := Ok (Recorder c p None);
  lgbm_fit m call := Ok (Recorder (rec_class m) (rec_params m) (Some call))
|}.

(** [group_counts] for groups that arrive sorted: the lengths of the runs. *)
Fixpoint run_lengths (prev : Z) (n : Z) (a : list Z) : list Z :=
  match a with
  | [] => [n]
  | x :: a' =>
      if decide (x = prev) then run_lengths prev (n + 1) a'
      else n :: run_lengths x 1 a'
  end.

Definition group_counts (groups : pyval) : pyval :=
  match groups with
  | VIntArray (x :: a) => VIntArray (run_lengths x 1 a)
  | _ => VIntArray []
  end.

(** The table of the zero-variance test: a varying column and a column
    whose every value is 7. *)
Definition constant_table : frame :=
  Frame ["age"; "rs1"] [[1; 7]; [2; 7]; [4; 7]]%float.

(** Four rows and their labels. *)
Definition four_rows : frame :=
  Frame ["rs1"] [[10]; [11]; [12]; [13]]%float.
Definition four_labels : list float := [0; 1; 2; 3]%float.

Definition ensemble2 : PartitionedEnsembleRows.t memo :=
  PartitionedEnsembleRows.__init__ (Memo ∅ None) 2 0 ∅.

(** [ensemble2] after one fit on the four rows. *)
Definition fitted2 : PartitionedEnsembleRows.t memo :=
  (PartitionedEnsembleRows.fit (fun l => l) ensemble2
     (PdDataFrame four_rows) (NdArray1 four_labels)).1.

(** Two covariates and three variants, the variants eligible at two
    thresholds, and the two multi-threshold estimators after a fit call has
    stored the map and the covariates, set to the looser threshold. *)
Definition genotypes : frame :=
  Frame ["age"; "sex"; "rs1"; "rs2"; "rs3"]
        [[61; 0; 0; 1; 2]; [47; 1; 2; 0; 1]]%float.
Definition thresholds : gmap string (list string) :=
  {[ "p1e-5" := ["rs1"]; "p1e-3" := ["rs3"; "rs1"] ]}.
Definition covariates : list string := ["age"; "sex"].

Definition lgbm_multi : LGBMEstimatorMultiThreshPRS.t recorder :=
  LGBMEstimatorMultiThreshPRS.Build
    (LGBMEstimatorPRS.__init__ "regression" false 50000 127
       {[ "early_stopping_rounds" := VInt 50;
          "filter_threshold" := VStr "p1e-3" ]})
    (Some thresholds) (Some covariates).

Definition elastic_multi : ElasticNetEstimatorMultiThreshPRS.t :=
  ElasticNetEstimatorMultiThreshPRS.Build
    (ElasticNetEstimatorPRS.Build "regression" ∅
       (Some CustomMinMaxScaler.__init__) false)
    (Some thresholds) (Some covariates) (VStr "p1e-3").

(** A hundred rows for three partitions. *)
Definition hundred_rows : frame := Frame ["rs1"] (replicate 100 [0%float]).
Definition hundred_labels : list float := replicate 100 0%float.
Definition ensemble3 : PartitionedEnsembleRows.t memo :=
  PartitionedEnsembleRows.__init__ (Memo ∅ None) 3 1 ∅.
Definition rows_seen (m : memo) : nat * nat :=
  match memo_data m with
  | Some (X, y) => (length (rows_of X), length (labels_of y))
  | None => (0, 0)
  end.

(** A scaler fitted on the polars form of [constant_table], and an object
    that is neither dataframe. *)
Definition fitted_polars : CustomMinMaxScaler.t :=
  CustomMinMaxScaler.FitPolars [1; 7]%float [4; 7]%float.
Definition plain_array : pyobj := NdArray2 [[1; 7]; [2; 7]]%float.

(** A LightGBM regression estimator, a world whose mask sends row 1 to
    validation, and what the recording learner was called with when [_fit]
    is given [groups]. *)
Definition regressor : LGBMEstimatorPRS.t recorder :=
  LGBMEstimatorPRS.__init__ "regression" false 50000 127
    {[ "early_stopping_rounds" := VInt 50 ]}.
Definition ranker : LGBMEstimatorPRS.t recorder :=
  LGBMEstimatorPRS.__init__ "rank" false 50000 127
    {[ "early_stopping_rounds" := VInt 50 ]}.
Definition row1_to_validation : world :=
  World (fun i => Nat.eqb i 1) 100%float 103.5%float.
Definition some_groups : pyval := VIntArray [1; 1; 2; 2]%Z.

Definition recorded_call (self : LGBMEstimatorPRS.t recorder)
    (kwargs : gmap string pyval) : option fit_call :=
  LGBMEstimatorPRS._model
    (LGBMEstimatorPRS._fit group_counts row1_to_validation self
       (PdDataFrame four_rows) (NdArray1 four_labels) 0.5%float false
       kwargs).1
  ≫= rec_call.

(** An elastic-net estimator with scaling, before its first table. *)
Definition elastic_scaled : ElasticNetEstimatorPRS.t :=
  ElasticNetEstimatorPRS.Build "regression" ∅
    (Some CustomMinMaxScaler.__init__) false.

(** A base estimator that can only be fitted on a single row and cannot
    predict. *)
Record picky : Type := Picky { picky_rows : option nat }.

#[global] Instance picky_estimator : Estimator picky := {|
  clone e := Picky None;
  set_params kw e := Ok e;
  estimator_fit e X y :=
    n ← len X;
    if decide (1 < n) then Raise (LearnerError "more than one row")
    else Ok (Picky (Some n));
  estimator_predict e X := Raise (LearnerError "cannot predict")
|}.

(** Four rows in three partitions of 1, 1 and 2 rows, and an ensemble
    without partitions. *)
Definition picky3 : PartitionedEnsembleRows.t picky :=
  PartitionedEnsembleRows.__init__ (Picky None) 3 0 ∅.
Definition ensemble0 : PartitionedEnsembleRows.t memo :=
  PartitionedEnsembleRows.__init__ (Memo ∅ None) 0 0 ∅.

(** A base estimator that learns one weight, the sum of the labels it is
    fitted on, and predicts for each row the weight times the first cell;
    three rows fitted in three partitions, and three rows to predict. *)
Record slope : Type := Slope { weight : option float }.

#[global] Instance slope_estimator : Estimator slope := {|
  clone e := Slope None;
  set_params kw e := Ok e;
  estimator_fit e X y :=
    Ok (Slope (Some (foldl PrimFloat.add 0%float (labels_of y))));
  estimator_predict e X :=
    match weight e with
    | Some w => Ok (map (fun r => (w * hd 0 r)%float) (rows_of X))
    | None => Raise (LearnerError "not fitted")
    end
|}.

Definition three_rows : frame := Frame ["rs1"] [[3]; [6]; [1.5]]%float.
Definition fitted3 : PartitionedEnsembleRows.t slope :=
  (PartitionedEnsembleRows.fit (fun l => l)
     (PartitionedEnsembleRows.__init__ (Slope None) 3 0 ∅)
     (PdDataFrame three_rows) (NdArray1 [1; 2; 3]%float)).1.

(** A LightGBM estimator whose configuration lacks the early-stopping
    rounds, and the caller's own callback. *)
Definition no_rounds : LGBMEstimatorPRS.t recorder :=
  LGBMEstimatorPRS.__init__ "regression" false 50000 127 ∅.
Definition with_logger : gmap string pyval :=
  {[ "callbacks" := VCallbacks [UserCallback "log_evaluation"] ]}.

(** A stand-in for [group_counts] that refuses what is no array of group
    labels, and a multi-threshold estimator for the ranking task before its
    first fit. *)
Definition checked_group_counts (groups : pyval) : result pyval :=
  match groups with
  | VIntArray _ => Ok (group_counts groups)
  | _ => Raise TypeError
  end.
Definition ranker_multi : LGBMEstimatorMultiThreshPRS.t recorder :=
  LGBMEstimatorMultiThreshPRS.__init__ "rank" false 50000 127
    {[ "early_stopping_rounds" := VInt 50;
       "filter_threshold" := VStr "p1e-3" ]}.

End Fixture.

(** ** Vocabulary of the properties *)

(** Entry [i] of a vector. *)
Definition entry (v : list float) (i : nat) : float := default nan (v !! i).

(** Entry [i] of the running sum: the members' predictions for row [i]
    added in model order, starting from the zero of [np.zeros]. *)
Definition summed (start : float) (ps : list (list float)) (i : nat) : float :=
  foldl PrimFloat.add start (map (fun p => entry p i) ps).

(** The rows of an object, one list of cells per row (a label is a row of
    one cell). *)
Definition items (o : pyobj) : list (list float) :=
  match o with
  | PyNone => []
  | PdDataFrame f | PlDataFrame f => rows f
  | PdSeries v | NdArray1 v => map (fun x => [x]) v
  | NdArray2 a => a
  end.

(** The rows of a dataset, each with its label, and the same tagged with
    their original positions. *)
Definition paired (X y : pyobj) : list (list float * list float) :=
  zip (items X) (items y).
Definition tagged (X y : pyobj) : list (nat * (list float * list float)) :=
  zip (seq 0 (length (paired X y))) (paired X y).

(** Every row of a well-formed table has one cell per column. *)
Definition frame_wf (f : frame) : Prop :=
  Forall (fun r => length r = length (columns f)) (rows f).

(** What [X[names]] gives for a dataframe: the same backend, exactly the
    requested columns in the requested order, every row kept in its place,
    and in row [i] at each requested position [k] the cell that row [i] of
    [X] holds in the column that carries the name requested there. *)
Definition restricted_to (names : list string) (X X' : pyobj) : Prop :=
  exists f f' : frame,
    (X = PdDataFrame f /\ X' = PdDataFrame f' \/
     X = PlDataFrame f /\ X' = PlDataFrame f') /\
    columns f' = names /\
    length (rows f') = length (rows f) /\
    forall (i k j : nat) (r : list float) (c : string),
      rows f !! i = Some r ->
      names !! k = Some c ->
      columns f !! j = Some c ->
      exists r' : list float,
        rows f' !! i = Some r' /\
        length r' = length names /\
        r' !! k = r !! j.

(** The formula of one polars cell. *)
Definition scale_cell (min_val max_val x : float) : float :=
  if ((max_val - min_val) =? 0)%float
  then (x - min_val)%float
  else ((x - min_val) / (max_val - min_val))%float.

(** A row after the loop has handled the first [k] columns. *)
Definition scaled_prefix (k : nat) (mins maxs : list float) (r : list float)
    : list float :=
  imap (fun j x => if decide (j < k)
                   then scale_cell (entry mins j) (entry maxs j) x
                   else x) r.

(** The statistics a fitted scaler holds for column [j]. *)
Definition min_max_at (self : CustomMinMaxScaler.t) (j : nat)
    : option (float * float) :=
  match self with
  | CustomMinMaxScaler.Unfit => None
  | CustomMinMaxScaler.FitPandas mn mx =>
      a ← values mn !! j; b ← values mx !! j; Some (a, b)
  | CustomMinMaxScaler.FitPolars mn mx =>
      a ← mn !! j; b ← mx !! j; Some (a, b)
  end.

(** A multi-threshold SGD estimator seen as a multi-threshold elastic-net
    one with the same attributes. *)
Definition as_elastic_net (self : SGDRegressorMultiThreshPRS.t)
    : ElasticNetEstimatorMultiThreshPRS.t :=
  ElasticNetEstimatorMultiThreshPRS.Build
    (ElasticNetEstimatorPRS.Build
       (SGDRegressorPRS.task (SGDRegressorMultiThreshPRS.base self))
       (SGDRegressorPRS.params (SGDRegressorMultiThreshPRS.base self))
       (SGDRegressorPRS.scaler (SGDRegressorMultiThreshPRS.base self))
       (SGDRegressorPRS.scaler_fit (SGDRegressorMultiThreshPRS.base self)))
    (SGDRegressorMultiThreshPRS.var_sets_map self)
    (SGDRegressorMultiThreshPRS.covar_cols self)
    (SGDRegressorMultiThreshPRS.filter_threshold self).

(** A value lies in a domain: between the bounds of a real domain, from the
    lower bound up to but not including the upper bound of an integer
    domain, among the categories of a choice. *)
Definition in_domain (d : domain) (v : pyval) : bool :=
  match d, v with
  | loguniform lo hi, VFloat x | uniform lo hi, VFloat x =>
      ((lo <=? x) && (x <=? hi))%float
  | lograndint lo hi, VInt z | randint lo hi, VInt z =>
      bool_decide (lo <= z < hi)%Z
  | choice cs, VStr s => bool_decide (s ∈ cs)
  | _, _ => false
  end.

Definition optional_in_domain (d : domain) (v : option pyval) : bool :=
  match v with
  | Some v => in_domain d v
  | None => true
  end.

(** The starting points of an entry are values of its domain. *)
Definition starts_in_domain (h : hyperparameter) : bool :=
  optional_in_domain (hp_domain h) (init_value h) &&
  optional_in_domain (hp_domain h) (low_cost_init_value h).

(** * Properties *)

(** ** The scaler and objects that are not dataframes *)

(** C10: for an [X] that is neither a pandas nor a polars dataframe, [fit]
    stores nothing and leaves the scaler as it was, and [transform] on such
    an [X], once a fit on a dataframe has succeeded, returns [None]. *)
Theorem scaler_skips_other_objects (self : CustomMinMaxScaler.t) (X : pyobj) :
  is_pd_DataFrame X = false ->
  is_pl_DataFrame X = false ->
  CustomMinMaxScaler.fit self X = Ok self /\
  (forall (self0 : CustomMinMaxScaler.t) (T : pyobj),
      is_pd_DataFrame T || is_pl_DataFrame T = true ->
      CustomMinMaxScaler.fit self0 T = Ok self ->
      CustomMinMaxScaler.transform self X = Ok PyNone).
Proof.
  intros Hpd Hpl. split.
  - destruct X; simpl in *; congruence.
  - intros self0 T HT Hfit.
    assert (Hs : CustomMinMaxScaler.has_stats self = true).
    { destruct T as [| f | v | f | v | a]; simpl in *; try discriminate.
      - injection Hfit as <-. reflexivity.
      - destruct (columns f); [discriminate|]. injection Hfit as <-. reflexivity. }
    destruct self; [discriminate| |];
      destruct X; simpl in *; congruence.
Qed.

Lemma scaler_skips_other_objects_witness :
  CustomMinMaxScaler.fit Fixture.fitted_polars Fixture.plain_array =
    Ok Fixture.fitted_polars /\
  CustomMinMaxScaler.transform Fixture.fitted_polars Fixture.plain_array =
    Ok PyNone.
Proof.
  destruct (scaler_skips_other_objects Fixture.fitted_polars
              Fixture.plain_array eq_refl eq_refl) as [Hfit Htr].
  split; [exact Hfit|].
  apply (Htr CustomMinMaxScaler.Unfit (PlDataFrame Fixture.constant_table));
    reflexivity.
Defined.

(** ** Calls before a fit *)

(** The conversion of a Python [int] on a few integers: small ones are
    exact, 63 bits are no limit, a tie goes to the even neighbour and
    [2^1024] is too large. *)
Lemma float_of_Z_examples :
  float_of_Z 3 = Ok 3%float /\
  float_of_Z (-3) = Ok (-3)%float /\
  float_of_Z (2 ^ 63) = Ok 9223372036854775808%float /\
  float_of_Z (2 ^ 53 + 1) = Ok 9007199254740992%float /\
  float_of_Z (2 ^ 53 + 3) = Ok 9007199254740996%float /\
  float_of_Z (2 ^ 1024) = Raise OverflowError.
Proof. vm_compute. by repeat split. Qed.

(** C6 (as stated, refuted): [predict] on an ensemble that was never fitted
    raises nothing; with the empty model list the loop does not run and the
    zero vector divided by [n_partitions] is returned. *)
Lemma predict_before_fit_returns_zeros :
  PartitionedEnsembleRows.predict Fixture.ensemble2
    (PdDataFrame Fixture.four_rows) = Ok [0; 0; 0; 0]%float.
Proof. reflexivity. Qed.

(** C6 (amended): [transform] on a scaler that was never fitted fails with
    the assertion error "fit() must be called before transform()", whatever
    [X] is; [predict] on an ensemble that was never fitted does not fail for
    want of a fit: it returns one value [0 / n_partitions] per row of [X],
    the divisor being [n_partitions] rounded to the nearest binary64 number
    (it fails only where [len(X)] does, or with [OverflowError] where
    [n_partitions] is beyond the finite floats). *)
Theorem calls_before_fit {E : Type} `{Estimator E} (estimator : E)
    (n_partitions verbose : Z) (kwargs : gmap string pyval) (X : pyobj) :
  CustomMinMaxScaler.transform CustomMinMaxScaler.__init__ X =
    Raise (AssertionError "fit() must be called before transform()") /\
  PartitionedEnsembleRows.predict
    (PartitionedEnsembleRows.__init__ estimator n_partitions verbose kwargs) X =
    (n ← len X;
     let divisor := binary_normalize prec emax n_partitions 0 false in
     match divisor with
     | S754_infinity _ => Raise OverflowError
     | _ => Ok (replicate n (0 / SF2Prim divisor)%float)
     end).
Proof.
  split; [reflexivity|].
  unfold PartitionedEnsembleRows.predict, PartitionedEnsembleRows.__init__,
    float_of_Z.
  simpl. destruct (len X) as [n|e]; simpl; [|reflexivity].
  unfold np_zeros.
  destruct (binary_normalize prec emax n_partitions 0 false); simpl;
    try reflexivity; by rewrite fmap_replicate.
Qed.

(** ** The value a fit call returns *)

(** X16: the LightGBM [_fit], when nothing raises, returns the difference of the
    two clock readings. *)
Lemma lgbm_fit_returns_elapsed {M : Type} `{LightGBM M}
    (group_counts : pyval -> pyval) (w : world) (self self' : LGBMEstimatorPRS.t M)
    (X_train y_train : pyobj) (val_frac : float) (print_params : bool)
    (kwargs : gmap string pyval) (r : pyval) :
  LGBMEstimatorPRS._fit group_counts w self X_train y_train val_frac
                        print_params kwargs = (self', Ok r) ->
  r = VFloat (time_at_end w - time_at_entry w)%float.
Proof.
  unfold LGBMEstimatorPRS._fit, LGBMEstimatorPRS.finish_fit.
  destruct (LGBMEstimatorPRS.prepare_fit _ _ _ _ _ _ _ _) as [s [[m c]|e]];
    [|discriminate].
  destruct (lgbm_fit m c); [|discriminate].
  intros [= _ <-]. reflexivity.
Qed.

(** C3 (code): the elastic-net [_fit], and the multi-threshold one on top of
    it, call the parent's [_fit] and drop the training time it returns: when
    the parent succeeds they return [None], otherwise its exception. *)
Theorem elastic_net_fit_returns_None :
  (forall (S : Type)
          (super_fit : S -> pyobj -> pyobj -> gmap string pyval -> S * result float)
          (self : S) (X_train y_train : pyobj) (print_params : bool)
          (kwargs : gmap string pyval),
      (ElasticNetEstimatorPRS._fit super_fit self X_train y_train
                                   print_params kwargs).2 =
      (fun _ => VNone) <$> (super_fit self X_train y_train kwargs).2) /\
  (forall (super_fit : ElasticNetEstimatorMultiThreshPRS.t -> pyobj -> pyobj ->
                       gmap string pyval ->
                       ElasticNetEstimatorMultiThreshPRS.t * result float)
          (self : ElasticNetEstimatorMultiThreshPRS.t)
          (X_train y_train : pyobj) (var_sets_map : gmap string (list string))
          (covar_cols : list string) (print_params : bool)
          (kwargs : gmap string pyval) (r : pyval),
      (ElasticNetEstimatorMultiThreshPRS._fit super_fit self X_train y_train
         var_sets_map covar_cols print_params kwargs).2 = Ok r ->
      r = VNone).
Proof.
  split.
  - intros S super_fit self X y pp kw. unfold ElasticNetEstimatorPRS._fit.
    destruct (super_fit self X y kw) as [s [t|e]]; reflexivity.
  - intros super_fit self X y vm cc pp kw r.
    unfold ElasticNetEstimatorMultiThreshPRS._fit, ElasticNetEstimatorPRS._fit.
    destruct (super_fit _ X y kw) as [s [t|e]]; simpl; congruence.
Qed.

(** ** The [groups] keyword *)

Lemma attach_callback_lookup (cb : callback) (kwargs kw' : gmap string pyval)
    (k : string) :
  attach_callback cb kwargs = Ok kw' ->
  k ≠ "callbacks" ->
  kw' !! k = kwargs !! k.
Proof.
  unfold attach_callback. intros Hk Hne.
  destruct (kwargs !! "callbacks") as [[]|]; try discriminate;
    injection Hk as <-; by rewrite lookup_insert_ne.
Qed.

Lemma pass_groups_drops (gc : pyval -> pyval) (task : string)
    (kwargs : gmap string pyval) :
  pass_groups gc task kwargs !! "groups" = None.
Proof.
  unfold pass_groups. destruct (kwargs !! "groups") eqn:Hg; [|exact Hg].
  case_decide; [rewrite lookup_insert_ne by done|]; apply lookup_delete_eq.
Qed.

(** C4 (as stated, refuted): with the regression task the learner is called
    ([Some]) and its keyword arguments hold no [groups] ([None]); the
    specification has it receive [groups] as the caller gave it. *)
Lemma groups_not_passed_for_regression :
  (fun c => call_kwargs c !! "groups") <$>
    Fixture.recorded_call Fixture.regressor {[ "groups" := Fixture.some_groups ]}
  = Some None.
Proof. vm_compute. reflexivity. Qed.

(** C4 (amended): when a fit call receives [groups], the keyword arguments
    the underlying learner is called with never hold [groups]; for the
    ranking task they hold [group], the per-group row counts of [groups];
    for every other task [groups] is discarded, and [group] and every other
    keyword but [callbacks] are the caller's. *)
Theorem groups_keyword {M : Type} `{LightGBM M} (group_counts : pyval -> pyval)
    (non_lgbm_params : list string) (w : world) (self self' : LGBMEstimatorPRS.t M)
    (preprocessed : result pyobj) (y_train : pyobj) (val_frac : float)
    (kwargs : gmap string pyval) (groups : pyval) (model : M) (call : fit_call) :
  kwargs !! "groups" = Some groups ->
  LGBMEstimatorPRS.prepare_fit group_counts non_lgbm_params w self
    preprocessed y_train val_frac kwargs = (self', Ok (model, call)) ->
  call_kwargs call !! "groups" = None /\
  (LGBMEstimatorPRS._task self = "rank" ->
     call_kwargs call !! "group" = Some (group_counts groups)) /\
  (LGBMEstimatorPRS._task self ≠ "rank" ->
     forall k : string, k ≠ "callbacks" -> k ≠ "groups" ->
       call_kwargs call !! k = kwargs !! k).
Proof.
  intros Hg. unfold LGBMEstimatorPRS.prepare_fit, LGBMEstimatorPRS.after_groups.
  destruct (preprocessed ≫= _) as [s|e]; [|discriminate].
  intros [= _ Hcall]. revert Hcall.
  destruct (lgbm_new _ _) as [m|e]; [|discriminate]. simpl.
  destruct (getitem_param _ _) as [rounds|e]; [|discriminate]. simpl.
  destruct (attach_callback _ _) as [kw'|e] eqn:Hkw; [|discriminate]. simpl.
  intros [= _ <-]. simpl.
  split; [|split].
  - rewrite (attach_callback_lookup _ _ _ _ Hkw) by done.
    apply pass_groups_drops.
  - intros Hrank. rewrite (attach_callback_lookup _ _ _ _ Hkw) by done.
    unfold pass_groups. rewrite Hg. simpl in Hrank.
    rewrite decide_True by exact Hrank. apply lookup_insert_eq.
  - intros Hrank k Hcb Hk. rewrite (attach_callback_lookup _ _ _ _ Hkw) by done.
    unfold pass_groups. rewrite Hg. simpl in Hrank.
    rewrite decide_False by exact Hrank. by rewrite lookup_delete_ne.
Qed.

Lemma groups_keyword_witness :
  exists call : fit_call,
    Fixture.recorded_call Fixture.ranker {[ "groups" := Fixture.some_groups ]}
      = Some call /\
    call_kwargs call !! "groups" = None /\
    call_kwargs call !! "group" = Some (VIntArray [2; 2]%Z).
Proof.
  eexists. split; [vm_compute; reflexivity|].
  edestruct (groups_keyword Fixture.group_counts ["early_stopping_rounds"]
               Fixture.row1_to_validation Fixture.ranker
               (LGBMEstimatorPRS.set_param Fixture.ranker "verbose" (VInt 1))
               (Ok (PdDataFrame Fixture.four_rows))
               (NdArray1 Fixture.four_labels) 0.5%float
               {[ "groups" := Fixture.some_groups ]} Fixture.some_groups)
    as (Hnone & Hrank & _).
  - reflexivity.
  - vm_compute. reflexivity.
  - split; [exact Hnone|]. apply Hrank. reflexivity.
Defined.

(** ** Ensemble prediction *)

Section Predict.
Context {E : Type} `{Estimator E}.

Lemma iadd_same_length (acc p : list float) :
  length p = length acc ->
  PartitionedEnsembleRows.iadd acc p = Ok (zip_with PrimFloat.add acc p).
Proof.
  intros Hlen. unfold PartitionedEnsembleRows.iadd.
  by rewrite decide_True.
Qed.

Lemma entry_zip_add (acc p : list float) (i : nat) :
  length p = length acc -> i < length acc ->
  entry (zip_with PrimFloat.add acc p) i = (entry acc i + entry p i)%float.
Proof.
  intros Hlen Hi. unfold entry.
  destruct (lookup_lt_is_Some_2 acc i Hi) as [a Ha].
  destruct (lookup_lt_is_Some_2 p i ltac:(lia)) as [b Hb].
  rewrite lookup_zip_with, Ha, Hb. reflexivity.
Qed.

(** The loop of [predict], from any accumulator of the right length. *)
Lemma predict_loop (X : pyobj) (ms : list E) (ps : list (list float)) :
  forall acc : list float,
    Forall2 (fun m p => estimator_predict m X = Ok p /\ length p = length acc)
            ms ps ->
    exists v : list float,
      foldl (PartitionedEnsembleRows.add_prediction X) (Ok acc) ms = Ok v /\
      length v = length acc /\
      forall i : nat, i < length acc -> entry v i = summed (entry acc i) ps i.
Proof.
  revert ps. induction ms as [|m ms IH]; intros ps acc Hall.
  - apply Forall2_nil_inv_l in Hall as ->. exists acc. simpl. auto.
  - apply Forall2_cons_inv_l in Hall as (p & ps' & [Hp Hlen] & Hall & ->).
    simpl. unfold PartitionedEnsembleRows.add_prediction at 1. simpl.
    rewrite Hp. simpl. rewrite iadd_same_length by exact Hlen.
    destruct (IH ps' (zip_with PrimFloat.add acc p)) as (v & Hv & Hlv & Hentries).
    { eapply Forall2_impl; [exact Hall|]. intros m' p' [? ?]. split; [done|].
      rewrite length_zip_with. lia. }
    rewrite length_zip_with in Hlv, Hentries.
    exists v. split; [exact Hv|]. split; [lia|].
    intros i Hi. rewrite Hentries by lia.
    unfold summed. simpl. by rewrite entry_zip_add.
Qed.

(** C9: for an ensemble whose members each predict one value per row of
    [X], [predict] returns exactly [n] values, and value [i] is the sum of
    the members' predictions for row [i] divided by [n_partitions] (the
    plain count, whatever the sizes of the partitions), [n_partitions]
    being rounded to the nearest binary64 number as Python converts an
    [int]; with as many members as [n_partitions], which is what one [fit]
    of a new ensemble leaves, that is the sum over the number of members,
    their unweighted arithmetic mean.  An [n_partitions] beyond the finite
    floats makes the division raise [OverflowError]. *)
Theorem predict_sum_over_n_partitions (self : PartitionedEnsembleRows.t E)
    (X : pyobj) (n : nat) (ps : list (list float)) :
  len X = Ok n ->
  Forall2 (fun m p => estimator_predict m X = Ok p /\ length p = n)
          (PartitionedEnsembleRows.models self) ps ->
  let divisor :=
    binary_normalize prec emax (PartitionedEnsembleRows.n_partitions self)
                     0 false in
  match divisor with
  | S754_infinity _ =>
      PartitionedEnsembleRows.predict self X = Raise OverflowError
  | _ =>
      exists v : list float,
        PartitionedEnsembleRows.predict self X = Ok v /\
        length v = n /\
        forall i : nat, i < n ->
          v !! i = Some (summed 0 ps i / SF2Prim divisor)%float /\
          (PartitionedEnsembleRows.n_partitions self =
             Z.of_nat (length (PartitionedEnsembleRows.models self)) ->
           v !! i =
             Some (summed 0 ps i /
                   SF2Prim (binary_normalize prec emax
                              (Z.of_nat (length ps)) 0 false))%float)
  end.
Proof.
  intros Hn Hall divisor.
  destruct (predict_loop X (PartitionedEnsembleRows.models self) ps (np_zeros n))
    as (v & Hv & Hlv & Hentries).
  { eapply Forall2_impl; [exact Hall|]. intros m p [? ?]. split; [done|].
    unfold np_zeros. rewrite length_replicate. done. }
  unfold np_zeros in Hlv, Hentries. rewrite length_replicate in Hlv, Hentries.
  assert (Hcells : forall (d : float) (i : nat), i < n ->
            (map (fun p => (p / d)%float) v) !! i =
              Some (summed 0 ps i / d)%float).
  { intros d i Hi. rewrite list_lookup_fmap.
    destruct (lookup_lt_is_Some_2 v i ltac:(lia)) as [x Hx].
    specialize (Hentries i Hi). unfold entry at 1 2 in Hentries.
    rewrite Hx in Hentries. rewrite lookup_replicate_2 in Hentries by exact Hi.
    simpl in Hentries. rewrite Hx. simpl. by rewrite Hentries. }
  assert (Hpredict : PartitionedEnsembleRows.predict self X =
            match divisor with
            | S754_infinity _ => Raise OverflowError
            | _ => Ok (map (fun p => (p / SF2Prim divisor)%float) v)
            end).
  { unfold PartitionedEnsembleRows.predict, float_of_Z. rewrite Hn. simpl.
    rewrite Hv. simpl. fold divisor. by destruct divisor. }
  assert (Hmean : PartitionedEnsembleRows.n_partitions self =
                    Z.of_nat (length (PartitionedEnsembleRows.models self)) ->
                  binary_normalize prec emax (Z.of_nat (length ps)) 0 false =
                    divisor).
  { intros Hcount. unfold divisor. rewrite Hcount.
    by rewrite (Forall2_length _ _ _ Hall). }
  destruct divisor eqn:Hdivisor; try exact Hpredict;
    (eexists; split; [exact Hpredict|]; split; [by rewrite length_map|];
     intros i Hi; split; [by apply Hcells|];
     intros Hcount; rewrite (Hmean Hcount); by apply Hcells).
Qed.

End Predict.

Lemma predict_sum_over_n_partitions_witness :
  PartitionedEnsembleRows.predict Fixture.fitted3
    (PdDataFrame Fixture.three_rows) = Ok [6; 12; 3]%float.
Proof.
  destruct (predict_sum_over_n_partitions Fixture.fitted3
              (PdDataFrame Fixture.three_rows) 3
              [[3; 6; 1.5]; [6; 12; 3]; [9; 18; 4.5]]%float)
    as (v & Hv & Hlen & Hcells).
  - reflexivity.
  - repeat constructor.
  - rewrite Hv. f_equal.
    destruct v as [|a [|b [|c [|? ?]]]]; try discriminate Hlen.
    pose proof (proj1 (Hcells 0 ltac:(lia))) as H0.
    pose proof (proj1 (Hcells 1 ltac:(lia))) as H1.
    pose proof (proj1 (Hcells 2 ltac:(lia))) as H2.
    vm_compute in H0, H1, H2.
    injection H0 as ->. injection H1 as ->. injection H2 as ->.
    reflexivity.
Defined.

(** ** The validation split *)

Lemma select_rows_zip {A B} (mask : list bool) (a : list A) (b : list B) :
  select_rows mask (zip a b) = zip (select_rows mask a) (select_rows mask b).
Proof.
  revert a b. induction mask as [|c mask IH]; intros [|x a] [|y b];
    simpl; try reflexivity.
  - destruct c; simpl; [reflexivity|]. by destruct (select_rows mask a).
  - destruct c; simpl; by rewrite IH.
Qed.

Lemma select_rows_map {A B} (f : A -> B) (mask : list bool) (l : list A) :
  select_rows mask (map f l) = map f (select_rows mask l).
Proof.
  revert l. induction mask as [|c mask IH]; intros [|x l]; simpl; try done.
  destruct c; simpl; by rewrite IH.
Qed.

Lemma select_rows_split {A} (mask : list bool) (l : list A) :
  length mask = length l ->
  select_rows mask l ++ select_rows (invert mask) l ≡ₚ l.
Proof.
  revert l. induction mask as [|c mask IH]; intros [|x l] Hlen;
    simpl in *; try done.
  injection Hlen as Hlen. destruct c; simpl.
  - by rewrite IH.
  - rewrite <- Permutation_middle. by rewrite IH.
Qed.

Lemma len_items (o : pyobj) (n : nat) : len o = Ok n -> length (items o) = n.
Proof.
  destruct o; simpl; intros [= <-]; try reflexivity; apply length_map.
Qed.

Lemma mask_rows_ok (o : pyobj) (mask : list bool) :
  len o = Ok (length mask) ->
  exists o' : pyobj,
    mask_rows o mask = Ok o' /\ items o' = select_rows mask (items o).
Proof.
  destruct o; simpl; intros [= Hlen]; rewrite decide_True by done;
    eexists; (split; [reflexivity|]); simpl; try done.
  all: by rewrite select_rows_map.
Qed.

Lemma getitem_mask_ok (o : pyobj) (mask : list bool) :
  is_pl_DataFrame o = false ->
  len o = Ok (length mask) ->
  exists o' : pyobj,
    getitem_mask o mask = Ok o' /\ items o' = select_rows mask (items o).
Proof.
  destruct o; simpl; intros Hpl [= Hlen]; try discriminate Hpl;
    rewrite decide_True by done;
    eexists; (split; [reflexivity|]); simpl; try done.
  all: by rewrite select_rows_map.
Qed.

Lemma length_invert (mask : list bool) : length (invert mask) = length mask.
Proof. apply length_map. Qed.

(** C8: when the table and the labels have [N] rows each, the labels being
    a pandas series or a numpy array as the docstring has them (anything
    but a polars table, which takes no mask between brackets), the split
    succeeds with one mask of [N] draws, used for the table and for the
    labels: the validation rows with their labels are exactly the original
    (row, label) pairs at which the mask is true, the training rows with
    their labels those at which it is false; tagged with their original
    positions, no row is on both sides and the two sides together are the
    original rows. *)
Theorem validation_split_partitions (draw : nat -> bool) (val_frac : float)
    (X y : pyobj) (N : nat) :
  shape0 X = Ok N ->
  len y = Ok N ->
  is_pl_DataFrame y = false ->
  ((0 <=? val_frac) && (0 <=? 1 - val_frac))%float = true ->
  exists s : split,
    validation_split draw val_frac X y = Ok s /\
    let val_mask := map draw (seq 0 N) in
    let validation := select_rows val_mask (tagged X y) in
    let training := select_rows (invert val_mask) (tagged X y) in
    paired (X_val_of s) (y_val_of s) = validation.*2 /\
    paired (X_train_of s) (y_train_of s) = training.*2 /\
    (forall i : nat, i ∈ validation.*1 -> i ∈ training.*1 -> False) /\
    validation ++ training ≡ₚ tagged X y.
Proof.
  intros HX Hy Hpl Hp.
  assert (HlenX : len X = Ok N) by (destruct X; simpl in *; congruence).
  set (val_mask := map draw (seq 0 N)).
  assert (Hmask : length val_mask = N)
    by (unfold val_mask; by rewrite length_map, length_seq).
  destruct (mask_rows_ok X val_mask) as (Xv & HXv & HiXv); [by rewrite Hmask|].
  destruct (mask_rows_ok X (invert val_mask)) as (Xt & HXt & HiXt);
    [by rewrite length_invert, Hmask|].
  destruct (getitem_mask_ok y val_mask Hpl) as (yv & Hyv & Hiyv);
    [by rewrite Hmask|].
  destruct (getitem_mask_ok y (invert val_mask) Hpl) as (yt & Hyt & Hiyt);
    [by rewrite length_invert, Hmask|].
  exists (Split Xt yt Xv yv). split.
  { unfold validation_split, random_mask. rewrite HX. simpl. rewrite Hp. simpl.
    fold val_mask. rewrite HXv. simpl. rewrite HXt. simpl. rewrite Hyv. simpl.
    rewrite Hyt. reflexivity. }
  simpl.
  assert (Hpairs : length (paired X y) = N).
  { unfold paired. rewrite length_zip_with, (len_items X N), (len_items y N) by done.
    lia. }
  assert (Hsnd : forall m, (select_rows m (tagged X y)).*2 =
                           select_rows m (paired X y)).
  { intros m. rewrite <- select_rows_map. unfold tagged.
    rewrite snd_zip by (rewrite length_seq; lia). done. }
  split; [|split; [|split]].
  - rewrite Hsnd. unfold paired. by rewrite HiXv, Hiyv, select_rows_zip.
  - rewrite Hsnd. unfold paired. by rewrite HiXt, Hiyt, select_rows_zip.
  - assert (Hperm : select_rows val_mask (tagged X y) ++
                    select_rows (invert val_mask) (tagged X y) ≡ₚ tagged X y).
    { apply select_rows_split. unfold tagged.
      rewrite length_zip_with, length_seq. lia. }
    assert (Hnodup : NoDup ((select_rows val_mask (tagged X y)).*1 ++
                            (select_rows (invert val_mask) (tagged X y)).*1)).
    { rewrite <- fmap_app, Hperm. unfold tagged.
      rewrite fst_zip by (rewrite length_seq; lia). apply NoDup_seq. }
    apply NoDup_app in Hnodup as (_ & Hdisj & _). exact Hdisj.
  - apply select_rows_split. unfold tagged.
    rewrite length_zip_with, length_seq. lia.
Qed.

Lemma validation_split_partitions_witness :
  exists s : split,
    validation_split (fun i => Nat.eqb i 1) 0.5%float
      (PdDataFrame Fixture.four_rows) (NdArray1 Fixture.four_labels) = Ok s /\
    let val_mask := map (fun i => Nat.eqb i 1) (seq 0 4) in
    let validation :=
      select_rows val_mask
        (tagged (PdDataFrame Fixture.four_rows) (NdArray1 Fixture.four_labels)) in
    let training :=
      select_rows (invert val_mask)
        (tagged (PdDataFrame Fixture.four_rows) (NdArray1 Fixture.four_labels)) in
    paired (X_val_of s) (y_val_of s) = validation.*2 /\
    paired (X_train_of s) (y_train_of s) = training.*2 /\
    (forall i : nat, i ∈ validation.*1 -> i ∈ training.*1 -> False) /\
    validation ++ training ≡ₚ
      tagged (PdDataFrame Fixture.four_rows) (NdArray1 Fixture.four_labels).
Proof.
  apply (validation_split_partitions (fun i => Nat.eqb i 1) 0.5%float
           (PdDataFrame Fixture.four_rows) (NdArray1 Fixture.four_labels) 4);
    reflexivity.
Defined.

(** X17: the learner is fitted on the training side of that split and evaluated
    on its validation side. *)
Lemma fit_call_carries_split {M : Type} `{LightGBM M}
    (group_counts : pyval -> pyval) (non_lgbm_params : list string) (w : world)
    (self self' : LGBMEstimatorPRS.t M) (preprocessed : result pyobj)
    (y_train : pyobj) (val_frac : float) (kwargs : gmap string pyval)
    (model : M) (call : fit_call) :
  LGBMEstimatorPRS.prepare_fit group_counts non_lgbm_params w self
    preprocessed y_train val_frac kwargs = (self', Ok (model, call)) ->
  exists (X_train : pyobj) (s : split),
    preprocessed = Ok X_train /\
    validation_split (draw w) val_frac X_train y_train = Ok s /\
    call_X_train call = X_train_of s /\
    call_y_train call = y_train_of s /\
    call_eval_set call = [(X_val_of s, y_val_of s)].
Proof.
  unfold LGBMEstimatorPRS.prepare_fit, LGBMEstimatorPRS.after_groups.
  destruct preprocessed as [X_train|e]; simpl; [|discriminate].
  destruct (validation_split _ _ _ _) as [s|e] eqn:Hs; [|discriminate].
  intros [= _ Hcall]. revert Hcall.
  destruct (lgbm_new _ _) as [m|e]; [|discriminate]. simpl.
  destruct (getitem_param _ _) as [rounds|e]; [|discriminate]. simpl.
  destruct (attach_callback _ _) as [kw'|e]; [|discriminate]. simpl.
  intros [= _ <-]. exists X_train, s. simpl. repeat split. exact Hs.
Qed.

(** ** Ensemble training *)

Lemma length_slice {A} (l : list A) (start end_ : nat) :
  length (slice l start end_) = Nat.min (end_ - start) (length l - start).
Proof. unfold slice. by rewrite length_take, length_drop. Qed.

Lemma take_min_length {A} (l : list A) (k : nat) :
  take (Nat.min k (length l)) l = take k l.
Proof.
  destruct (decide (k <= length l)) as [Hle|Hgt].
  - by rewrite Nat.min_l.
  - rewrite Nat.min_r by lia. rewrite firstn_all. by rewrite take_ge by lia.
Qed.

Lemma pl_slice_ordered {A} (l : list A) (start end_ : nat) :
  start <= end_ ->
  pl_slice l start (Z.of_nat end_ - Z.of_nat start) = Ok (slice l start end_).
Proof.
  intros Hle. unfold pl_slice, slice.
  destruct (decide (Z.of_nat end_ - Z.of_nat start < 0)%Z) as [Hneg|_]; [lia|].
  rewrite decide_False by lia. do 2 f_equal. lia.
Qed.

(** A slice with ordered bounds is the same rows on every backend. *)
Lemma subset_data_rows (o : pyobj) (N start end_ : nat) :
  len o = Ok N ->
  start <= end_ ->
  exists o' : pyobj,
    subset_data o start end_ 0 = Ok o' /\
    items o' = slice (items o) start end_.
Proof.
  intros Hlen Hle.
  destruct o as [| f | v | f | v | a]; simpl in *; try discriminate.
  - eexists; split; reflexivity.
  - eexists; split; [reflexivity|]. simpl. unfold slice.
    by rewrite <- fmap_drop, <- fmap_take.
  - rewrite pl_slice_ordered by exact Hle. simpl.
    eexists; split; reflexivity.
  - eexists; split; [reflexivity|]. simpl. unfold slice.
    by rewrite <- fmap_drop, <- fmap_take.
  - eexists; split; reflexivity.
Qed.

(** The arithmetic of the bounds: [n] partitions of [N] rows. *)
Lemma partition_bounds (N n i : nat) :
  0 < n -> i < n ->
  let partition_size := N / n in
  let start := i * partition_size in
  let end_ := if decide (i ≠ n - 1) then (i + 1) * partition_size else N in
  start <= end_ /\
  Nat.min (end_ - start) (N - start) =
    if decide (i ≠ n - 1) then partition_size
    else N - (n - 1) * partition_size.
Proof.
  intros Hn Hi. simpl.
  assert (Hfloor : n * (N / n) <= N) by (apply Nat.Div0.mul_div_le).
  case_decide as Hlast.
  - assert (Hi' : i + 1 <= n - 1) by lia.
    assert ((i + 1) * (N / n) <= (n - 1) * (N / n))
      by (apply Nat.mul_le_mono_r; exact Hi').
    assert ((n - 1) * (N / n) <= n * (N / n))
      by (apply Nat.mul_le_mono_r; lia).
    split; [lia|]. lia.
  - assert (i = n - 1) as -> by lia.
    assert ((n - 1) * (N / n) <= n * (N / n))
      by (apply Nat.mul_le_mono_r; lia).
    split; [lia|]. lia.
Qed.

Section EnsembleFit.
Context {E : Type} `{Estimator E}.

Lemma fit_partition_append (self : PartitionedEnsembleRows.t E) (model : E)
    (X y : pyobj) (len_y partition_size i : nat) :
  PartitionedEnsembleRows.fit_partition
    (PartitionedEnsembleRows.append_model self model) X y len_y partition_size i =
  PartitionedEnsembleRows.fit_partition self X y len_y partition_size i.
Proof. reflexivity. Qed.

(** The loop appends the model fitted on each partition, in order, and
    stops at the first partition whose fit raises. *)
Lemma fit_loop_appends (X y : pyobj) (len_y partition_size : nat)
    (todo : list nat) :
  forall (self self' : PartitionedEnsembleRows.t E) (r : result unit),
    PartitionedEnsembleRows.fit_loop self X y len_y partition_size todo =
      (self', r) ->
    exists new : list E,
      PartitionedEnsembleRows.models self' =
        PartitionedEnsembleRows.models self ++ new /\
      PartitionedEnsembleRows.n_partitions self' =
        PartitionedEnsembleRows.n_partitions self /\
      Forall2 (fun i m =>
                 PartitionedEnsembleRows.fit_partition self X y len_y
                   partition_size i = Ok m)
              (take (length new) todo) new /\
      (r = Ok () -> length new = length todo).
Proof.
  induction todo as [|i todo IH]; intros self self' r; simpl.
  - intros [= <- <-]. exists []. rewrite app_nil_r. repeat split. constructor.
  - destruct (PartitionedEnsembleRows.fit_partition self X y len_y
                partition_size i) as [m|e] eqn:Hm.
    + intros Hloop. apply IH in Hloop as (new & Hmodels & Hn & Hall & Hlen).
      exists (m :: new). simpl in *. rewrite Hmodels, <- app_assoc.
      repeat split; [exact Hn| |intros Hr; by rewrite Hlen].
      constructor; [exact Hm|].
      eapply Forall2_impl; [exact Hall|]. intros j m' Hj. exact Hj.
    + intros [= <- <-]. exists []. rewrite app_nil_r.
      repeat split; [constructor|discriminate].
Qed.

(** X11: a completed [fit] appends exactly [n_partitions] models to the list it
    found, the [i]-th of them fitted on partition [i]. *)
Lemma fit_appends_n_partitions (shuffle : list nat -> list nat)
    (self self' : PartitionedEnsembleRows.t E) (X y : pyobj) :
  PartitionedEnsembleRows.fit shuffle self X y = (self', Ok ()) ->
  exists (len_y : nat) (new : list E),
    len y = Ok len_y /\
    PartitionedEnsembleRows.models self' =
      PartitionedEnsembleRows.models self ++ new /\
    length new = Z.to_nat (PartitionedEnsembleRows.n_partitions self) /\
    Forall2 (fun i m =>
               PartitionedEnsembleRows.fit_partition self X y len_y
                 (Z.to_nat (Z.of_nat len_y /
                            PartitionedEnsembleRows.n_partitions self)) i = Ok m)
            (seq 0 (Z.to_nat (PartitionedEnsembleRows.n_partitions self))) new.
Proof.
  unfold PartitionedEnsembleRows.fit.
  destruct (len y) as [len_y|e]; [|discriminate].
  case_decide; [discriminate|].
  intros Hloop. apply fit_loop_appends in Hloop as (new & Hmodels & _ & Hall & Hlen).
  specialize (Hlen eq_refl). rewrite length_seq in Hlen.
  exists len_y, new. repeat split; try done.
  rewrite Hlen in Hall. rewrite take_ge in Hall by (rewrite length_seq; lia).
  exact Hall.
Qed.

(** The rows partition [i] is fitted on: for a positive [n_partitions] and
    [N] rows, the rows from [i * floor(N / n_partitions)] of the table as
    it was given, [floor(N / n_partitions)] of them, or all that remain for
    the last partition. *)
Lemma partition_rows (self : PartitionedEnsembleRows.t E) (o : pyobj)
    (N i : nat) :
  (0 < PartitionedEnsembleRows.n_partitions self)%Z ->
  i < Z.to_nat (PartitionedEnsembleRows.n_partitions self) ->
  len o = Ok N ->
  let n := Z.to_nat (PartitionedEnsembleRows.n_partitions self) in
  let partition_size :=
    Z.to_nat (Z.of_nat N / PartitionedEnsembleRows.n_partitions self) in
  exists o' : pyobj,
    subset_data o (PartitionedEnsembleRows.start_idx partition_size i)
      (PartitionedEnsembleRows.end_idx self N partition_size i) 0 = Ok o' /\
    partition_size = N / n /\
    items o' = take (if decide (i ≠ n - 1) then N / n else N - (n - 1) * (N / n))
                    (drop (i * (N / n)) (items o)) /\
    length (items o') =
      if decide (i ≠ n - 1) then N / n else N - (n - 1) * (N / n).
Proof.
  intros Hpos Hi Hlen n partition_size.
  assert (Hps : partition_size = N / n).
  { unfold partition_size, n.
    rewrite <- (Z2Nat.id (PartitionedEnsembleRows.n_partitions self)) at 1 by lia.
    by rewrite <- Nat2Z.inj_div, Nat2Z.id. }
  destruct (partition_bounds N n i) as [Hle Hmin]; [lia|exact Hi|].
  assert (Hend : PartitionedEnsembleRows.end_idx self N partition_size i =
                 if decide (i ≠ n - 1) then (i + 1) * (N / n) else N).
  { unfold PartitionedEnsembleRows.end_idx. rewrite Hps.
    destruct (decide (i ≠ n - 1)) as [Hne|Heq].
    - rewrite decide_True; [done|]. unfold n in Hne. lia.
    - rewrite decide_False; [done|]. unfold n in Heq. lia. }
  unfold PartitionedEnsembleRows.start_idx. rewrite Hend, Hps.
  destruct (subset_data_rows o N (i * (N / n))
              (if decide (i ≠ n - 1) then (i + 1) * (N / n) else N) Hlen Hle)
    as (o' & Ho' & Hitems).
  exists o'. split; [exact Ho'|]. split; [reflexivity|].
  apply (len_items o N) in Hlen.
  split.
  - rewrite Hitems. unfold slice.
    rewrite <- Hmin, <- Hlen, <- (length_drop (items o)).
    by rewrite take_min_length.
  - by rewrite Hitems, length_slice, Hlen.
Qed.

End EnsembleFit.

Section EnsembleFitOutcome.
Context {E : Type} `{Estimator E}.

(** When every partition can be fitted, the loop runs to its end. *)
Lemma fit_loop_completes (X y : pyobj) (len_y partition_size : nat)
    (todo : list nat) :
  forall self : PartitionedEnsembleRows.t E,
    Forall (fun i => is_ok (PartitionedEnsembleRows.fit_partition self X y
                              len_y partition_size i) = true) todo ->
    exists self' : PartitionedEnsembleRows.t E,
      PartitionedEnsembleRows.fit_loop self X y len_y partition_size todo =
        (self', Ok ()).
Proof.
  induction todo as [|i todo IH]; intros self Hall; simpl.
  - by exists self.
  - apply Forall_cons in Hall as [Hi Hall].
    destruct (PartitionedEnsembleRows.fit_partition self X y len_y
                partition_size i) as [m|e]; [|discriminate].
    apply IH. exact Hall.
Qed.

(** The draw of the shuffle has no part in the outcome of [fit]. *)
Lemma fit_shuffle_irrelevant (shuffle shuffle' : list nat -> list nat)
    (self : PartitionedEnsembleRows.t E) (X y : pyobj) :
  PartitionedEnsembleRows.fit shuffle self X y =
  PartitionedEnsembleRows.fit shuffle' self X y.
Proof. reflexivity. Qed.

End EnsembleFitOutcome.

(** C2 (code): on four rows and two partitions, whatever permutation the
    shuffle draws, the first clone is fitted on rows 0 and 1 and the second
    on rows 2 and 3 of the table as given; for the draw [3, 2, 1, 0] the
    specification has the first clone fitted on rows 3 and 2. *)
Theorem fit_blocks_follow_row_order (shuffle : list nat -> list nat) :
  PartitionedEnsembleRows.fit shuffle Fixture.ensemble2
    (PdDataFrame Fixture.four_rows) (NdArray1 Fixture.four_labels) =
  (PartitionedEnsembleRows.Build (Fixture.Memo ∅ None) 2 0 ∅
     [Fixture.Memo ∅
        (Some (PdDataFrame (Frame ["rs1"] [[10]; [11]]%float),
               NdArray1 [0; 1]%float));
      Fixture.Memo ∅
        (Some (PdDataFrame (Frame ["rs1"] [[12]; [13]]%float),
               NdArray1 [2; 3]%float))],
   Ok ()).
Proof. vm_compute. reflexivity. Qed.

(** The example of the specification: a hundred rows in three partitions
    give three fitted clones, on 33, 33 and 34 rows and as many labels. *)
Lemma three_partitions_of_100_rows (shuffle : list nat -> list nat) :
  let fitted :=
    PartitionedEnsembleRows.fit shuffle Fixture.ensemble3
      (PlDataFrame Fixture.hundred_rows) (NdArray1 Fixture.hundred_labels) in
  fitted.2 = Ok () /\
  map Fixture.rows_seen (PartitionedEnsembleRows.models fitted.1) =
    [(33, 33); (33, 33); (34, 34)].
Proof. vm_compute. split; reflexivity. Qed.

(** C5 (code): a second [fit] on the same ensemble completes and leaves four
    models in the list, the two of the first fit followed by two new ones,
    with [n_partitions] still 2; [predict] then divides the sum of four
    predictions (1 + 5 + 1 + 5) by 2. *)
Theorem refit_keeps_earlier_models :
  let refit :=
    PartitionedEnsembleRows.fit (fun l => l) Fixture.fitted2
      (PdDataFrame Fixture.four_rows) (NdArray1 Fixture.four_labels) in
  refit.2 = Ok () /\
  PartitionedEnsembleRows.n_partitions refit.1 = 2%Z /\
  length (PartitionedEnsembleRows.models refit.1) = 4 /\
  take 2 (PartitionedEnsembleRows.models refit.1) =
    PartitionedEnsembleRows.models Fixture.fitted2 /\
  PartitionedEnsembleRows.predict refit.1 (PdDataFrame Fixture.four_rows) =
    Ok [6; 6; 6; 6]%float.
Proof. vm_compute. repeat split. Qed.

(** ** Feature subsetting *)

Lemma list_index_lookup (c : string) (l : list string) (j : nat) :
  list_index c l = Some j -> l !! j = Some c.
Proof.
  revert j. induction l as [|x l IH]; intros j; simpl; [discriminate|].
  case_decide as Hx.
  - intros [= <-]. by rewrite Hx.
  - destruct (list_index c l) as [j'|]; simpl; [|discriminate].
    intros [= <-]. simpl. by apply IH.
Qed.

Lemma list_index_elem (c : string) (l : list string) :
  c ∈ l -> exists j : nat, list_index c l = Some j.
Proof.
  induction l as [|x l IH]; intros Hin; [by apply elem_of_nil in Hin|].
  simpl. case_decide as Hx; [by eexists|].
  apply elem_of_cons in Hin as [Heq|Hin]; [done|].
  destruct (IH Hin) as [j Hj]. rewrite Hj. by eexists.
Qed.

Lemma locate_columns_ok (missing : string -> exn) (cols wanted : list string) :
  Forall (fun c => c ∈ cols) wanted ->
  exists js : list nat,
    locate_columns missing cols wanted = Ok js /\
    Forall2 (fun c j => list_index c cols = Some j) wanted js.
Proof.
  induction wanted as [|c wanted IH]; intros Hall; simpl.
  - exists []. split; [reflexivity|constructor].
  - apply Forall_cons in Hall as [Hc Hall].
    destruct (list_index_elem c cols Hc) as [j Hj]. rewrite Hj.
    destruct (IH Hall) as (js & -> & Hjs). simpl.
    exists (j :: js). split; [reflexivity|]. by constructor.
Qed.

Lemma label_positions_absent (c : string) (cols : list string) :
  list_index c cols = None -> forall j : nat, label_positions c cols j = [].
Proof.
  induction cols as [|x cols IH]; intros Hc j; simpl in *; [reflexivity|].
  case_decide as Hx; [discriminate|].
  destruct (list_index c cols); [discriminate|].
  rewrite decide_False by congruence. by apply IH.
Qed.

(** Among distinct labels a label has one position. *)
Lemma label_positions_NoDup (c : string) (cols : list string) :
  NoDup cols ->
  forall (j0 j : nat),
    list_index c cols = Some j -> label_positions c cols j0 = [j0 + j].
Proof.
  induction 1 as [|x cols Hx _ IH]; intros j0 j; simpl; [discriminate|].
  case_decide as Hc.
  - intros [= <-]. rewrite decide_True by done.
    rewrite label_positions_absent; [f_equal; lia|].
    destruct (list_index c cols) as [j'|] eqn:Hj'; [|reflexivity].
    apply list_index_lookup, list_elem_of_lookup_2 in Hj'. congruence.
  - destruct (list_index c cols) as [j'|]; simpl; [|discriminate].
    intros [= <-]. rewrite decide_False by congruence.
    rewrite (IH (S j0) j' eq_refl). f_equal. lia.
Qed.

(** A pandas table with distinct labels is searched as a polars table is. *)
Lemma locate_all_NoDup (cols wanted : list string) :
  NoDup cols ->
  locate_all cols wanted =
  locate_columns (fun c => KeyError (VStr c)) cols wanted.
Proof.
  intros Hnodup. induction wanted as [|c wanted IH]; simpl; [reflexivity|].
  destruct (list_index c cols) as [j|] eqn:Hj.
  - rewrite (label_positions_NoDup c cols Hnodup 0 j Hj). simpl.
    rewrite IH. by destruct (locate_columns _ cols wanted).
  - by rewrite label_positions_absent.
Qed.

Lemma labels_at_located (cols wanted : list string) (js : list nat) :
  Forall2 (fun c j => list_index c cols = Some j) wanted js ->
  labels_at cols js = wanted.
Proof.
  induction 1 as [|c j wanted js Hj _ IH]; simpl; [reflexivity|].
  apply list_index_lookup in Hj. rewrite Hj. simpl. by rewrite IH.
Qed.

(** A picked row holds, at each requested position, the cell the original
    row holds in the column of that name. *)
Lemma pick_located (cols wanted : list string) (js : list nat)
    (r : list float) (k j : nat) (c : string) :
  NoDup cols ->
  Forall2 (fun c j => list_index c cols = Some j) wanted js ->
  length r = length cols ->
  wanted !! k = Some c ->
  cols !! j = Some c ->
  length (pick r js) = length wanted /\ pick r js !! k = r !! j.
Proof.
  intros Hnodup Hjs Hlen Hk Hj. unfold pick. split.
  - rewrite length_map. symmetry. by eapply Forall2_length.
  - destruct (Forall2_lookup_l _ _ _ _ _ Hjs Hk) as (j' & Hj' & Hcj).
    apply list_index_lookup in Hcj.
    assert (j' = j) as -> by (by eapply NoDup_lookup).
    rewrite list_lookup_fmap, Hj'. simpl.
    apply lookup_lt_Some in Hj.
    destruct (lookup_lt_is_Some_2 r j ltac:(lia)) as [x Hx].
    by rewrite Hx.
Qed.

Lemma picked_rows_restrict (f : frame) (wanted : list string) (js : list nat) :
  NoDup (columns f) ->
  frame_wf f ->
  Forall2 (fun c j => list_index c (columns f) = Some j) wanted js ->
  length (map (fun r => pick r js) (rows f)) = length (rows f) /\
  forall (i k j : nat) (r : list float) (c : string),
    rows f !! i = Some r ->
    wanted !! k = Some c ->
    columns f !! j = Some c ->
    exists r' : list float,
      map (fun r => pick r js) (rows f) !! i = Some r' /\
      length r' = length wanted /\
      r' !! k = r !! j.
Proof.
  intros Hnodup Hwf Hjs. split; [apply length_map|].
  intros i k j r c Hi Hk Hj. exists (pick r js).
  rewrite list_lookup_fmap, Hi. split; [reflexivity|].
  apply (pick_located (columns f) wanted js r k j c); try done.
  unfold frame_wf in Hwf. rewrite Forall_lookup in Hwf. by eapply Hwf.
Qed.

Lemma first_duplicate_NoDup (l : list string) :
  NoDup l -> first_duplicate l = None.
Proof.
  induction 1 as [|c l Hc _ IH]; simpl; [reflexivity|].
  by rewrite decide_False.
Qed.

Lemma getitem_columns_restricts (X : pyobj) (f : frame) (names : list string) :
  X = PdDataFrame f \/ X = PlDataFrame f /\ NoDup names /\ names ≠ [] ->
  NoDup (columns f) ->
  frame_wf f ->
  Forall (fun c => c ∈ columns f) names ->
  exists X' : pyobj,
    getitem_columns X names = Ok X' /\ restricted_to names X X'.
Proof.
  intros HX Hcols Hwf Hall.
  destruct HX as [->|(-> & Hnodup & Hnames)]; simpl.
  - rewrite locate_all_NoDup by exact Hcols.
    destruct (locate_columns_ok (fun c => KeyError (VStr c)) (columns f) names Hall)
      as (js & -> & Hjs). simpl.
    rewrite (labels_at_located _ _ _ Hjs).
    destruct (picked_rows_restrict f names js Hcols Hwf Hjs) as [Hrows Hcells].
    eexists. split; [reflexivity|]. exists f. eexists. split; [by left|].
    by repeat split.
  - destruct (locate_columns_ok ColumnNotFoundError (columns f) names Hall)
      as (js & -> & Hjs). simpl.
    rewrite first_duplicate_NoDup by exact Hnodup.
    destruct (picked_rows_restrict f names js Hcols Hwf Hjs) as [Hrows Hcells].
    destruct names as [|c0 names']; [done|].
    eexists. split; [reflexivity|]. exists f. eexists. split; [by right|].
    by repeat split.
Qed.

(** C7: with the threshold map and the covariate list in place, a threshold
    key of the map makes the feature-subsetting step of both [_preprocess]
    methods return the table restricted to exactly the columns
    [covar_cols + var_sets_map[threshold]], covariates first (the LightGBM
    method returns that table, the elastic-net one hands it to the scaling
    of its parent class); a key that is not in the map makes both raise
    [KeyError] with that key.  The table is a well-formed dataframe with
    distinct column labels that has every requested column; polars also
    wants the requested names distinct and at least one of them. *)
Theorem preprocess_subsets_features {M : Type} `{LightGBM M}
    (lg : LGBMEstimatorMultiThreshPRS.t M)
    (en : ElasticNetEstimatorMultiThreshPRS.t)
    (m : gmap string (list string)) (covars : list string) (k : string)
    (X : pyobj) (f : frame) :
  LGBMEstimatorMultiThreshPRS.var_sets_map lg = Some m ->
  LGBMEstimatorMultiThreshPRS.covar_cols lg = Some covars ->
  LGBMEstimatorPRS.params (LGBMEstimatorMultiThreshPRS.base lg)
    !! "filter_threshold" = Some (VStr k) ->
  ElasticNetEstimatorMultiThreshPRS.var_sets_map en = Some m ->
  ElasticNetEstimatorMultiThreshPRS.covar_cols en = Some covars ->
  ElasticNetEstimatorMultiThreshPRS.filter_threshold en = VStr k ->
  (forall var_subset : list string,
      m !! k = Some var_subset ->
      X = PdDataFrame f \/
        X = PlDataFrame f /\ NoDup (covars ++ var_subset) /\
        covars ++ var_subset ≠ [] ->
      NoDup (columns f) ->
      frame_wf f ->
      Forall (fun c => c ∈ columns f) (covars ++ var_subset) ->
      exists X' : pyobj,
        restricted_to (covars ++ var_subset) X X' /\
        LGBMEstimatorMultiThreshPRS._preprocess lg X = Ok X' /\
        (ElasticNetEstimatorMultiThreshPRS._preprocess en X).2 =
          (ElasticNetEstimatorPRS._preprocess
             (ElasticNetEstimatorMultiThreshPRS.base en) X').2) /\
  (m !! k = None ->
      LGBMEstimatorMultiThreshPRS._preprocess lg X = Raise (KeyError (VStr k)) /\
      ElasticNetEstimatorMultiThreshPRS._preprocess en X =
        (en, Raise (KeyError (VStr k)))).
Proof.
  intros Hlm Hlc Hlk Hem Hec Hek.
  unfold LGBMEstimatorMultiThreshPRS._preprocess,
    ElasticNetEstimatorMultiThreshPRS._preprocess, getitem_param.
  rewrite Hlm, Hlc, Hlk, Hem, Hec, Hek. simpl. split.
  - intros var_subset Hk HX Hcols Hwf Hall. rewrite Hk. simpl.
    destruct (getitem_columns_restricts X f (covars ++ var_subset)
                HX Hcols Hwf Hall) as (X' & -> & Hrestricted).
    exists X'. split; [exact Hrestricted|]. split; [reflexivity|].
    by destruct (ElasticNetEstimatorPRS._preprocess _ X').
  - intros Hk. rewrite Hk. simpl. split; reflexivity.
Qed.

Lemma preprocess_subsets_features_witness :
  let X' :=
    PlDataFrame (Frame ["age"; "sex"; "rs3"; "rs1"]
                       [[61; 0; 2; 0]; [47; 1; 1; 2]]%float) in
  restricted_to ["age"; "sex"; "rs3"; "rs1"]
    (PlDataFrame Fixture.genotypes) X' /\
  LGBMEstimatorMultiThreshPRS._preprocess Fixture.lgbm_multi
    (PlDataFrame Fixture.genotypes) = Ok X' /\
  (ElasticNetEstimatorMultiThreshPRS._preprocess Fixture.elastic_multi
     (PlDataFrame Fixture.genotypes)).2 =
    (ElasticNetEstimatorPRS._preprocess
       (ElasticNetEstimatorMultiThreshPRS.base Fixture.elastic_multi) X').2.
Proof.
  destruct (preprocess_subsets_features Fixture.lgbm_multi Fixture.elastic_multi
              Fixture.thresholds Fixture.covariates "p1e-3"
              (PlDataFrame Fixture.genotypes) Fixture.genotypes
              eq_refl eq_refl eq_refl eq_refl eq_refl eq_refl) as [Hpresent _].
  destruct (Hpresent ["rs3"; "rs1"]) as (X' & Hrestricted & Hlgbm & Helastic).
  - reflexivity.
  - right. split; [reflexivity|]. split; [compute_done|discriminate].
  - compute_done.
  - repeat constructor.
  - compute_done.
  - vm_compute in Hlgbm. injection Hlgbm as <-.
    split; [exact Hrestricted|]. split; [reflexivity|exact Helastic].
Defined.

(** ** Scaling a feature of zero variance *)

(** *** binary64 facts *)

Lemma float_finite_cases (x : float) :
  is_finite x = true ->
  (exists s, Prim2SF x = S754_zero s) \/
  (exists s m e, Prim2SF x = S754_finite s m e).
Proof.
  unfold is_finite, is_nan, is_infinity. intros Hfin.
  rewrite !FloatAxioms.eqb_spec, FloatAxioms.abs_spec in Hfin.
  destruct (Prim2SF x) as [s|s| |s m e] eqn:Hx.
  - left. eauto.
  - exfalso. destruct s; simpl in Hfin; discriminate.
  - discriminate.
  - right. eauto.
Qed.

(** A finite number minus itself is (positive) zero. *)
Lemma float_sub_self (x : float) : is_finite x = true -> (x - x)%float = 0%float.
Proof.
  intros Hfin. apply Prim2SF_inj. rewrite FloatAxioms.sub_spec.
  destruct (float_finite_cases x Hfin) as [[s ->]|(s & m & e & ->)].
  - destruct s; reflexivity.
  - unfold SF64sub, SFsub. rewrite Z.min_id. unfold shl_align.
    rewrite Z.sub_diag. simpl. reflexivity.
Qed.

Lemma float_ltb_irrefl (x : float) : (x <? x)%float = false.
Proof.
  rewrite FloatAxioms.ltb_spec. unfold SFltb.
  destruct (Prim2SF x) as [s|s| |s m e]; simpl; try reflexivity.
  - destruct s; reflexivity.
  - destruct s; rewrite Z.compare_refl, Pos.compare_cont_refl; reflexivity.
Qed.

Lemma float_finite_not_nan (x : float) : is_finite x = true -> is_nan x = false.
Proof.
  unfold is_finite. intros Hfin. apply negb_true_iff, orb_false_iff in Hfin.
  tauto.
Qed.

(** The range test of the polars branch succeeds for a finite constant. *)
Lemma zero_range (m : float) :
  is_finite m = true -> ((m - m) =? 0)%float = true.
Proof. intros Hfin. by rewrite float_sub_self. Qed.

(** The minimum and the maximum of a non-empty column whose every cell is
    the finite number [v] are [v]. *)
Lemma constant_column_min_max (v : float) (n : nat) :
  is_finite v = true ->
  column_min (replicate (S n) v) = v /\ column_max (replicate (S n) v) = v.
Proof.
  intros Hfin. pose proof (float_finite_not_nan v Hfin) as Hnan.
  unfold column_min, column_max. simpl.
  unfold min_step at 2, max_step at 2. rewrite Hnan. simpl.
  induction n as [|n IH]; simpl; [done|].
  unfold min_step at 2, max_step at 2. by rewrite Hnan, float_ltb_irrefl.
Qed.

(** *** Positions and labels *)

Lemma list_index_NoDup (l : list string) (i : nat) (c : string) :
  NoDup l -> l !! i = Some c -> list_index c l = Some i.
Proof.
  intros Hnodup. revert i. induction Hnodup as [|x l Hx _ IH]; intros i Hi.
  - by rewrite lookup_nil in Hi.
  - simpl. destruct i as [|i]; simpl in Hi.
    + injection Hi as ->. by rewrite decide_True.
    + rewrite decide_False.
      * by rewrite (IH i Hi).
      * intros ->. apply Hx. by eapply list_elem_of_lookup_2.
Qed.

(** With distinct labels, operating under each label is operating by
    position. *)
Lemma aligned_by_position (op : float -> float -> float) (cols : list string)
    (r vals : list float) :
  NoDup cols ->
  length r = length cols ->
  length vals = length cols ->
  map (fun c => aligned_op op (label_lookup c cols r) (label_lookup c cols vals))
      cols = zip_with op r vals.
Proof.
  intros Hnodup Hr Hvals. apply list_eq. intros i.
  rewrite list_lookup_fmap, lookup_zip_with.
  destruct (cols !! i) as [c|] eqn:Hc; simpl.
  - unfold label_lookup. rewrite (list_index_NoDup cols i c Hnodup Hc). simpl.
    apply lookup_lt_Some in Hc.
    destruct (lookup_lt_is_Some_2 r i ltac:(lia)) as [x ->].
    destruct (lookup_lt_is_Some_2 vals i ltac:(lia)) as [v ->].
    reflexivity.
  - apply lookup_ge_None in Hc.
    by rewrite (lookup_ge_None_2 r i) by lia.
Qed.

Lemma index_union_same (cols : list string) : index_union cols cols = cols.
Proof. unfold index_union. by rewrite decide_True. Qed.

Lemma frame_op_series_aligned (op : float -> float -> float) (f : frame)
    (vals : list float) :
  NoDup (columns f) ->
  frame_wf f ->
  length vals = length (columns f) ->
  frame_op_series op f (Series (columns f) vals) =
  Frame (columns f) (map (fun r => zip_with op r vals) (rows f)).
Proof.
  intros Hnodup Hwf Hvals. unfold frame_op_series. simpl.
  rewrite index_union_same. f_equal.
  apply Forall_fmap_ext_1. eapply Forall_impl; [exact Hwf|].
  intros r Hr. simpl in Hr. by apply aligned_by_position.
Qed.

Lemma series_op_aligned (op : float -> float -> float) (cols : list string)
    (a b : list float) :
  NoDup cols ->
  length a = length cols ->
  length b = length cols ->
  series_op op (Series cols a) (Series cols b) = Series cols (zip_with op a b).
Proof.
  intros Hnodup Ha Hb. unfold series_op. simpl.
  rewrite index_union_same. f_equal. by apply aligned_by_position.
Qed.

(** *** The pandas branch *)

(** For a table with the columns of the fit, the pandas branch is, cell by
    cell, [(x - min) / (max - min)]. *)
Lemma transform_pandas_cells (f : frame) (mins maxs : list float) :
  NoDup (columns f) ->
  frame_wf f ->
  length mins = length (columns f) ->
  length maxs = length (columns f) ->
  CustomMinMaxScaler.transform
    (CustomMinMaxScaler.FitPandas (Series (columns f) mins)
                                  (Series (columns f) maxs))
    (PdDataFrame f) =
  Ok (PdDataFrame
        (Frame (columns f)
           (map (fun r =>
                   zip_with PrimFloat.div (zip_with PrimFloat.sub r mins)
                            (zip_with PrimFloat.sub maxs mins))
                (rows f)))).
Proof.
  intros Hnodup Hwf Hmins Hmaxs. simpl. do 2 f_equal.
  rewrite frame_op_series_aligned by done.
  rewrite series_op_aligned by done.
  set (f1 := Frame _ _).
  change (columns f) with (columns f1) at 1 2.
  rewrite frame_op_series_aligned.
  - subst f1. simpl. by rewrite map_map.
  - exact Hnodup.
  - subst f1. unfold frame_wf. simpl. apply Forall_fmap.
    eapply Forall_impl; [exact Hwf|]. intros r Hr. simpl in *.
    rewrite length_zip_with. lia.
  - subst f1. simpl. rewrite length_zip_with. lia.
Qed.

(** In the pandas branch a feature whose minimum and maximum are the same
    finite number [m] has every cell divided by zero: [(x - m) / 0], which is
    NaN where [x = m] and infinite elsewhere. *)
Lemma pandas_zero_variance_divides_by_zero (f : frame) (mins maxs : list float)
    (j : nat) (m : float) :
  NoDup (columns f) ->
  frame_wf f ->
  length mins = length (columns f) ->
  length maxs = length (columns f) ->
  mins !! j = Some m ->
  maxs !! j = Some m ->
  is_finite m = true ->
  exists f' : frame,
    CustomMinMaxScaler.transform
      (CustomMinMaxScaler.FitPandas (Series (columns f) mins)
                                    (Series (columns f) maxs))
      (PdDataFrame f) = Ok (PdDataFrame f') /\
    columns f' = columns f /\
    get_column f' j = map (fun x => ((x - m) / 0)%float) (get_column f j).
Proof.
  intros Hnodup Hwf Hmins Hmaxs Hmin Hmax Hfin.
  rewrite transform_pandas_cells by done.
  eexists. split; [reflexivity|]. split; [reflexivity|].
  unfold get_column. simpl. rewrite !map_map.
  apply Forall_fmap_ext_1. eapply Forall_impl; [exact Hwf|].
  intros r Hr. simpl in Hr.
  apply lookup_lt_Some in Hmin as Hj.
  destruct (lookup_lt_is_Some_2 r j ltac:(lia)) as [x Hx].
  rewrite !lookup_zip_with, Hx, Hmin, Hmax. simpl.
  by rewrite float_sub_self.
Qed.

(** *** The polars branch *)

Lemma list_index_middle (done todo : list string) (c : string) :
  NoDup (done ++ c :: todo) ->
  list_index c (done ++ c :: todo) = Some (length done).
Proof.
  intros Hnodup. apply list_index_NoDup; [exact Hnodup|].
  by rewrite lookup_app_r, Nat.sub_diag by lia.
Qed.

Lemma stat_at_entry (vals : list float) (j : nat) :
  j < length vals -> CustomMinMaxScaler.stat_at vals j = Ok (entry vals j).
Proof.
  intros Hj. unfold CustomMinMaxScaler.stat_at, entry.
  by destruct (lookup_lt_is_Some_2 vals j Hj) as [v ->].
Qed.

Lemma scaled_prefix_step (k : nat) (mins maxs r : list float) :
  k < length r ->
  <[k := scale_cell (entry mins k) (entry maxs k)
           (default nan (scaled_prefix k mins maxs r !! k))]>
    (scaled_prefix k mins maxs r) =
  scaled_prefix (S k) mins maxs r.
Proof.
  intros Hk. apply list_eq. intros j. unfold scaled_prefix.
  destruct (lookup_lt_is_Some_2 r k Hk) as [x Hx].
  destruct (decide (j = k)) as [->|Hne].
  - rewrite list_lookup_insert_eq by (by rewrite length_imap).
    rewrite !list_lookup_imap, Hx. simpl.
    rewrite decide_False by lia. by rewrite decide_True by lia.
  - rewrite list_lookup_insert_ne by done.
    rewrite !list_lookup_imap. destruct (r !! j); simpl; [|done].
    destruct (decide (j < k)).
    + by rewrite decide_True by lia.
    + by rewrite decide_False by lia.
Qed.

(** The loop over the columns, from the state in which the columns [done]
    have been handled. *)
Lemma transform_polars_loop (cols : list string) (rs : list (list float))
    (mins maxs : list float) (todo : list string) :
  forall done : list string,
    cols = done ++ todo ->
    NoDup cols ->
    Forall (fun r => length r = length cols) rs ->
    length mins = length cols ->
    length maxs = length cols ->
    foldl (CustomMinMaxScaler.scale_column mins maxs)
          (Ok (Frame cols (map (scaled_prefix (length done) mins maxs) rs)))
          todo =
    Ok (Frame cols (map (scaled_prefix (length cols) mins maxs) rs)).
Proof.
  induction todo as [|c todo IH]; intros done Hcols Hnodup Hwf Hmins Hmaxs.
  - simpl. rewrite app_nil_r in Hcols. by subst.
  - cbn [foldl].
    assert (Hk : length done < length cols)
      by (rewrite Hcols, length_app; simpl; lia).
    assert (Hstep :
      CustomMinMaxScaler.scale_column mins maxs
        (Ok (Frame cols (map (scaled_prefix (length done) mins maxs) rs))) c =
      Ok (Frame cols (map (scaled_prefix (S (length done)) mins maxs) rs))).
    { unfold CustomMinMaxScaler.scale_column. simpl.
      rewrite Hcols at 1. rewrite list_index_middle by (by rewrite <- Hcols).
      simpl. rewrite !stat_at_entry by lia. simpl.
      unfold with_column, get_column. simpl. f_equal. f_equal.
      set (mn := entry mins (length done)). set (mx := entry maxs (length done)).
      transitivity
        (zip_with (fun r x => <[length done := x]> r)
           (map (scaled_prefix (length done) mins maxs) rs)
           (map (fun r => scale_cell mn mx (default nan (r !! length done)))
                (map (scaled_prefix (length done) mins maxs) rs))).
      { f_equal. unfold scale_cell.
        destruct (mx - mn =? 0)%float; apply map_map. }
      rewrite zip_with_fmap_r, zip_with_diag, map_map.
      apply Forall_fmap_ext_1. eapply Forall_impl; [exact Hwf|].
      intros r Hr. simpl in Hr. apply scaled_prefix_step. lia. }
    rewrite Hstep.
    replace (S (length done)) with (length (done ++ [c]))
      by (rewrite length_app; simpl; lia).
    apply IH; try done. by rewrite <- app_assoc.
Qed.

Lemma scaled_prefix_0 (mins maxs r : list float) :
  scaled_prefix 0 mins maxs r = r.
Proof.
  unfold scaled_prefix. apply list_eq. intros j.
  rewrite list_lookup_imap. by destruct (r !! j).
Qed.

(** For a table with as many columns as the fit saw, the polars branch is,
    cell by cell, [scale_cell]. *)
Lemma transform_polars_cells (f : frame) (mins maxs : list float) :
  NoDup (columns f) ->
  frame_wf f ->
  length mins = length (columns f) ->
  length maxs = length (columns f) ->
  CustomMinMaxScaler.transform (CustomMinMaxScaler.FitPolars mins maxs)
                               (PlDataFrame f) =
  Ok (PlDataFrame
        (Frame (columns f)
           (map (scaled_prefix (length (columns f)) mins maxs) (rows f)))).
Proof.
  intros Hnodup Hwf Hmins Hmaxs. simpl.
  unfold CustomMinMaxScaler.transform_polars.
  pose proof (transform_polars_loop (columns f) (rows f) mins maxs (columns f)
                [] eq_refl Hnodup Hwf Hmins Hmaxs) as Hloop.
  simpl in Hloop.
  rewrite (Forall_fmap_ext_1 (scaled_prefix 0 mins maxs) id) in Hloop
    by (apply Forall_true; intros r; apply scaled_prefix_0).
  rewrite list_fmap_id in Hloop. destruct f as [cols rs]. simpl in *.
  by rewrite Hloop.
Qed.

(** In the polars branch a feature whose minimum and maximum are the same
    finite number [m] comes out as [x - m]. *)
Lemma polars_zero_variance_subtracts_min (f : frame) (mins maxs : list float)
    (j : nat) (m : float) :
  NoDup (columns f) ->
  frame_wf f ->
  length mins = length (columns f) ->
  length maxs = length (columns f) ->
  mins !! j = Some m ->
  maxs !! j = Some m ->
  is_finite m = true ->
  exists f' : frame,
    CustomMinMaxScaler.transform (CustomMinMaxScaler.FitPolars mins maxs)
                                 (PlDataFrame f) = Ok (PlDataFrame f') /\
    columns f' = columns f /\
    get_column f' j = map (fun x => (x - m)%float) (get_column f j).
Proof.
  intros Hnodup Hwf Hmins Hmaxs Hmin Hmax Hfin.
  rewrite transform_polars_cells by done.
  eexists. split; [reflexivity|]. split; [reflexivity|].
  unfold get_column. simpl. rewrite !map_map.
  apply Forall_fmap_ext_1. eapply Forall_impl; [exact Hwf|].
  intros r Hr. simpl in Hr.
  apply lookup_lt_Some in Hmin as Hj.
  destruct (lookup_lt_is_Some_2 r j ltac:(lia)) as [x Hx].
  unfold scaled_prefix. rewrite list_lookup_imap, Hx. simpl.
  rewrite decide_True by lia. unfold scale_cell, entry.
  rewrite Hmin, Hmax. simpl. by rewrite zero_range.
Qed.

(** *** A constant column, fitted and transformed *)

Lemma frame_min_max_constant (f : frame) (j n : nat) (v : float) :
  j < length (columns f) ->
  get_column f j = replicate (S n) v ->
  is_finite v = true ->
  frame_min f !! j = Some v /\ frame_max f !! j = Some v.
Proof.
  intros Hj Hcol Hfin. unfold frame_min, frame_max.
  destruct (lookup_lt_is_Some_2 (columns f) j Hj) as [c Hc].
  rewrite !list_lookup_imap, Hc. simpl. rewrite Hcol.
  destruct (constant_column_min_max v n Hfin) as [-> ->]. done.
Qed.

(** X6: the polars backend turns a constant finite column into zeros. *)
Lemma polars_constant_column_becomes_zero (f : frame) (j n : nat) (v : float) :
  NoDup (columns f) ->
  frame_wf f ->
  j < length (columns f) ->
  get_column f j = replicate (S n) v ->
  is_finite v = true ->
  exists (self : CustomMinMaxScaler.t) (f' : frame),
    CustomMinMaxScaler.fit_transform CustomMinMaxScaler.__init__ (PlDataFrame f) =
      (self, Ok (PlDataFrame f')) /\
    get_column f' j = replicate (S n) 0%float.
Proof.
  intros Hnodup Hwf Hj Hcol Hfin.
  destruct (frame_min_max_constant f j n v Hj Hcol Hfin) as [Hmin Hmax].
  destruct (polars_zero_variance_subtracts_min f (frame_min f) (frame_max f) j v)
    as (f' & Htr & _ & Hcol'); try done.
  { unfold frame_min. by rewrite length_imap. }
  { unfold frame_max. by rewrite length_imap. }
  unfold CustomMinMaxScaler.fit_transform, CustomMinMaxScaler.fit.
  destruct (columns f) as [|c cols] eqn:Hcols; [simpl in Hj; lia|].
  rewrite Htr. eexists _, f'. split; [reflexivity|].
  rewrite Hcol', Hcol. rewrite <- (float_sub_self v Hfin).
  clear. induction (S n) as [|k IH]; simpl; [done|]. by rewrite IH.
Qed.

(** The pandas backend turns it into NaN. *)
Lemma pandas_constant_column_becomes_nan (f : frame) (j n : nat) (v : float) :
  NoDup (columns f) ->
  frame_wf f ->
  j < length (columns f) ->
  get_column f j = replicate (S n) v ->
  is_finite v = true ->
  exists (self : CustomMinMaxScaler.t) (f' : frame),
    CustomMinMaxScaler.fit_transform CustomMinMaxScaler.__init__ (PdDataFrame f) =
      (self, Ok (PdDataFrame f')) /\
    get_column f' j = replicate (S n) nan.
Proof.
  intros Hnodup Hwf Hj Hcol Hfin.
  destruct (frame_min_max_constant f j n v Hj Hcol Hfin) as [Hmin Hmax].
  destruct (pandas_zero_variance_divides_by_zero f (frame_min f) (frame_max f) j v)
    as (f' & Htr & _ & Hcol'); try done.
  { unfold frame_min. by rewrite length_imap. }
  { unfold frame_max. by rewrite length_imap. }
  unfold CustomMinMaxScaler.fit_transform, CustomMinMaxScaler.fit.
  rewrite Htr. eexists _, f'. split; [reflexivity|].
  rewrite Hcol', Hcol.
  assert (Hnan : ((v - v) / 0)%float = nan) by (by rewrite float_sub_self).
  rewrite <- Hnan.
  clear. induction (S n) as [|k IH]; simpl; [done|]. by rewrite IH.
Qed.

(** C1 (code): the table of the zero-variance test, a column whose every
    value is 7, fitted and transformed.  The polars branch tests the range
    and returns zeros for that column; the pandas branch divides by the zero
    range and returns NaN, where the specification has it return zeros as
    well. *)
Theorem constant_column_by_backend :
  CustomMinMaxScaler.fit_transform CustomMinMaxScaler.__init__
    (PlDataFrame Fixture.constant_table) =
    (CustomMinMaxScaler.FitPolars [1; 7]%float [4; 7]%float,
     Ok (PlDataFrame
           (Frame ["age"; "rs1"]
              [[0; 0]; [1 / 3; 0]; [1; 0]]%float))) /\
  CustomMinMaxScaler.fit_transform CustomMinMaxScaler.__init__
    (PdDataFrame Fixture.constant_table) =
    (CustomMinMaxScaler.FitPandas (Series ["age"; "rs1"] [1; 7]%float)
                                  (Series ["age"; "rs1"] [4; 7]%float),
     Ok (PdDataFrame
           (Frame ["age"; "rs1"]
              [[0; nan]; [1 / 3; nan]; [1; nan]]%float))).
Proof. split; vm_compute; reflexivity. Qed.

(** * Further properties *)

(** ** What the scaler learns *)

(** *** The order of binary64 numbers *)

Ltac sf_cases :=
  repeat match goal with
  | H : context [(?a ?= ?b)%Z] |- _ => destruct (Z.compare_spec a b); simpl in H
  | |- context [(?a ?= ?b)%Z] => destruct (Z.compare_spec a b); simpl
  | H : context [Pos.compare_cont Eq ?a ?b] |- _ =>
      change (Pos.compare_cont Eq a b) with (Pos.compare a b) in H;
      destruct (Pos.compare_spec a b); simpl in H
  | |- context [Pos.compare_cont Eq ?a ?b] =>
      change (Pos.compare_cont Eq a b) with (Pos.compare a b);
      destruct (Pos.compare_spec a b); simpl
  end.

Ltac sf_order :=
  repeat match goal with s : bool |- _ => destruct s end; simpl;
  try discriminate; try reflexivity; intros;
  sf_cases; subst; try discriminate; try reflexivity; try lia.

Lemma SFleb_trans (x y z : spec_float) :
  SFleb x y = true -> SFleb y z = true -> SFleb x z = true.
Proof.
  unfold SFleb.
  destruct x as [sx|sx| |sx mx ex], y as [sy|sy| |sy my ey],
           z as [sz|sz| |sz mz ez]; simpl; sf_order.
Qed.

Lemma SFltb_leb (x y : spec_float) : SFltb x y = true -> SFleb x y = true.
Proof. unfold SFltb, SFleb. by destruct (SFcompare x y) as [[]|]. Qed.

Lemma SFleb_total (x y : spec_float) :
  x <> S754_nan -> y <> S754_nan -> SFltb x y = false -> SFleb y x = true.
Proof.
  unfold SFltb, SFleb.
  destruct x as [sx|sx| |sx mx ex], y as [sy|sy| |sy my ey];
    simpl; try congruence; intros _ _; sf_order.
Qed.

Lemma is_nan_spec (x : float) : is_nan x = false -> Prim2SF x <> S754_nan.
Proof.
  unfold is_nan. rewrite FloatAxioms.eqb_spec. intros Hx Hnan.
  rewrite Hnan in Hx. discriminate.
Qed.

Lemma float_leb_trans (x y z : float) :
  (x <=? y)%float = true -> (y <=? z)%float = true -> (x <=? z)%float = true.
Proof. rewrite !FloatAxioms.leb_spec. apply SFleb_trans. Qed.

Lemma float_ltb_leb (x y : float) :
  (x <? y)%float = true -> (x <=? y)%float = true.
Proof. rewrite FloatAxioms.ltb_spec, FloatAxioms.leb_spec. apply SFltb_leb. Qed.

Lemma float_leb_total (x y : float) :
  is_nan x = false -> is_nan y = false ->
  (x <? y)%float = false -> (y <=? x)%float = true.
Proof.
  intros Hx Hy. rewrite FloatAxioms.ltb_spec, FloatAxioms.leb_spec.
  apply SFleb_total; by apply is_nan_spec.
Qed.

Lemma float_leb_refl (x : float) : is_nan x = false -> (x <=? x)%float = true.
Proof.
  intros Hx. apply float_leb_total; [done..|]. apply float_ltb_irrefl.
Qed.

(** *** The reductions of a column *)

Lemma min_step_below (acc y : float) :
  is_nan acc = false ->
  is_nan (min_step acc y) = false /\ (min_step acc y <=? acc)%float = true.
Proof.
  intros Hacc. unfold min_step.
  destruct (is_nan y) eqn:Hy; [by split; [|apply float_leb_refl]|].
  rewrite Hacc. destruct (y <? acc)%float eqn:Hlt.
  - split; [done|]. by apply float_ltb_leb.
  - split; [done|]. by apply float_leb_refl.
Qed.

Lemma min_step_below_new (acc y : float) :
  is_nan y = false ->
  is_nan (min_step acc y) = false /\ (min_step acc y <=? y)%float = true.
Proof.
  intros Hy. unfold min_step. rewrite Hy.
  destruct (is_nan acc) eqn:Hacc; [by split; [|apply float_leb_refl]|].
  destruct (y <? acc)%float eqn:Hlt.
  - split; [done|]. by apply float_leb_refl.
  - split; [done|]. by apply float_leb_total.
Qed.

Lemma foldl_min_below_start (xs : list float) :
  forall acc : float,
    is_nan acc = false ->
    (foldl min_step acc xs <=? acc)%float = true.
Proof.
  induction xs as [|y xs IH]; intros acc Hacc; simpl.
  - by apply float_leb_refl.
  - destruct (min_step_below acc y Hacc) as [Hnan Hle].
    eapply float_leb_trans; [by apply IH|exact Hle].
Qed.

Lemma foldl_min_lower_bound (xs : list float) (x : float) :
  forall acc : float,
    x ∈ xs -> is_nan x = false ->
    (foldl min_step acc xs <=? x)%float = true.
Proof.
  induction xs as [|y xs IH]; intros acc Hin Hx; [by apply elem_of_nil in Hin|].
  simpl. apply elem_of_cons in Hin as [->|Hin].
  - destruct (min_step_below_new acc y Hx) as [Hnan Hle].
    eapply float_leb_trans; [by apply foldl_min_below_start|exact Hle].
  - by apply IH.
Qed.

Lemma max_step_above (acc y : float) :
  is_nan acc = false ->
  is_nan (max_step acc y) = false /\ (acc <=? max_step acc y)%float = true.
Proof.
  intros Hacc. unfold max_step.
  destruct (is_nan y) eqn:Hy; [by split; [|apply float_leb_refl]|].
  rewrite Hacc. destruct (acc <? y)%float eqn:Hlt.
  - split; [done|]. by apply float_ltb_leb.
  - split; [done|]. by apply float_leb_refl.
Qed.

Lemma max_step_above_new (acc y : float) :
  is_nan y = false ->
  is_nan (max_step acc y) = false /\ (y <=? max_step acc y)%float = true.
Proof.
  intros Hy. unfold max_step. rewrite Hy.
  destruct (is_nan acc) eqn:Hacc; [by split; [|apply float_leb_refl]|].
  destruct (acc <? y)%float eqn:Hlt.
  - split; [done|]. by apply float_leb_refl.
  - split; [done|]. by apply float_leb_total.
Qed.

Lemma foldl_max_above_start (xs : list float) :
  forall acc : float,
    is_nan acc = false ->
    (acc <=? foldl max_step acc xs)%float = true.
Proof.
  induction xs as [|y xs IH]; intros acc Hacc; simpl.
  - by apply float_leb_refl.
  - destruct (max_step_above acc y Hacc) as [Hnan Hle].
    eapply float_leb_trans; [exact Hle|by apply IH].
Qed.

Lemma foldl_max_upper_bound (xs : list float) (x : float) :
  forall acc : float,
    x ∈ xs -> is_nan x = false ->
    (x <=? foldl max_step acc xs)%float = true.
Proof.
  induction xs as [|y xs IH]; intros acc Hin Hx; [by apply elem_of_nil in Hin|].
  simpl. apply elem_of_cons in Hin as [->|Hin].
  - destruct (max_step_above_new acc y Hx) as [Hnan Hle].
    eapply float_leb_trans; [exact Hle|by apply foldl_max_above_start].
  - by apply IH.
Qed.

Lemma frame_stats_lookup (f : frame) (j : nat) :
  j < length (columns f) ->
  frame_min f !! j = Some (column_min (get_column f j)) /\
  frame_max f !! j = Some (column_max (get_column f j)).
Proof.
  intros Hj. unfold frame_min, frame_max.
  destruct (lookup_lt_is_Some_2 (columns f) j Hj) as [c Hc].
  by rewrite !list_lookup_imap, Hc.
Qed.

(** X1: after [fit] on a dataframe, the statistics kept for a column bound
    every number in it: stored minimum <= cell <= stored maximum. *)
Theorem fit_statistics_bound_cells (self self' : CustomMinMaxScaler.t)
    (X : pyobj) (f : frame) (j : nat) (x : float) :
  X = PdDataFrame f \/ X = PlDataFrame f ->
  CustomMinMaxScaler.fit self X = Ok self' ->
  j < length (columns f) ->
  x ∈ get_column f j ->
  is_nan x = false ->
  exists mn mx : float,
    min_max_at self' j = Some (mn, mx) /\
    (mn <=? x)%float = true /\ (x <=? mx)%float = true.
Proof.
  intros HX Hfit Hj Hin Hx.
  destruct (frame_stats_lookup f j Hj) as [Hmin Hmax].
  exists (column_min (get_column f j)), (column_max (get_column f j)).
  split.
  - destruct HX as [-> | ->]; simpl in Hfit.
    + injection Hfit as <-. simpl. by rewrite Hmin, Hmax.
    + destruct (columns f) eqn:Hcols; [simpl in Hj; lia|].
      injection Hfit as <-. simpl. by rewrite Hmin, Hmax.
  - split; [by apply foldl_min_lower_bound|by apply foldl_max_upper_bound].
Qed.

Lemma fit_statistics_bound_cells_witness :
  exists mn mx : float,
    min_max_at Fixture.fitted_polars 0 = Some (mn, mx) /\
    (mn <=? 2)%float = true /\ (2 <=? mx)%float = true.
Proof.
  apply (fit_statistics_bound_cells CustomMinMaxScaler.__init__
           Fixture.fitted_polars (PlDataFrame Fixture.constant_table)
           Fixture.constant_table 0 2%float).
  - by right.
  - reflexivity.
  - simpl. lia.
  - apply (list_elem_of_lookup_2 _ 1). reflexivity.
  - reflexivity.
Defined.

(** ** What the scaler returns *)

Lemma fit_polars_stats (self st : CustomMinMaxScaler.t) (f : frame) :
  CustomMinMaxScaler.fit self (PlDataFrame f) = Ok st ->
  st = CustomMinMaxScaler.FitPolars (frame_min f) (frame_max f) /\
  length (frame_min f) = length (columns f) /\
  length (frame_max f) = length (columns f).
Proof.
  simpl. destruct (columns f) eqn:Hcols; [discriminate|].
  intros [= <-]. unfold frame_min, frame_max.
  by rewrite !length_imap, Hcols.
Qed.

(** X2: after a fit on a polars table, [transform] of a polars table with as
    many columns keeps the column names and the rows, and every cell is
    scaled with the statistics of its position: [x - min] where the range
    is zero, [(x - min) / (max - min)] elsewhere. *)
Theorem transform_polars_after_fit (self st : CustomMinMaxScaler.t)
    (f f2 : frame) :
  CustomMinMaxScaler.fit self (PlDataFrame f) = Ok st ->
  length (columns f2) = length (columns f) ->
  NoDup (columns f2) ->
  frame_wf f2 ->
  exists f' : frame,
    CustomMinMaxScaler.transform st (PlDataFrame f2) = Ok (PlDataFrame f') /\
    columns f' = columns f2 /\
    length (rows f') = length (rows f2) /\
    forall (i j : nat) (r : list float) (x : float),
      rows f2 !! i = Some r -> r !! j = Some x ->
      exists (r' : list float) (mn mx : float),
        rows f' !! i = Some r' /\
        min_max_at st j = Some (mn, mx) /\
        r' !! j = Some (scale_cell mn mx x).
Proof.
  intros Hfit Hcols Hnodup Hwf.
  destruct (fit_polars_stats self st f Hfit) as (-> & Hmins & Hmaxs).
  rewrite transform_polars_cells by (done || lia).
  eexists. split; [reflexivity|]. split; [reflexivity|]. simpl.
  split; [by rewrite length_map|].
  intros i j r x Hr Hx.
  assert (Hj : j < length (columns f2)).
  { apply list_elem_of_lookup_2 in Hr.
    rewrite <- (proj1 (Forall_forall _ _) Hwf r Hr). by eapply lookup_lt_Some. }
  destruct (lookup_lt_is_Some_2 (frame_min f) j ltac:(lia)) as [mn Hmn].
  destruct (lookup_lt_is_Some_2 (frame_max f) j ltac:(lia)) as [mx Hmx].
  exists (scaled_prefix (length (columns f2)) (frame_min f) (frame_max f) r), mn, mx.
  split; [by rewrite list_lookup_fmap, Hr|].
  split; [by rewrite Hmn, Hmx|].
  unfold scaled_prefix. rewrite list_lookup_imap, Hx. simpl.
  rewrite decide_True by done. unfold entry. by rewrite Hmn, Hmx.
Qed.

Lemma transform_polars_after_fit_witness :
  exists f' : frame,
    CustomMinMaxScaler.transform Fixture.fitted_polars
      (PlDataFrame Fixture.constant_table) = Ok (PlDataFrame f') /\
    columns f' = columns Fixture.constant_table /\
    length (rows f') = length (rows Fixture.constant_table) /\
    forall (i j : nat) (r : list float) (x : float),
      rows Fixture.constant_table !! i = Some r -> r !! j = Some x ->
      exists (r' : list float) (mn mx : float),
        rows f' !! i = Some r' /\
        min_max_at Fixture.fitted_polars j = Some (mn, mx) /\
        r' !! j = Some (scale_cell mn mx x).
Proof.
  apply (transform_polars_after_fit CustomMinMaxScaler.__init__
           Fixture.fitted_polars Fixture.constant_table Fixture.constant_table).
  - reflexivity.
  - reflexivity.
  - compute_done.
  - repeat constructor.
Defined.

(** X3: after a fit on a pandas table, [transform] of a pandas table with the
    same column labels keeps the labels and the rows, and every cell is
    [(x - min) / (max - min)] with the statistics of its column, whatever
    the range. *)
Theorem transform_pandas_after_fit (self st : CustomMinMaxScaler.t)
    (f f2 : frame) :
  CustomMinMaxScaler.fit self (PdDataFrame f) = Ok st ->
  columns f2 = columns f ->
  NoDup (columns f2) ->
  frame_wf f2 ->
  exists f' : frame,
    CustomMinMaxScaler.transform st (PdDataFrame f2) = Ok (PdDataFrame f') /\
    columns f' = columns f2 /\
    length (rows f') = length (rows f2) /\
    forall (i j : nat) (r : list float) (x : float),
      rows f2 !! i = Some r -> r !! j = Some x ->
      exists (r' : list float) (mn mx : float),
        rows f' !! i = Some r' /\
        min_max_at st j = Some (mn, mx) /\
        r' !! j = Some ((x - mn) / (mx - mn))%float.
Proof.
  intros Hfit Hcols Hnodup Hwf. simpl in Hfit. injection Hfit as <-.
  assert (Hmins : length (frame_min f) = length (columns f2))
    by (unfold frame_min; by rewrite length_imap, Hcols).
  assert (Hmaxs : length (frame_max f) = length (columns f2))
    by (unfold frame_max; by rewrite length_imap, Hcols).
  rewrite <- Hcols. rewrite transform_pandas_cells by done.
  eexists. split; [reflexivity|]. split; [reflexivity|]. simpl.
  split; [by rewrite length_map|].
  intros i j r x Hr Hx.
  assert (Hj : j < length (columns f2)).
  { apply list_elem_of_lookup_2 in Hr.
    rewrite <- (proj1 (Forall_forall _ _) Hwf r Hr). by eapply lookup_lt_Some. }
  destruct (lookup_lt_is_Some_2 (frame_min f) j ltac:(lia)) as [mn Hmn].
  destruct (lookup_lt_is_Some_2 (frame_max f) j ltac:(lia)) as [mx Hmx].
  eexists _, mn, mx.
  split; [by rewrite list_lookup_fmap, Hr|].
  split; [by rewrite Hmn, Hmx|].
  by rewrite !lookup_zip_with, Hx, Hmn, Hmx.
Qed.

Lemma transform_pandas_after_fit_witness :
  exists f' : frame,
    CustomMinMaxScaler.transform
      (CustomMinMaxScaler.FitPandas
         (Series ["age"; "rs1"] [1; 7]%float)
         (Series ["age"; "rs1"] [4; 7]%float))
      (PdDataFrame Fixture.constant_table) = Ok (PdDataFrame f') /\
    columns f' = columns Fixture.constant_table /\
    length (rows f') = length (rows Fixture.constant_table) /\
    forall (i j : nat) (r : list float) (x : float),
      rows Fixture.constant_table !! i = Some r -> r !! j = Some x ->
      exists (r' : list float) (mn mx : float),
        rows f' !! i = Some r' /\
        min_max_at (CustomMinMaxScaler.FitPandas
                      (Series ["age"; "rs1"] [1; 7]%float)
                      (Series ["age"; "rs1"] [4; 7]%float)) j = Some (mn, mx) /\
        r' !! j = Some ((x - mn) / (mx - mn))%float.
Proof.
  apply (transform_pandas_after_fit CustomMinMaxScaler.__init__ _
           Fixture.constant_table Fixture.constant_table).
  - reflexivity.
  - reflexivity.
  - compute_done.
  - repeat constructor.
Defined.

Lemma scale_column_raised (mins maxs : list float) (e : exn) (todo : list string) :
  foldl (CustomMinMaxScaler.scale_column mins maxs) (Raise e) todo = Raise e.
Proof. induction todo as [|c todo IH]; simpl; [done|exact IH]. Qed.

(** The loop handles, without raising and without renaming a column, every
    column whose position has statistics. *)
Lemma scale_columns_in_range (mins maxs : list float) (cols : list string)
    (seen : list string) :
  forall rs : list (list float),
    Forall (fun c => exists j, list_index c cols = Some j /\
                               j < length mins /\ j < length maxs) seen ->
    exists rs' : list (list float),
      foldl (CustomMinMaxScaler.scale_column mins maxs) (Ok (Frame cols rs)) seen =
        Ok (Frame cols rs').
Proof.
  induction seen as [|c seen IH]; intros rs Hall; simpl.
  - by exists rs.
  - apply Forall_cons in Hall as [(j & Hj & Hmin & Hmax) Hall].
    unfold CustomMinMaxScaler.scale_column at 1. simpl. rewrite Hj. simpl.
    rewrite !stat_at_entry by done. simpl. unfold with_column. simpl.
    apply IH. exact Hall.
Qed.

Lemma scale_column_no_stats (mins maxs : list float) (X : frame) (c : string)
    (j : nat) :
  list_index c (columns X) = Some j ->
  length mins <= j ->
  CustomMinMaxScaler.scale_column mins maxs (Ok X) c = Raise IndexError.
Proof.
  intros Hj Hlen.
  assert (Hstat : CustomMinMaxScaler.stat_at mins j = Raise IndexError).
  { unfold CustomMinMaxScaler.stat_at. by rewrite (lookup_ge_None_2 mins j). }
  unfold CustomMinMaxScaler.scale_column. simpl.
  rewrite Hj. simpl. by rewrite Hstat.
Qed.

(** X4: a polars table with more columns than the fit saw cannot be
    transformed: the first column without statistics raises [IndexError]. *)
Theorem transform_polars_too_many_columns (self st : CustomMinMaxScaler.t)
    (f f2 : frame) :
  CustomMinMaxScaler.fit self (PlDataFrame f) = Ok st ->
  NoDup (columns f2) ->
  length (columns f) < length (columns f2) ->
  CustomMinMaxScaler.transform st (PlDataFrame f2) = Raise IndexError.
Proof.
  intros Hfit Hnodup Hlen.
  destruct (fit_polars_stats self st f Hfit) as (-> & Hmins & Hmaxs).
  simpl. unfold CustomMinMaxScaler.transform_polars.
  set (k := length (columns f)) in *.
  destruct (lookup_lt_is_Some_2 (columns f2) k Hlen) as [c Hc].
  pose proof (take_drop_middle (columns f2) k c Hc) as Hsplit.
  destruct f2 as [cols rs]. simpl in *.
  rewrite <- Hsplit at 2. rewrite foldl_app.
  destruct (scale_columns_in_range (frame_min f) (frame_max f) cols (take k cols) rs)
    as [rs' ->].
  { apply Forall_forall. intros c' Hc'.
    apply list_elem_of_lookup_1 in Hc' as [j Hj].
    assert (j < k) by (apply lookup_lt_Some in Hj; rewrite length_take in Hj; lia).
    exists j. rewrite lookup_take_lt in Hj by done.
    split; [by apply list_index_NoDup|lia]. }
  cbn [foldl].
  rewrite (scale_column_no_stats _ _ _ c k)
    by (simpl; (by apply list_index_NoDup) || lia).
  by rewrite scale_column_raised.
Qed.

Lemma transform_polars_too_many_columns_witness :
  CustomMinMaxScaler.transform Fixture.fitted_polars
    (PlDataFrame Fixture.genotypes) = Raise IndexError.
Proof.
  apply (transform_polars_too_many_columns CustomMinMaxScaler.__init__
           Fixture.fitted_polars Fixture.constant_table Fixture.genotypes).
  - reflexivity.
  - compute_done.
  - simpl. lia.
Defined.

(** *** Subtraction and division near zero *)

Lemma shr_1_nonneg (mrs : shr_record) :
  (0 <= shr_m mrs)%Z -> (0 <= shr_m (shr_1 mrs))%Z.
Proof. destruct mrs as [[|[p|p|]|[p|p|]] r s]; simpl; lia. Qed.

Lemma iter_shr_1_nonneg (p : positive) :
  forall mrs : shr_record,
    (0 <= shr_m mrs)%Z -> (0 <= shr_m (SpecFloat.iter_pos shr_1 p mrs))%Z.
Proof.
  induction p as [p IH|p IH|]; intros mrs Hm; simpl.
  - apply IH, IH, shr_1_nonneg, Hm.
  - apply IH, IH, Hm.
  - apply shr_1_nonneg, Hm.
Qed.

Lemma shr_fexp_nonneg (m e : Z) (l : location) :
  (0 <= m)%Z -> (0 <= shr_m (shr_fexp prec emax m e l).1)%Z.
Proof.
  intros Hm. unfold shr_fexp, shr.
  assert (Hrec : (0 <= shr_m (shr_record_of_loc m l))%Z)
    by (by destruct l as [|[]]).
  destruct (fexp prec emax (Zdigits2 m + e) - e)%Z; simpl; try done.
  by apply iter_shr_1_nonneg.
Qed.

Lemma round_nearest_even_nonneg (m : Z) (l : location) :
  (0 <= m)%Z -> (0 <= round_nearest_even m l)%Z.
Proof.
  intros Hm. unfold round_nearest_even.
  destruct l as [|[]]; try lia. destruct (Z.even m); lia.
Qed.

Lemma binary_round_aux_not_nan (s : bool) (m e : Z) (l : location) :
  (0 <= m)%Z -> binary_round_aux prec emax s m e l <> S754_nan.
Proof.
  intros Hm. unfold binary_round_aux.
  pose proof (shr_fexp_nonneg m e l Hm) as H1.
  destruct (shr_fexp prec emax m e l) as [mrs' e']. simpl in H1.
  pose proof (shr_fexp_nonneg _ e' loc_Exact
                (round_nearest_even_nonneg _ (loc_of_shr_record mrs') H1)) as H2.
  destruct (shr_fexp prec emax _ e' loc_Exact) as [mrs'' e'']. simpl in H2.
  destruct (shr_m mrs''); [done| |lia].
  by destruct (e'' <=? emax - prec)%Z.
Qed.

Lemma binary_normalize_not_nan (m e : Z) (sz : bool) :
  binary_normalize prec emax m e sz <> S754_nan.
Proof.
  unfold binary_normalize, binary_round.
  destruct m; [done| |];
    destruct (shl_align _ _ _); by apply binary_round_aux_not_nan.
Qed.

Lemma float_sub_not_nan (x y : float) :
  is_finite x = true -> is_finite y = true -> is_nan (x - y) = false.
Proof.
  intros Hx Hy. unfold is_nan. rewrite FloatAxioms.eqb_spec, FloatAxioms.sub_spec.
  assert (Hsub : SF64sub (Prim2SF x) (Prim2SF y) <> S754_nan).
  { unfold SF64sub, SFsub.
    destruct (float_finite_cases x Hx) as [[sx ->]|(sx & mx & ex & ->)],
             (float_finite_cases y Hy) as [[sy ->]|(sy & my & ey & ->)];
      try done; [by destruct sx, sy|apply binary_normalize_not_nan]. }
  destruct (SF64sub _ _) as [s|s| |s m e]; try done; unfold SFeqb; simpl.
  - by destruct s.
  - destruct s; by rewrite Z.compare_refl, Pos.compare_cont_refl.
Qed.

(** Zero divided by a number other than zero is zero. *)
Lemma float_zero_div (r : float) :
  is_nan r = false -> (r =? 0)%float = false -> (0 / r =? 0)%float = true.
Proof.
  intros Hnan Hr. apply is_nan_spec in Hnan.
  rewrite FloatAxioms.eqb_spec in Hr.
  rewrite FloatAxioms.eqb_spec, FloatAxioms.div_spec.
  change (Prim2SF 0) with (S754_zero false) in *.
  by destruct (Prim2SF r) as [s|s| |s m e].
Qed.

Lemma scale_cell_of_minimum (mn mx : float) :
  is_finite mn = true -> is_finite mx = true ->
  (scale_cell mn mx mn =? 0)%float = true.
Proof.
  intros Hmn Hmx. unfold scale_cell. rewrite (float_sub_self mn Hmn).
  destruct (mx - mn =? 0)%float eqn:Hrange; [reflexivity|].
  apply float_zero_div; [by apply float_sub_not_nan|exact Hrange].
Qed.

(** X5: in the polars branch a cell that equals the minimum kept for its column
    is scaled to zero, whether the range of the column is zero or not (the
    statistics being finite numbers). *)
Theorem polars_minimum_becomes_zero (self st : CustomMinMaxScaler.t)
    (f f2 : frame) (i j : nat) (r : list float) (mn mx : float) :
  CustomMinMaxScaler.fit self (PlDataFrame f) = Ok st ->
  length (columns f2) = length (columns f) ->
  NoDup (columns f2) ->
  frame_wf f2 ->
  min_max_at st j = Some (mn, mx) ->
  is_finite mn = true ->
  is_finite mx = true ->
  rows f2 !! i = Some r ->
  r !! j = Some mn ->
  exists (f' : frame) (r' : list float) (z : float),
    CustomMinMaxScaler.transform st (PlDataFrame f2) = Ok (PlDataFrame f') /\
    rows f' !! i = Some r' /\ r' !! j = Some z /\ (z =? 0)%float = true.
Proof.
  intros Hfit Hcols Hnodup Hwf Hstat Hmn Hmx Hr Hx.
  destruct (fit_polars_stats self st f Hfit) as (-> & Hmins & Hmaxs).
  rewrite transform_polars_cells by (done || lia).
  simpl in Hstat.
  destruct (frame_min f !! j) as [a|] eqn:Ha; [|discriminate].
  destruct (frame_max f !! j) as [b|] eqn:Hb; [|discriminate].
  simpl in Hstat. injection Hstat as -> ->.
  eexists _, _, (scale_cell mn mx mn). split; [reflexivity|]. simpl.
  split; [by rewrite list_lookup_fmap, Hr|].
  split; [|by apply scale_cell_of_minimum].
  unfold scaled_prefix. rewrite list_lookup_imap, Hx. simpl.
  pose proof (lookup_lt_Some _ _ _ Ha) as Hj. rewrite Hmins in Hj.
  rewrite decide_True by lia. unfold entry. by rewrite Ha, Hb.
Qed.

Lemma polars_minimum_becomes_zero_witness :
  exists (f' : frame) (r' : list float) (z : float),
    CustomMinMaxScaler.transform Fixture.fitted_polars
      (PlDataFrame Fixture.constant_table) = Ok (PlDataFrame f') /\
    rows f' !! 0 = Some r' /\ r' !! 0 = Some z /\ (z =? 0)%float = true.
Proof.
  apply (polars_minimum_becomes_zero CustomMinMaxScaler.__init__
           Fixture.fitted_polars Fixture.constant_table Fixture.constant_table
           0 0 [1; 7]%float 1%float 4%float).
  - reflexivity.
  - reflexivity.
  - compute_done.
  - repeat constructor.
  - reflexivity.
  - reflexivity.
  - reflexivity.
  - reflexivity.
  - reflexivity.
Defined.

(** ** Preprocessing of the linear estimators *)

(** X7: the statistics are learned from the first table and then frozen: when
    the first [_preprocess] of a scaling estimator succeeds,
    its result is that table scaled with its own statistics, and every
    later [_preprocess] leaves the estimator as it is and transforms with
    those same statistics. *)
Theorem preprocess_scales_with_first_table (self self' : ElasticNetEstimatorPRS.t)
    (X X' : pyobj) :
  ElasticNetEstimatorPRS.scaler self = Some CustomMinMaxScaler.__init__ ->
  ElasticNetEstimatorPRS.scaler_fit self = false ->
  ElasticNetEstimatorPRS._preprocess self X = (self', Ok X') ->
  exists st : CustomMinMaxScaler.t,
    CustomMinMaxScaler.fit CustomMinMaxScaler.__init__ X = Ok st /\
    CustomMinMaxScaler.transform st X = Ok X' /\
    forall X2 : pyobj,
      ElasticNetEstimatorPRS._preprocess self' X2 =
        (self', CustomMinMaxScaler.transform st X2).
Proof.
  intros Hsc Hfit. unfold ElasticNetEstimatorPRS._preprocess.
  rewrite Hsc, Hfit. simpl. unfold CustomMinMaxScaler.fit_transform.
  destruct (CustomMinMaxScaler.fit CustomMinMaxScaler.__init__ X) as [st|e] eqn:Hst;
    [|discriminate].
  destruct (CustomMinMaxScaler.transform st X) as [X1|e] eqn:Htr; [|discriminate].
  intros [= <- <-]. exists st. split; [done|]. split; [done|].
  intros X2. reflexivity.
Qed.

Lemma preprocess_scales_with_first_table_witness :
  exists st : CustomMinMaxScaler.t,
    CustomMinMaxScaler.fit CustomMinMaxScaler.__init__
      (PlDataFrame Fixture.constant_table) = Ok st /\
    CustomMinMaxScaler.transform st (PlDataFrame Fixture.constant_table) =
      Ok (PlDataFrame (Frame ["age"; "rs1"]
                         [[0; 0]; [1 / 3; 0]; [1; 0]]%float)) /\
    forall X2 : pyobj,
      ElasticNetEstimatorPRS._preprocess
        (ElasticNetEstimatorPRS.Build "regression" ∅
           (Some Fixture.fitted_polars) true) X2 =
        (ElasticNetEstimatorPRS.Build "regression" ∅
           (Some Fixture.fitted_polars) true,
         CustomMinMaxScaler.transform st X2).
Proof.
  apply (preprocess_scales_with_first_table Fixture.elastic_scaled _
           (PlDataFrame Fixture.constant_table)).
  - reflexivity.
  - reflexivity.
  - vm_compute. reflexivity.
Defined.

(** X8: an object that is neither dataframe passes through an estimator without
    a scaler untouched; an estimator with a fresh scaler cannot take it:
    the scaler learns nothing from it, [transform] fails its assertion, and
    the estimator stays as it was. *)
Theorem preprocess_of_other_objects (self : ElasticNetEstimatorPRS.t)
    (X : pyobj) :
  is_pd_DataFrame X = false ->
  is_pl_DataFrame X = false ->
  (ElasticNetEstimatorPRS.scaler self = None ->
     ElasticNetEstimatorPRS._preprocess self X = (self, Ok X)) /\
  (ElasticNetEstimatorPRS.scaler self = Some CustomMinMaxScaler.__init__ ->
     ElasticNetEstimatorPRS._preprocess self X =
       (self, Raise (AssertionError "fit() must be called before transform()"))).
Proof.
  intros Hpd Hpl. unfold ElasticNetEstimatorPRS._preprocess.
  destruct self as [t p sc sf]; simpl. split; intros ->.
  - reflexivity.
  - destruct sf; simpl; [reflexivity|].
    unfold CustomMinMaxScaler.fit_transform.
    destruct X; simpl in *; try discriminate; reflexivity.
Qed.

Lemma preprocess_of_other_objects_witness :
  ElasticNetEstimatorPRS._preprocess Fixture.elastic_scaled Fixture.plain_array =
    (Fixture.elastic_scaled,
     Raise (AssertionError "fit() must be called before transform()")).
Proof.
  apply (preprocess_of_other_objects Fixture.elastic_scaled Fixture.plain_array
           eq_refl eq_refl).
  reflexivity.
Defined.

(** X9: the constructors of the elastic-net classes accept the regression task
    only; the multi-threshold class does not hand [scale] on to its parent,
    so its instances scale whatever [scale] was given. *)
Theorem elastic_net_construction (filter_threshold : pyval) (task : string)
    (scale : bool) (config : gmap string pyval) :
  (task ≠ "regression" ->
     ElasticNetEstimatorPRS.__init__ task scale config = Raise ValueError /\
     ElasticNetEstimatorMultiThreshPRS.__init__ filter_threshold task scale
       config = Raise ValueError) /\
  (task = "regression" ->
     exists (self : ElasticNetEstimatorPRS.t)
            (multi : ElasticNetEstimatorMultiThreshPRS.t),
       ElasticNetEstimatorPRS.__init__ task scale config = Ok self /\
       (ElasticNetEstimatorPRS.scaler self = None <-> scale = false) /\
       ElasticNetEstimatorMultiThreshPRS.__init__ filter_threshold task scale
         config = Ok multi /\
       ElasticNetEstimatorPRS.scaler
         (ElasticNetEstimatorMultiThreshPRS.base multi) =
         Some CustomMinMaxScaler.__init__ /\
       ElasticNetEstimatorMultiThreshPRS.var_sets_map multi = None /\
       ElasticNetEstimatorMultiThreshPRS.covar_cols multi = None).
Proof.
  unfold ElasticNetEstimatorMultiThreshPRS.__init__,
    ElasticNetEstimatorPRS.__init__, SCALE_BY_DEFAULT. split.
  - intros Hne. by rewrite !decide_True.
  - intros ->. rewrite !decide_False by (by intros []). simpl.
    destruct scale; eexists _, _; repeat split; simpl; try done.
Qed.

(** ** The partitions of the ensemble *)

(** Blocks of [N / n] elements, the last one taking what is left, are the
    list cut into [n] consecutive pieces. *)
Lemma blocks_cover {A} (l : list A) (n : nat) :
  0 < n ->
  concat (map (fun i => take (if decide (i ≠ n - 1) then length l / n
                              else length l - (n - 1) * (length l / n))
                             (drop (i * (length l / n)) l))
              (seq 0 n)) = l.
Proof.
  intros Hn. destruct n as [|k]; [lia|].
  replace (S k - 1) with k by lia. set (ps := length l / S k).
  assert (Hfloor : S k * ps <= length l) by apply Nat.Div0.mul_div_le.
  assert (Hfront : forall j, j <= k ->
    concat (map (fun i => take (if decide (i ≠ k) then ps
                                else length l - k * ps)
                               (drop (i * ps) l))
                (seq 0 j)) = take (j * ps) l).
  { induction j as [|j IH]; intros Hj; [reflexivity|].
    rewrite seq_S, map_app, concat_app, IH by lia. simpl.
    rewrite decide_True by lia. rewrite app_nil_r, take_take_drop.
    f_equal. lia. }
  rewrite seq_S, map_app, concat_app, Hfront by lia. simpl.
  rewrite decide_False by lia. rewrite app_nil_r.
  rewrite (take_ge (drop _ l)) by (rewrite length_drop; lia).
  apply take_drop.
Qed.

Section Partitions.
Context {E : Type} `{Estimator E}.

(** The slices of one object, partition by partition. *)
Lemma partitions_of_object (self : PartitionedEnsembleRows.t E) (o : pyobj)
    (N : nat) (todo : list nat) :
  (0 < PartitionedEnsembleRows.n_partitions self)%Z ->
  len o = Ok N ->
  Forall (fun i => i < Z.to_nat (PartitionedEnsembleRows.n_partitions self)) todo ->
  let n := Z.to_nat (PartitionedEnsembleRows.n_partitions self) in
  let partition_size :=
    Z.to_nat (Z.of_nat N / PartitionedEnsembleRows.n_partitions self) in
  exists os : list pyobj,
    Forall2 (fun i o' =>
               subset_data o (PartitionedEnsembleRows.start_idx partition_size i)
                 (PartitionedEnsembleRows.end_idx self N partition_size i) 0 =
                 Ok o' /\
               length (items o') =
                 if decide (i ≠ n - 1) then N / n else N - (n - 1) * (N / n))
            todo os /\
    concat (items <$> os) =
    concat (map (fun i => take (if decide (i ≠ n - 1) then N / n
                                else N - (n - 1) * (N / n))
                               (drop (i * (N / n)) (items o)))
                todo).
Proof.
  intros Hpos Hlen Htodo n partition_size.
  induction Htodo as [|i todo Hi _ (os & Hall & Hcat)].
  - exists []. split; [constructor|reflexivity].
  - destruct (partition_rows self o N i Hpos Hi Hlen) as (o' & Ho' & _ & Hitems & Hsize).
    exists (o' :: os). split; [by constructor|].
    rewrite fmap_cons. cbn [concat map]. by rewrite Hitems, Hcat.
Qed.

(** X10: for a positive [n_partitions] and a table and labels of [N] rows each,
    the slices [fit] takes all exist, have [floor(N / n_partitions)] rows
    (the last one the rest), and put end to end are the table and the
    labels as given: every row goes to exactly one partition. *)
Theorem partitions_cover_rows (self : PartitionedEnsembleRows.t E)
    (X y : pyobj) (N : nat) :
  (0 < PartitionedEnsembleRows.n_partitions self)%Z ->
  len X = Ok N ->
  len y = Ok N ->
  let n := Z.to_nat (PartitionedEnsembleRows.n_partitions self) in
  let partition_size :=
    Z.to_nat (Z.of_nat N / PartitionedEnsembleRows.n_partitions self) in
  let partition_of (o : pyobj) (i : nat) (o' : pyobj) :=
    subset_data o (PartitionedEnsembleRows.start_idx partition_size i)
      (PartitionedEnsembleRows.end_idx self N partition_size i) 0 = Ok o' /\
    length (items o') =
      if decide (i ≠ n - 1) then N / n else N - (n - 1) * (N / n) in
  exists Xs ys : list pyobj,
    Forall2 (partition_of X) (seq 0 n) Xs /\
    Forall2 (partition_of y) (seq 0 n) ys /\
    concat (items <$> Xs) = items X /\
    concat (items <$> ys) = items y.
Proof.
  intros Hpos HX Hy n partition_size partition_of.
  assert (Hseq : Forall (fun i => i < n) (seq 0 n)).
  { apply Forall_forall. intros i Hi. apply elem_of_seq in Hi. lia. }
  destruct (partitions_of_object self X N (seq 0 n) Hpos HX Hseq)
    as (Xs & HXs & HcatX).
  destruct (partitions_of_object self y N (seq 0 n) Hpos Hy Hseq)
    as (ys & Hys & Hcaty).
  exists Xs, ys. split; [exact HXs|]. split; [exact Hys|].
  fold n in HcatX, Hcaty.
  rewrite <- (len_items X N HX) in HcatX. rewrite <- (len_items y N Hy) in Hcaty.
  rewrite HcatX, Hcaty. split; apply blocks_cover; unfold n; lia.
Qed.

End Partitions.

Lemma partitions_cover_rows_witness :
  exists Xs ys : list pyobj,
    Forall2 (fun i o' =>
               subset_data (PlDataFrame Fixture.hundred_rows)
                 (PartitionedEnsembleRows.start_idx 33 i)
                 (PartitionedEnsembleRows.end_idx Fixture.ensemble3 100 33 i) 0 =
                 Ok o' /\
               length (items o') = if decide (i ≠ 2) then 33 else 34)
            [0; 1; 2] Xs /\
    Forall2 (fun i o' =>
               subset_data (NdArray1 Fixture.hundred_labels)
                 (PartitionedEnsembleRows.start_idx 33 i)
                 (PartitionedEnsembleRows.end_idx Fixture.ensemble3 100 33 i) 0 =
                 Ok o' /\
               length (items o') = if decide (i ≠ 2) then 33 else 34)
            [0; 1; 2] ys /\
    concat (items <$> Xs) = items (PlDataFrame Fixture.hundred_rows) /\
    concat (items <$> ys) = items (NdArray1 Fixture.hundred_labels).
Proof.
  apply (partitions_cover_rows Fixture.ensemble3
           (PlDataFrame Fixture.hundred_rows)
           (NdArray1 Fixture.hundred_labels) 100).
  - reflexivity.
  - reflexivity.
  - reflexivity.
Defined.

(** ** Outcomes of the ensemble's [fit] and [predict] *)

Lemma fit_appends_n_partitions_witness :
  exists (len_y : nat) (new : list Fixture.memo),
    len (NdArray1 Fixture.four_labels) = Ok len_y /\
    PartitionedEnsembleRows.models Fixture.fitted2 =
      PartitionedEnsembleRows.models Fixture.ensemble2 ++ new /\
    length new = Z.to_nat (PartitionedEnsembleRows.n_partitions Fixture.ensemble2) /\
    Forall2 (fun i m =>
               PartitionedEnsembleRows.fit_partition Fixture.ensemble2
                 (PdDataFrame Fixture.four_rows) (NdArray1 Fixture.four_labels)
                 len_y
                 (Z.to_nat (Z.of_nat len_y /
                            PartitionedEnsembleRows.n_partitions Fixture.ensemble2))
                 i = Ok m)
            (seq 0 (Z.to_nat (PartitionedEnsembleRows.n_partitions
                                Fixture.ensemble2))) new.
Proof.
  apply (fit_appends_n_partitions (fun l => l) Fixture.ensemble2 Fixture.fitted2
           (PdDataFrame Fixture.four_rows) (NdArray1 Fixture.four_labels)).
  vm_compute. reflexivity.
Defined.

Section EnsembleOutcomes.
Context {E : Type} `{Estimator E}.

(** Whatever its outcome, the loop changes nothing of the ensemble but the
    end of the model list. *)
Lemma fit_loop_frame (X y : pyobj) (len_y partition_size : nat)
    (todo : list nat) :
  forall self : PartitionedEnsembleRows.t E,
    let self' :=
      (PartitionedEnsembleRows.fit_loop self X y len_y partition_size todo).1 in
    PartitionedEnsembleRows.estimator self' =
      PartitionedEnsembleRows.estimator self /\
    PartitionedEnsembleRows.n_partitions self' =
      PartitionedEnsembleRows.n_partitions self /\
    PartitionedEnsembleRows.verbose self' =
      PartitionedEnsembleRows.verbose self /\
    PartitionedEnsembleRows.kwargs self' =
      PartitionedEnsembleRows.kwargs self /\
    PartitionedEnsembleRows.models self `prefix_of`
      PartitionedEnsembleRows.models self'.
Proof.
  induction todo as [|i todo IH]; intros self; simpl.
  - by repeat split.
  - destruct (PartitionedEnsembleRows.fit_partition self X y len_y
                partition_size i) as [m|e]; simpl; [|by repeat split].
    destruct (IH (PartitionedEnsembleRows.append_model self m))
      as (He & Hn & Hv & Hk & Hpre).
    simpl in *. repeat split; try done.
    etrans; [|exact Hpre]. by apply prefix_app_r.
Qed.

(** X12: [fit] never changes the prototype, [n_partitions], [verbose] or the
    keyword arguments of the ensemble, and never removes or replaces a
    model: the list it found is a prefix of the list it leaves, whether it
    completes or raises. *)
Theorem fit_keeps_configuration (shuffle : list nat -> list nat)
    (self : PartitionedEnsembleRows.t E) (X y : pyobj) :
  let self' := (PartitionedEnsembleRows.fit shuffle self X y).1 in
  PartitionedEnsembleRows.estimator self' =
    PartitionedEnsembleRows.estimator self /\
  PartitionedEnsembleRows.n_partitions self' =
    PartitionedEnsembleRows.n_partitions self /\
  PartitionedEnsembleRows.verbose self' =
    PartitionedEnsembleRows.verbose self /\
  PartitionedEnsembleRows.kwargs self' =
    PartitionedEnsembleRows.kwargs self /\
  PartitionedEnsembleRows.models self `prefix_of`
    PartitionedEnsembleRows.models self'.
Proof.
  unfold PartitionedEnsembleRows.fit.
  destruct (len y) as [len_y|e]; simpl; [|by repeat split].
  case_decide; simpl; [by repeat split|].
  apply fit_loop_frame.
Qed.

(** X13: with [n_partitions = 0] the division for the partition size raises
    [ZeroDivisionError]; with a negative [n_partitions] the loop has no
    turn and [fit] completes; either way the ensemble is left as it was. *)
Theorem fit_without_partitions (shuffle : list nat -> list nat)
    (self : PartitionedEnsembleRows.t E) (X y : pyobj) (len_y : nat) :
  len y = Ok len_y ->
  (PartitionedEnsembleRows.n_partitions self <= 0)%Z ->
  PartitionedEnsembleRows.fit shuffle self X y =
    (self,
     if decide (PartitionedEnsembleRows.n_partitions self = 0%Z)
     then Raise ZeroDivisionError else Ok ()).
Proof.
  intros Hlen Hn. unfold PartitionedEnsembleRows.fit. rewrite Hlen.
  case_decide; [reflexivity|].
  replace (Z.to_nat (PartitionedEnsembleRows.n_partitions self)) with 0 by lia.
  reflexivity.
Qed.

(** Where the loop stops at a partition that cannot be fitted, the models
    of the partitions before it have been appended. *)
Lemma fit_loop_stops (X y : pyobj) (len_y partition_size : nat)
    (todo : list nat) :
  forall (self self' : PartitionedEnsembleRows.t E) (e : exn),
    PartitionedEnsembleRows.fit_loop self X y len_y partition_size todo =
      (self', Raise e) ->
    exists (new : list E) (i : nat),
      PartitionedEnsembleRows.models self' =
        PartitionedEnsembleRows.models self ++ new /\
      Forall2 (fun i m =>
                 PartitionedEnsembleRows.fit_partition self X y len_y
                   partition_size i = Ok m)
              (take (length new) todo) new /\
      todo !! length new = Some i /\
      PartitionedEnsembleRows.fit_partition self X y len_y partition_size i =
        Raise e.
Proof.
  induction todo as [|i todo IH]; intros self self' e; simpl; [discriminate|].
  destruct (PartitionedEnsembleRows.fit_partition self X y len_y
              partition_size i) as [m|e'] eqn:Hm.
  - intros Hloop. apply IH in Hloop as (new & k & Hmodels & Hall & Hk & Hfail).
    exists (m :: new), k. simpl in *. rewrite Hmodels, <- app_assoc.
    repeat split; try done; by constructor.
  - intros [= <- <-]. exists [], i. rewrite app_nil_r.
    repeat split; try done; constructor.
Qed.

(** X14: a failing partition is fatal to [fit] but nothing is rolled back: when
    [fit] raises in partition [k], the exception is that of partition [k]
    and the [k] models fitted before it stay in the list. *)
Theorem fit_failure_keeps_fitted_models (shuffle : list nat -> list nat)
    (self self' : PartitionedEnsembleRows.t E) (X y : pyobj) (len_y : nat)
    (e : exn) :
  len y = Ok len_y ->
  (0 < PartitionedEnsembleRows.n_partitions self)%Z ->
  PartitionedEnsembleRows.fit shuffle self X y = (self', Raise e) ->
  let partition_size :=
    Z.to_nat (Z.of_nat len_y / PartitionedEnsembleRows.n_partitions self) in
  exists new : list E,
    PartitionedEnsembleRows.models self' =
      PartitionedEnsembleRows.models self ++ new /\
    length new < Z.to_nat (PartitionedEnsembleRows.n_partitions self) /\
    Forall2 (fun i m =>
               PartitionedEnsembleRows.fit_partition self X y len_y
                 partition_size i = Ok m)
            (seq 0 (length new)) new /\
    PartitionedEnsembleRows.fit_partition self X y len_y partition_size
      (length new) = Raise e.
Proof.
  intros Hlen Hn. unfold PartitionedEnsembleRows.fit. rewrite Hlen.
  rewrite decide_False by lia. intros Hloop. cbv zeta.
  apply fit_loop_stops in Hloop as (new & i & Hmodels & Hall & Hi & Hfail).
  pose proof (lookup_lt_Some _ _ _ Hi) as Hk. rewrite length_seq in Hk.
  rewrite lookup_seq_lt in Hi by exact Hk. injection Hi as <-.
  rewrite take_seq, Nat.min_l in Hall by lia.
  exists new. by repeat split.
Qed.

(** X15: [predict] fails with the exception of the first member that cannot
    predict, the members before it having returned one value per row. *)
Theorem predict_raises_with_member (self : PartitionedEnsembleRows.t E)
    (X : pyobj) (n : nat) (before after : list E) (m : E)
    (ps : list (list float)) (e : exn) :
  len X = Ok n ->
  PartitionedEnsembleRows.models self = before ++ m :: after ->
  Forall2 (fun m p => estimator_predict m X = Ok p /\ length p = n) before ps ->
  estimator_predict m X = Raise e ->
  PartitionedEnsembleRows.predict self X = Raise e.
Proof.
  intros Hn Hmodels Hbefore Hm. unfold PartitionedEnsembleRows.predict.
  rewrite Hn, Hmodels. simpl. rewrite foldl_app.
  destruct (predict_loop X before ps (np_zeros n)) as (v & -> & _).
  { eapply Forall2_impl; [exact Hbefore|]. intros m' p [? ?]. split; [done|].
    unfold np_zeros. by rewrite length_replicate. }
  cbn [foldl]. unfold PartitionedEnsembleRows.add_prediction at 2. simpl.
  rewrite Hm. simpl.
  assert (Hraised : forall ms, foldl (PartitionedEnsembleRows.add_prediction X)
                                     (Raise e) ms = Raise e)
    by (induction ms; simpl; done).
  by rewrite Hraised.
Qed.

End EnsembleOutcomes.

Lemma fit_without_partitions_witness :
  PartitionedEnsembleRows.fit (fun l => l) Fixture.ensemble0
    (PdDataFrame Fixture.four_rows) (NdArray1 Fixture.four_labels) =
  (Fixture.ensemble0, Raise ZeroDivisionError).
Proof.
  apply (fit_without_partitions (fun l => l) Fixture.ensemble0
           (PdDataFrame Fixture.four_rows) (NdArray1 Fixture.four_labels) 4).
  - reflexivity.
  - reflexivity.
Defined.

Lemma fit_failure_keeps_fitted_models_witness :
  exists new : list Fixture.picky,
    PartitionedEnsembleRows.models
      (PartitionedEnsembleRows.fit (fun l => l) Fixture.picky3
         (PdDataFrame Fixture.four_rows) (NdArray1 Fixture.four_labels)).1 =
      PartitionedEnsembleRows.models Fixture.picky3 ++ new /\
    length new < 3 /\
    Forall2 (fun i m =>
               PartitionedEnsembleRows.fit_partition Fixture.picky3
                 (PdDataFrame Fixture.four_rows) (NdArray1 Fixture.four_labels)
                 4 1 i = Ok m)
            (seq 0 (length new)) new /\
    PartitionedEnsembleRows.fit_partition Fixture.picky3
      (PdDataFrame Fixture.four_rows) (NdArray1 Fixture.four_labels) 4 1
      (length new) = Raise (LearnerError "more than one row").
Proof.
  apply (fit_failure_keeps_fitted_models (fun l => l) Fixture.picky3 _
           (PdDataFrame Fixture.four_rows) (NdArray1 Fixture.four_labels) 4
           (LearnerError "more than one row")).
  - reflexivity.
  - reflexivity.
  - vm_compute. reflexivity.
Defined.

Lemma predict_raises_with_member_witness :
  PartitionedEnsembleRows.predict
    (PartitionedEnsembleRows.Build (Fixture.Picky None) 1 0 ∅
       [Fixture.Picky (Some 1)])
    (PdDataFrame Fixture.four_rows) = Raise (LearnerError "cannot predict").
Proof.
  apply (predict_raises_with_member _ (PdDataFrame Fixture.four_rows) 4
           [] [] (Fixture.Picky (Some 1)) []).
  - reflexivity.
  - reflexivity.
  - constructor.
  - reflexivity.
Defined.

(** ** The LightGBM fit protocol *)

Lemma lgbm_fit_returns_elapsed_witness :
  VFloat 3.5 = VFloat (time_at_end Fixture.row1_to_validation -
                       time_at_entry Fixture.row1_to_validation)%float.
Proof.
  eapply (lgbm_fit_returns_elapsed Fixture.group_counts
            Fixture.row1_to_validation Fixture.regressor _
            (PdDataFrame Fixture.four_rows) (NdArray1 Fixture.four_labels)
            0.5%float false ∅ (VFloat 3.5)).
  vm_compute. reflexivity.
Defined.

Lemma fit_call_carries_split_witness :
  exists (X_train : pyobj) (s : split) (call : fit_call),
    Fixture.recorded_call Fixture.regressor ∅ = Some call /\
    Ok (PdDataFrame Fixture.four_rows) = Ok X_train /\
    validation_split (draw Fixture.row1_to_validation) 0.5%float X_train
      (NdArray1 Fixture.four_labels) = Ok s /\
    call_X_train call = X_train_of s /\
    call_y_train call = y_train_of s /\
    call_eval_set call = [(X_val_of s, y_val_of s)].
Proof.
  edestruct (fit_call_carries_split Fixture.group_counts
               ["early_stopping_rounds"] Fixture.row1_to_validation
               Fixture.regressor
               (LGBMEstimatorPRS.set_param Fixture.regressor "verbose" (VInt 1))
               (Ok (PdDataFrame Fixture.four_rows))
               (NdArray1 Fixture.four_labels) 0.5%float ∅)
    as (X_train & s & HX & Hs & H1 & H2 & H3).
  { vm_compute. reflexivity. }
  exists X_train, s. eexists. split; [vm_compute; reflexivity|].
  split; [exact HX|]. split; [exact Hs|]. split; [exact H1|].
  split; [exact H2|exact H3].
Defined.

Section FitProtocol.
Context {M : Type} `{LightGBM M}.
Variable group_counts : pyval -> pyval.

Lemma pass_groups_callbacks (task : string) (kwargs : gmap string pyval) :
  pass_groups group_counts task kwargs !! "callbacks" = kwargs !! "callbacks".
Proof.
  unfold pass_groups. destruct (kwargs !! "groups"); [|done].
  case_decide; [rewrite lookup_insert_ne by done|]; by rewrite lookup_delete_ne.
Qed.

(** X18: the learner is constructed from the estimator's parameters without the
    pipeline-only ones and with [verbose] forced to 1, and [verbose = 1] is
    what the estimator's own parameters keep afterwards. *)
Theorem learner_parameters (non_lgbm_params : list string) (w : world)
    (self self' : LGBMEstimatorPRS.t M) (preprocessed : result pyobj)
    (y_train : pyobj) (val_frac : float) (kwargs : gmap string pyval)
    (model : M) (call : fit_call) :
  LGBMEstimatorPRS.prepare_fit group_counts non_lgbm_params w self
    preprocessed y_train val_frac kwargs = (self', Ok (model, call)) ->
  LGBMEstimatorPRS.params self' =
    <["verbose" := VInt 1]> (LGBMEstimatorPRS.params self) /\
  exists p : gmap string pyval,
    lgbm_new (LGBMEstimatorPRS.estimator_class self) p = Ok model /\
    (forall k : string, k ∈ non_lgbm_params -> p !! k = None) /\
    (forall k : string, k ∉ non_lgbm_params ->
       p !! k = LGBMEstimatorPRS.params self' !! k).
Proof.
  unfold LGBMEstimatorPRS.prepare_fit, LGBMEstimatorPRS.after_groups.
  destruct (preprocessed ≫= _) as [s|e]; [|discriminate].
  intros [= <- Hcall]. split; [reflexivity|]. revert Hcall. simpl.
  destruct (lgbm_new _ _) as [m|e] eqn:Hnew; [|discriminate]. simpl.
  destruct (getitem_param _ _) as [rounds|e]; [|discriminate]. simpl.
  destruct (attach_callback _ _) as [kw'|e]; [|discriminate]. simpl.
  intros [= <- _]. eexists. split; [exact Hnew|]. unfold learner_params. split.
  - intros k Hk. apply map_lookup_filter_None. right. intros v _ Hnot.
    by apply Hnot.
  - intros k Hk.
    destruct (<["verbose":=VInt 1]> (LGBMEstimatorPRS.params self) !! k)
      as [v|] eqn:Hv.
    + by apply map_lookup_filter_Some.
    + apply map_lookup_filter_None. by left.
Qed.

(** X19: the early-stopping callback, built from
    [params['early_stopping_rounds']], is added after the caller's
    callbacks, which are kept in their order; without any it is the only
    one. *)
Theorem early_stopping_callback_last (non_lgbm_params : list string)
    (w : world) (self self' : LGBMEstimatorPRS.t M)
    (preprocessed : result pyobj) (y_train : pyobj) (val_frac : float)
    (kwargs : gmap string pyval) (model : M) (call : fit_call) :
  LGBMEstimatorPRS.prepare_fit group_counts non_lgbm_params w self
    preprocessed y_train val_frac kwargs = (self', Ok (model, call)) ->
  exists (rounds : pyval) (given : list callback),
    LGBMEstimatorPRS.params self !! "early_stopping_rounds" = Some rounds /\
    (kwargs !! "callbacks" = Some (VCallbacks given) \/
     kwargs !! "callbacks" = None /\ given = []) /\
    call_kwargs call !! "callbacks" =
      Some (VCallbacks (given ++ [EarlyStopping rounds])).
Proof.
  unfold LGBMEstimatorPRS.prepare_fit, LGBMEstimatorPRS.after_groups.
  destruct (preprocessed ≫= _) as [s|e]; [|discriminate].
  intros [= _ Hcall]. revert Hcall. simpl.
  destruct (lgbm_new _ _) as [m|e]; [|discriminate]. simpl.
  unfold getitem_param. rewrite lookup_insert_ne by done.
  destruct (LGBMEstimatorPRS.params self !! "early_stopping_rounds")
    as [rounds|]; [|discriminate]. simpl.
  unfold attach_callback. rewrite pass_groups_callbacks.
  destruct (kwargs !! "callbacks") as [[]|] eqn:Hcb; try discriminate; simpl;
    intros [= _ <-]; simpl; eexists rounds, _;
    (split; [reflexivity|]); rewrite lookup_insert_eq.
  - split; [by left|reflexivity].
  - split; [by right|reflexivity].
Qed.

(** X20: [_fit] assigns [self._model] only when the learner has been fitted: a
    call that raises leaves the model of an earlier fit in place, and no
    call changes the task or the learner class. *)
Theorem fit_sets_model_on_success (w : world) (self : LGBMEstimatorPRS.t M)
    (X_train y_train : pyobj) (val_frac : float) (print_params : bool)
    (kwargs : gmap string pyval) :
  let outcome :=
    LGBMEstimatorPRS._fit group_counts w self X_train y_train val_frac
                          print_params kwargs in
  LGBMEstimatorPRS._task outcome.1 = LGBMEstimatorPRS._task self /\
  LGBMEstimatorPRS.estimator_class outcome.1 =
    LGBMEstimatorPRS.estimator_class self /\
  match outcome.2 with
  | Ok _ => is_Some (LGBMEstimatorPRS._model outcome.1)
  | Raise _ => LGBMEstimatorPRS._model outcome.1 = LGBMEstimatorPRS._model self
  end.
Proof.
  unfold LGBMEstimatorPRS._fit, LGBMEstimatorPRS.finish_fit,
    LGBMEstimatorPRS.prepare_fit, LGBMEstimatorPRS.after_groups.
  destruct (LGBMEstimatorPRS._preprocess self X_train ≫= _) as [s|e];
    [|by repeat split].
  destruct (lgbm_new _ _ ≫= _) as [[m c]|e]; [|simpl; by repeat split].
  destruct (lgbm_fit m c); simpl; by repeat split.
Qed.

(** X21: without [early_stopping_rounds] among its parameters the estimator
    cannot be fitted: [_fit] raises, whatever the data. *)
Theorem fit_needs_early_stopping_rounds (w : world)
    (self : LGBMEstimatorPRS.t M) (X_train y_train : pyobj) (val_frac : float)
    (print_params : bool) (kwargs : gmap string pyval) :
  LGBMEstimatorPRS.params self !! "early_stopping_rounds" = None ->
  is_ok (LGBMEstimatorPRS._fit group_counts w self X_train y_train val_frac
                               print_params kwargs).2 = false.
Proof.
  intros Hnone. unfold LGBMEstimatorPRS._fit, LGBMEstimatorPRS.finish_fit,
    LGBMEstimatorPRS.prepare_fit, LGBMEstimatorPRS.after_groups.
  destruct (LGBMEstimatorPRS._preprocess self X_train ≫= _) as [s|e];
    [|reflexivity].
  destruct (lgbm_new _ _) as [m|e]; [|reflexivity]. simpl.
  unfold getitem_param. rewrite lookup_insert_ne by done. by rewrite Hnone.
Qed.


End FitProtocol.

Lemma learner_parameters_witness :
  exists model : Fixture.recorder,
    LGBMEstimatorPRS.params
      (LGBMEstimatorPRS.set_param Fixture.regressor "verbose" (VInt 1)) =
      <["verbose" := VInt 1]> (LGBMEstimatorPRS.params Fixture.regressor) /\
    exists p : gmap string pyval,
      lgbm_new (LGBMEstimatorPRS.estimator_class Fixture.regressor) p = Ok model /\
      (forall k : string, k ∈ ["early_stopping_rounds"] -> p !! k = None) /\
      (forall k : string, k ∉ ["early_stopping_rounds"] ->
         p !! k =
         LGBMEstimatorPRS.params
           (LGBMEstimatorPRS.set_param Fixture.regressor "verbose" (VInt 1)) !! k).
Proof.
  eexists.
  eapply (learner_parameters Fixture.group_counts ["early_stopping_rounds"]
            Fixture.row1_to_validation Fixture.regressor _
            (Ok (PdDataFrame Fixture.four_rows))
            (NdArray1 Fixture.four_labels) 0.5%float ∅).
  vm_compute. reflexivity.
Defined.

Lemma early_stopping_callback_last_witness :
  exists (call : fit_call) (rounds : pyval) (given : list callback),
    Fixture.recorded_call Fixture.regressor Fixture.with_logger = Some call /\
    LGBMEstimatorPRS.params Fixture.regressor !! "early_stopping_rounds" =
      Some rounds /\
    (Fixture.with_logger !! "callbacks" = Some (VCallbacks given) \/
     Fixture.with_logger !! "callbacks" = None /\ given = []) /\
    call_kwargs call !! "callbacks" =
      Some (VCallbacks (given ++ [EarlyStopping rounds])).
Proof.
  eexists.
  edestruct (early_stopping_callback_last Fixture.group_counts
               ["early_stopping_rounds"] Fixture.row1_to_validation
               Fixture.regressor
               (LGBMEstimatorPRS.set_param Fixture.regressor "verbose" (VInt 1))
               (Ok (PdDataFrame Fixture.four_rows))
               (NdArray1 Fixture.four_labels) 0.5%float Fixture.with_logger)
    as (rounds & given & Hrounds & Hgiven & Hlast).
  { vm_compute. reflexivity. }
  exists rounds, given. split; [vm_compute; reflexivity|].
  split; [exact Hrounds|]. split; [exact Hgiven|exact Hlast].
Defined.

Lemma fit_needs_early_stopping_rounds_witness :
  is_ok (LGBMEstimatorPRS._fit Fixture.group_counts Fixture.row1_to_validation
           Fixture.no_rounds (PdDataFrame Fixture.four_rows)
           (NdArray1 Fixture.four_labels) 0.5%float false ∅).2 = false.
Proof.
  apply (fit_needs_early_stopping_rounds Fixture.group_counts
           Fixture.row1_to_validation Fixture.no_rounds).
  reflexivity.
Defined.


(** ** The multi-threshold estimators *)

Section MultiThreshold.
Context {M : Type} `{LightGBM M}.
Variable group_counts : pyval -> result pyval.

(** The fit protocol leaves every parameter but [verbose] as it was. *)
Lemma fit_protocol_params (non_lgbm_params : list string) (w : world)
    (self : LGBMEstimatorPRS.t M) (preprocessed : result pyobj)
    (y_train : pyobj) (val_frac : float) (kwargs : gmap string pyval)
    (k : string) :
  k ≠ "verbose" ->
  LGBMEstimatorPRS.params
    (LGBMEstimatorPRS.finish_fit w (time_at_entry w)
       (LGBMEstimatorPRS.after_groups non_lgbm_params w self
          preprocessed y_train val_frac kwargs)).1 !! k =
  LGBMEstimatorPRS.params self !! k.
Proof.
  intros Hk. unfold LGBMEstimatorPRS.finish_fit, LGBMEstimatorPRS.after_groups.
  destruct (preprocessed ≫= _) as [s|e]; [|reflexivity].
  destruct (lgbm_new _ _ ≫= _) as [[m c]|e]; simpl;
    [destruct (lgbm_fit m c); simpl|]; by rewrite lookup_insert_ne.
Qed.

(** X23: [_fit] stores the threshold map and the covariates after the
    groups handling and before it preprocesses.  When the conversion of
    [groups] raises (a ranking task given [groups]), [_fit] raises with it
    and the estimator is as it was, the new map not stored.  When it does
    not, the map and the covariates are stored and the threshold is kept
    whatever happens next: [_preprocess] afterwards selects, for any table,
    what it selected during the fit. *)
Theorem fit_stores_feature_context (w : world)
    (self : LGBMEstimatorMultiThreshPRS.t M) (X_train y_train : pyobj)
    (var_sets_map : gmap string (list string)) (covar_cols : list string)
    (val_frac : float) (print_params : bool) (kwargs : gmap string pyval)
    (X : pyobj) :
  let task :=
    LGBMEstimatorPRS._task (LGBMEstimatorMultiThreshPRS.base self) in
  let outcome :=
    LGBMEstimatorMultiThreshPRS._fit group_counts w self X_train y_train
      var_sets_map covar_cols val_frac print_params kwargs in
  (forall (groups : pyval) (e : exn),
      kwargs !! "groups" = Some groups -> task = "rank" ->
      group_counts groups = Raise e ->
      outcome = (self, Raise e)) /\
  ((forall groups : pyval,
      kwargs !! "groups" = Some groups -> task = "rank" ->
      is_ok (group_counts groups) = true) ->
   LGBMEstimatorMultiThreshPRS.var_sets_map outcome.1 = Some var_sets_map /\
   LGBMEstimatorMultiThreshPRS.covar_cols outcome.1 = Some covar_cols /\
   LGBMEstimatorMultiThreshPRS._preprocess outcome.1 X =
     LGBMEstimatorMultiThreshPRS._preprocess
       (LGBMEstimatorMultiThreshPRS.Build
          (LGBMEstimatorMultiThreshPRS.base self)
          (Some var_sets_map) (Some covar_cols)) X).
Proof.
  intros task outcome. subst outcome.
  unfold LGBMEstimatorMultiThreshPRS._fit,
    LGBMEstimatorMultiThreshPRS.convert_groups. fold task. split.
  - intros groups e -> Htask He. rewrite decide_True by exact Htask.
    by rewrite He.
  - intros Hgroups.
    assert (Hconverted : exists kwargs' : gmap string pyval,
              match kwargs !! "groups" with
              | Some groups =>
                  if decide (task = "rank")
                  then counts ← group_counts groups;
                       Ok (<["group" := counts]> (delete "groups" kwargs))
                  else Ok (delete "groups" kwargs)
              | None => Ok kwargs
              end = Ok kwargs').
    { destruct (kwargs !! "groups") as [groups|] eqn:Hg; [|by eexists].
      case_decide as Htask; [|by eexists].
      specialize (Hgroups groups eq_refl Htask).
      destruct (group_counts groups); [by eexists|discriminate]. }
    destruct Hconverted as [kwargs' ->].
    pose proof (fit_protocol_params
                  ["early_stopping_rounds"; "filter_threshold"]
                  w (LGBMEstimatorMultiThreshPRS.base self)
                  (LGBMEstimatorMultiThreshPRS._preprocess
                     (LGBMEstimatorMultiThreshPRS.Build
                        (LGBMEstimatorMultiThreshPRS.base self)
                        (Some var_sets_map) (Some covar_cols)) X_train)
                  y_train val_frac kwargs' "filter_threshold") as Hparams.
    simpl.
    destruct (LGBMEstimatorPRS.finish_fit _ _ _) as [base' r]. simpl in *.
    split; [reflexivity|]. split; [reflexivity|].
    unfold LGBMEstimatorMultiThreshPRS._preprocess, getitem_param. simpl.
    by rewrite Hparams.
Qed.

(** X24: a freshly constructed multi-threshold estimator has no threshold map:
    its [_preprocess] raises for every table until [_fit] has been
    called. *)
Theorem preprocess_before_fit (task : string) (is_classification scale : bool)
    (max_n_estimators max_bin : Z) (base_params config : gmap string pyval)
    (filter_threshold : pyval) (X : pyobj) :
  is_ok (LGBMEstimatorMultiThreshPRS._preprocess
           (LGBMEstimatorMultiThreshPRS.__init__ (M := M) task
              is_classification max_n_estimators max_bin base_params) X) = false /\
  forall en : ElasticNetEstimatorMultiThreshPRS.t,
    ElasticNetEstimatorMultiThreshPRS.__init__ filter_threshold task scale
      config = Ok en ->
    ElasticNetEstimatorMultiThreshPRS._preprocess en X = (en, Raise TypeError).
Proof.
  split.
  - unfold LGBMEstimatorMultiThreshPRS._preprocess. simpl.
    by destruct (getitem_param _ _).
  - intros en. unfold ElasticNetEstimatorMultiThreshPRS.__init__.
    destruct (ElasticNetEstimatorPRS.__init__ _ _ _); [|discriminate].
    intros [= <-]. reflexivity.
Qed.

End MultiThreshold.

Lemma fit_stores_feature_context_witness :
  LGBMEstimatorMultiThreshPRS._fit Fixture.checked_group_counts
    Fixture.row1_to_validation Fixture.ranker_multi
    (PdDataFrame Fixture.genotypes) (NdArray1 [0; 1]%float)
    Fixture.thresholds Fixture.covariates 0.5%float false
    {[ "groups" := VNone ]} =
    (Fixture.ranker_multi, Raise TypeError) /\
  let fitted :=
    (LGBMEstimatorMultiThreshPRS._fit Fixture.checked_group_counts
       Fixture.row1_to_validation Fixture.ranker_multi
       (PdDataFrame Fixture.genotypes) (NdArray1 [0; 1]%float)
       Fixture.thresholds Fixture.covariates 0.5%float false
       {[ "groups" := VIntArray [1; 1]%Z ]}).1 in
  LGBMEstimatorMultiThreshPRS.var_sets_map fitted = Some Fixture.thresholds /\
  LGBMEstimatorMultiThreshPRS.covar_cols fitted = Some Fixture.covariates /\
  LGBMEstimatorMultiThreshPRS._preprocess fitted
    (PlDataFrame Fixture.genotypes) =
    LGBMEstimatorMultiThreshPRS._preprocess
      (LGBMEstimatorMultiThreshPRS.Build
         (LGBMEstimatorMultiThreshPRS.base Fixture.ranker_multi)
         (Some Fixture.thresholds) (Some Fixture.covariates))
      (PlDataFrame Fixture.genotypes).
Proof.
  split.
  - apply (proj1 (fit_stores_feature_context Fixture.checked_group_counts
                    Fixture.row1_to_validation Fixture.ranker_multi
                    (PdDataFrame Fixture.genotypes) (NdArray1 [0; 1]%float)
                    Fixture.thresholds Fixture.covariates 0.5%float false
                    {[ "groups" := VNone ]} (PlDataFrame Fixture.genotypes))
             VNone TypeError); reflexivity.
  - apply (proj2 (fit_stores_feature_context Fixture.checked_group_counts
                    Fixture.row1_to_validation Fixture.ranker_multi
                    (PdDataFrame Fixture.genotypes) (NdArray1 [0; 1]%float)
                    Fixture.thresholds Fixture.covariates 0.5%float false
                    {[ "groups" := VIntArray [1; 1]%Z ]}
                    (PlDataFrame Fixture.genotypes))).
    intros groups Hgroups _. vm_compute in Hgroups.
    injection Hgroups as <-. reflexivity.
Defined.

Lemma locate_columns_missing (missing : string -> exn) (cols wanted : list string)
    (c : string) :
  c ∈ wanted -> c ∉ cols ->
  is_ok (locate_columns missing cols wanted) = false.
Proof.
  intros Hin Hnot. induction wanted as [|c' wanted IH];
    [by apply elem_of_nil in Hin|].
  simpl. destruct (list_index c' cols) as [j|] eqn:Hj; [|reflexivity].
  apply elem_of_cons in Hin as [->|Hin].
  - exfalso. apply Hnot. apply list_index_lookup in Hj.
    by eapply list_elem_of_lookup_2.
  - specialize (IH Hin). by destruct (locate_columns missing cols wanted).
Qed.

Lemma locate_all_missing (cols wanted : list string) (c : string) :
  c ∈ wanted -> c ∉ cols -> is_ok (locate_all cols wanted) = false.
Proof.
  intros Hin Hnot. induction wanted as [|c' wanted IH];
    [by apply elem_of_nil in Hin|].
  simpl. destruct (label_positions c' cols 0) as [|j js] eqn:Hjs;
    [reflexivity|].
  apply elem_of_cons in Hin as [->|Hin].
  - exfalso. destruct (list_index c' cols) as [j'|] eqn:Hj'.
    + apply Hnot. apply list_index_lookup in Hj'.
      by eapply list_elem_of_lookup_2.
    + by rewrite label_positions_absent in Hjs.
  - specialize (IH Hin). by destruct (locate_all cols wanted).
Qed.

(** X25: a covariate or an eligible variant that the table does not have makes
    the feature subsetting of both [_preprocess] methods raise: no table
    with fewer columns than asked for is ever returned. *)
Theorem preprocess_missing_column {M : Type} `{LightGBM M}
    (lg : LGBMEstimatorMultiThreshPRS.t M)
    (en : ElasticNetEstimatorMultiThreshPRS.t)
    (m : gmap string (list string)) (covars var_subset : list string)
    (k c : string) (X : pyobj) (f : frame) :
  LGBMEstimatorMultiThreshPRS.var_sets_map lg = Some m ->
  LGBMEstimatorMultiThreshPRS.covar_cols lg = Some covars ->
  LGBMEstimatorPRS.params (LGBMEstimatorMultiThreshPRS.base lg)
    !! "filter_threshold" = Some (VStr k) ->
  ElasticNetEstimatorMultiThreshPRS.var_sets_map en = Some m ->
  ElasticNetEstimatorMultiThreshPRS.covar_cols en = Some covars ->
  ElasticNetEstimatorMultiThreshPRS.filter_threshold en = VStr k ->
  m !! k = Some var_subset ->
  X = PdDataFrame f \/ X = PlDataFrame f ->
  c ∈ covars ++ var_subset ->
  c ∉ columns f ->
  is_ok (LGBMEstimatorMultiThreshPRS._preprocess lg X) = false /\
  is_ok (ElasticNetEstimatorMultiThreshPRS._preprocess en X).2 = false /\
  (ElasticNetEstimatorMultiThreshPRS._preprocess en X).1 = en.
Proof.
  intros Hlm Hlc Hlk Hem Hec Hek Hk HX Hin Hnot.
  assert (Hsel : is_ok (getitem_columns X (covars ++ var_subset)) = false).
  { destruct HX as [-> | ->]; simpl.
    - pose proof (locate_all_missing (columns f) _ c Hin Hnot) as Hloc.
      by destruct (locate_all _ _).
    - pose proof (locate_columns_missing ColumnNotFoundError
                    (columns f) _ c Hin Hnot) as Hloc.
      by destruct (locate_columns _ _ _). }
  unfold LGBMEstimatorMultiThreshPRS._preprocess,
    ElasticNetEstimatorMultiThreshPRS._preprocess, getitem_param.
  rewrite Hlm, Hlc, Hlk, Hem, Hec, Hek. simpl. rewrite Hk. simpl.
  by destruct (getitem_columns X (covars ++ var_subset)).
Qed.

Lemma preprocess_missing_column_witness :
  is_ok (LGBMEstimatorMultiThreshPRS._preprocess Fixture.lgbm_multi
           (PdDataFrame Fixture.four_rows)) = false /\
  is_ok (ElasticNetEstimatorMultiThreshPRS._preprocess Fixture.elastic_multi
           (PdDataFrame Fixture.four_rows)).2 = false /\
  (ElasticNetEstimatorMultiThreshPRS._preprocess Fixture.elastic_multi
     (PdDataFrame Fixture.four_rows)).1 = Fixture.elastic_multi.
Proof.
  apply (preprocess_missing_column Fixture.lgbm_multi Fixture.elastic_multi
           Fixture.thresholds Fixture.covariates ["rs3"; "rs1"] "p1e-3" "age"
           (PdDataFrame Fixture.four_rows) Fixture.four_rows);
    try reflexivity.
  - by left.
  - compute_done.
  - compute_done.
Defined.

(** ** The SGD estimators *)

(** X26: the SGD constructors accept the regression task only and always turn
    the learner's own early stopping on; unlike the multi-threshold
    elastic-net class, the multi-threshold SGD class scales exactly when
    [scale] is true, and it starts without threshold map and covariates. *)
Theorem sgd_construction (filter_threshold : pyval) (task : string)
    (scale : bool) (penalty : string) (max_iter verbose : Z)
    (config : gmap string pyval) :
  config !! "early_stopping" = None ->
  (task ≠ "regression" ->
     SGDRegressorPRS.__init__ task scale penalty max_iter verbose config =
       Raise ValueError /\
     SGDRegressorMultiThreshPRS.__init__ filter_threshold task scale penalty
       max_iter verbose config = Raise ValueError) /\
  (task = "regression" ->
     exists multi : SGDRegressorMultiThreshPRS.t,
       SGDRegressorMultiThreshPRS.__init__ filter_threshold task scale penalty
         max_iter verbose config = Ok multi /\
       SGDRegressorPRS.params (SGDRegressorMultiThreshPRS.base multi)
         !! "early_stopping" = Some (VBool true) /\
       (SGDRegressorPRS.scaler (SGDRegressorMultiThreshPRS.base multi) =
          if scale then Some CustomMinMaxScaler.__init__ else None) /\
       SGDRegressorMultiThreshPRS.var_sets_map multi = None /\
       SGDRegressorMultiThreshPRS.covar_cols multi = None).
Proof.
  intros Hcfg.
  assert (Hnot : ¬ is_Some (config !! "early_stopping"))
    by (rewrite Hcfg; by intros [? ?]).
  unfold SGDRegressorMultiThreshPRS.__init__, SGDRegressorPRS.__init__,
    SCALE_BY_DEFAULT.
  repeat (rewrite (decide_False (P := is_Some _)) by exact Hnot). split.
  - intros Hne. repeat (rewrite decide_True by exact Hne). by split.
  - intros ->. repeat (rewrite decide_False by (by intros [])). simpl.
    eexists. split; [reflexivity|].
    destruct scale; simpl; repeat split; by simplify_map_eq.
Qed.

Lemma sgd_construction_witness :
  exists multi : SGDRegressorMultiThreshPRS.t,
    SGDRegressorMultiThreshPRS.__init__ (VStr "p1e-3") "regression" false
      "elasticnet" 10000 0 ∅ = Ok multi /\
    SGDRegressorPRS.params (SGDRegressorMultiThreshPRS.base multi)
      !! "early_stopping" = Some (VBool true) /\
    (SGDRegressorPRS.scaler (SGDRegressorMultiThreshPRS.base multi) =
       if false then Some CustomMinMaxScaler.__init__ else None) /\
    SGDRegressorMultiThreshPRS.var_sets_map multi = None /\
    SGDRegressorMultiThreshPRS.covar_cols multi = None.
Proof.
  assert (Hcfg : (∅ : gmap string pyval) !! "early_stopping" = None)
    by reflexivity.
  destruct (sgd_construction (VStr "p1e-3") "regression" false "elasticnet"
              10000 0 ∅ Hcfg) as [_ Hok].
  apply Hok. reflexivity.
Defined.

(** X27: once its [_fit] has stored the threshold map and the covariates, the
    multi-threshold SGD estimator preprocesses as the multi-threshold
    elastic-net estimator with the same attributes does: the same result
    and the same change of the scaler.  Before that it raises
    [AttributeError]. *)
Theorem sgd_preprocess_as_elastic_net (self : SGDRegressorMultiThreshPRS.t)
    (X : pyobj) :
  (SGDRegressorMultiThreshPRS.var_sets_map self = None ->
     SGDRegressorMultiThreshPRS._preprocess self X =
       (self, Raise AttributeError)) /\
  (is_Some (SGDRegressorMultiThreshPRS.var_sets_map self) ->
   is_Some (SGDRegressorMultiThreshPRS.covar_cols self) ->
     (SGDRegressorMultiThreshPRS._preprocess self X).2 =
       (ElasticNetEstimatorMultiThreshPRS._preprocess (as_elastic_net self) X).2 /\
     as_elastic_net (SGDRegressorMultiThreshPRS._preprocess self X).1 =
       (ElasticNetEstimatorMultiThreshPRS._preprocess (as_elastic_net self) X).1).
Proof.
  destruct self as [[t p sc sf] vm cc ft].
  unfold SGDRegressorMultiThreshPRS._preprocess,
    SGDRegressorMultiThreshPRS.select_features,
    ElasticNetEstimatorMultiThreshPRS._preprocess,
    ElasticNetEstimatorPRS._preprocess, as_elastic_net, subset_features.
  cbn -[lookup_threshold getitem_columns CustomMinMaxScaler.fit_transform
        CustomMinMaxScaler.transform].
  split.
  - by intros ->.
  - intros [m ->] [c ->].
    cbn -[lookup_threshold getitem_columns CustomMinMaxScaler.fit_transform
          CustomMinMaxScaler.transform].
    destruct (lookup_threshold (Some m) ft) as [vs|e];
      cbn -[getitem_columns CustomMinMaxScaler.fit_transform
            CustomMinMaxScaler.transform]; [|by split].
    destruct (getitem_columns X (c ++ vs)) as [X'|e];
      cbn -[CustomMinMaxScaler.fit_transform CustomMinMaxScaler.transform];
      [|by split].
    destruct sc as [sc|]; [|by split].
    destruct sf; cbn -[CustomMinMaxScaler.fit_transform
                       CustomMinMaxScaler.transform]; [by split|].
    by destruct (CustomMinMaxScaler.fit_transform sc X') as [sc' [X''|e]].
Qed.

(** ** Search spaces *)

(** X28: in the three search spaces every [init_value] and every
    [low_cost_init_value] is a value of its entry's domain, and no name is
    declared twice. *)
Theorem search_spaces_start_in_domain (space : list (string * hyperparameter)) :
  space ∈ [LGBM_search_space; ElasticNet_search_space; SGD_search_space] ->
  Forall (fun kh => starts_in_domain kh.2 = true) space /\ NoDup space.*1.
Proof.
  intros Hin. repeat (apply elem_of_cons in Hin as [-> | Hin]).
  - split; [repeat constructor|compute_done].
  - split; [repeat constructor|compute_done].
  - split; [repeat constructor|compute_done].
  - by apply elem_of_nil in Hin.
Qed.

Lemma search_spaces_start_in_domain_witness :
  Forall (fun kh => starts_in_domain kh.2 = true) SGD_search_space /\
  NoDup SGD_search_space.*1.
Proof.
  apply (search_spaces_start_in_domain SGD_search_space).
  apply (list_elem_of_lookup_2 _ 2). reflexivity.
Defined.

(** ** Slices *)

(** X29: for ordered bounds a row slice is the same rows whether the table is a
    pandas or a polars dataframe, and it never fails: bounds beyond the end
    of the table are cut to it. *)
Theorem subset_data_same_rows (f : frame) (start end_ : nat) :
  start <= end_ ->
  subset_data (PdDataFrame f) start end_ 0 =
    Ok (PdDataFrame (Frame (columns f) (take (end_ - start) (drop start (rows f))))) /\
  subset_data (PlDataFrame f) start end_ 0 =
    Ok (PlDataFrame (Frame (columns f) (take (end_ - start) (drop start (rows f))))) /\
  length (take (end_ - start) (drop start (rows f))) =
    Nat.min end_ (length (rows f)) - start.
Proof.
  intros Hle. simpl. rewrite pl_slice_ordered by exact Hle. simpl.
  split; [reflexivity|]. split; [reflexivity|].
  rewrite length_take, length_drop. lia.
Qed.

Lemma subset_data_same_rows_witness :
  subset_data (PdDataFrame Fixture.four_rows) 2 9 0 =
    Ok (PdDataFrame (Frame (columns Fixture.four_rows)
                       (take (9 - 2) (drop 2 (rows Fixture.four_rows))))) /\
  subset_data (PlDataFrame Fixture.four_rows) 2 9 0 =
    Ok (PlDataFrame (Frame (columns Fixture.four_rows)
                       (take (9 - 2) (drop 2 (rows Fixture.four_rows))))) /\
  length (take (9 - 2) (drop 2 (rows Fixture.four_rows))) =
    Nat.min 9 (length (rows Fixture.four_rows)) - 2.
Proof.
  apply (subset_data_same_rows Fixture.four_rows 2 9). lia.
Defined.

(** X30: the [axis] argument is honoured by the pandas branch only: with an axis
    other than 0 a pandas table keeps all its rows and is cut by columns,
    a polars table is cut by rows as if the axis were 0, and a
    one-dimensional object cannot be cut: a pandas series raises the
    [IndexingError] of pandas (too many indexers), which is no
    [IndexError], a numpy array raises [IndexError]. *)
Theorem subset_data_axis (f : frame) (v : list float) (start end_ : nat)
    (axis : Z) :
  axis ≠ 0%Z ->
  (exists f' : frame,
     subset_data (PdDataFrame f) start end_ axis = Ok (PdDataFrame f') /\
     columns f' = take (end_ - start) (drop start (columns f)) /\
     length (rows f') = length (rows f)) /\
  subset_data (PlDataFrame f) start end_ axis =
    subset_data (PlDataFrame f) start end_ 0 /\
  subset_data (PdSeries v) start end_ axis = Raise IndexingError /\
  subset_data (NdArray1 v) start end_ axis = Raise IndexError.
Proof.
  intros Haxis. simpl. rewrite !decide_False by exact Haxis.
  split; [|by repeat split].
  eexists. split; [reflexivity|]. split; [reflexivity|]. simpl.
  by rewrite length_map.
Qed.

Lemma subset_data_axis_witness :
  (exists f' : frame,
     subset_data (PdDataFrame Fixture.genotypes) 2 5 1 = Ok (PdDataFrame f') /\
     columns f' = take (5 - 2) (drop 2 (columns Fixture.genotypes)) /\
     length (rows f') = length (rows Fixture.genotypes)) /\
  subset_data (PlDataFrame Fixture.genotypes) 2 5 1 =
    subset_data (PlDataFrame Fixture.genotypes) 2 5 0 /\
  subset_data (PdSeries Fixture.four_labels) 2 5 1 = Raise IndexingError /\
  subset_data (NdArray1 Fixture.four_labels) 2 5 1 = Raise IndexError.
Proof.
  apply (subset_data_axis Fixture.genotypes Fixture.four_labels 2 5 1). lia.
Defined.

Lemma polars_constant_column_becomes_zero_witness :
  exists (self : CustomMinMaxScaler.t) (f' : frame),
    CustomMinMaxScaler.fit_transform CustomMinMaxScaler.__init__
      (PlDataFrame Fixture.constant_table) = (self, Ok (PlDataFrame f')) /\
    get_column f' 1 = replicate 3 0%float.
Proof.
  apply (polars_constant_column_becomes_zero Fixture.constant_table 1 2 7%float).
  - compute_done.
  - repeat constructor.
  - simpl. lia.
  - reflexivity.
  - reflexivity.
Defined.
